(** * News-Sentiment-Analyzer: a shallow embedding of the fetch / score /
      aggregate pipeline and the properties its specification states.

    The Python sources embedded here are
      - [backend/models/article.py]          (modules [Article], [HeadlineSentiment],
                                              [ContentSentiment], [AnalyzedArticle])
      - [backend/models/analysis_report.py]  (module [AnalysisReport])
      - [backend/services/sentiment_engine.py]  (module [SentimentEngine])
      - [backend/services/news_aggregator.py]   (module [NewsAggregator])
      - [backend/services/financial_data_service.py] (module [FinancialDataService])
      - [backend/app.py]                     (module [App])
      - [gold.py], the first script          (module [Gold])

    Conventions.
      - A Python [float] is a type [R] with the operations of the class
        [PyFloat].  Two instances are given: the rationals [Q] (exact
        arithmetic, used for the general theorems) and IEEE binary64
        ([PrimFloat.float], used to evaluate the concrete scenarios the way
        CPython does).
      - A Python [str] is a [string]; its characters are read as the code
        points 0..255.
      - A [dict] is an association list in insertion order, a [set] of
        strings is a [gset string].
      - A call that may raise returns an [option] ([None] = the exception);
        the [try/except] blocks of the source are written out as matches. *)

From Stdlib Require Import QArith Qabs Qminmax Qround Lqa PrimFloat Ascii.
From stdpp Require Import gmap strings list.

Set Warnings "-inexact-float,-register-all,-clear-no-such-hyp".

(* ================================================================== *)
(** * Python numbers *)

Class PyFloat (R : Type) : Type := {
  f_lit : Z -> positive -> R;      (* the decimal literal n/d, e.g. 0.15 = 15/100 *)
  f_add : R -> R -> R;
  f_sub : R -> R -> R;
  f_mul : R -> R -> R;
  f_div : R -> R -> R;
  f_abs : R -> R;
  f_ltb : R -> R -> bool           (* x < y *)
}.

Declare Scope pyf_scope.
Delimit Scope pyf_scope with pyf.
Notation "x + y" := (f_add x y) : pyf_scope.
Notation "x - y" := (f_sub x y) : pyf_scope.
Notation "x * y" := (f_mul x y) : pyf_scope.
Notation "x / y" := (f_div x y) : pyf_scope.
Notation "x <? y" := (f_ltb x y) : pyf_scope.
Notation "x >? y" := (f_ltb y x) : pyf_scope.

(** Exact arithmetic. *)
Definition Qltb (x y : Q) : bool := negb (Qle_bool y x).

#[export] Instance Q_PyFloat : PyFloat Q := {|
  f_lit n d := Qmake n d;
  f_add := Qplus;
  f_sub := Qminus;
  f_mul := Qmult;
  f_div := Qdiv;
  f_abs := Qabs;
  f_ltb := Qltb
|}.

(** IEEE binary64, the arithmetic CPython runs.  A literal [n/d] with small
    [n] and [d] is the correctly rounded quotient of two exactly represented
    integers, which is the double the Python parser picks for it. *)
Fixpoint pos_to_float (p : positive) : float :=
  match p with
  | xH => 1%float
  | xO p' => PrimFloat.mul 2%float (pos_to_float p')
  | xI p' => PrimFloat.add (PrimFloat.mul 2%float (pos_to_float p')) 1%float
  end.

Definition Z_to_float (z : Z) : float :=
  match z with
  | Z0 => 0%float
  | Zpos p => pos_to_float p
  | Zneg p => PrimFloat.opp (pos_to_float p)
  end.

#[export] Instance binary64_PyFloat : PyFloat float := {|
  f_lit n d := PrimFloat.div (Z_to_float n) (pos_to_float d);
  f_add := PrimFloat.add;
  f_sub := PrimFloat.sub;
  f_mul := PrimFloat.mul;
  f_div := PrimFloat.div;
  f_abs := PrimFloat.abs;
  f_ltb := PrimFloat.ltb
|}.

(** [sum(values)]: Python starts from the integer 0 and adds left to right. *)
Definition py_sum {R} `{PyFloat R} (xs : list R) : R :=
  fold_left f_add xs (f_lit 0 1).

(* ================================================================== *)
(** * Python strings *)

Module PyStr.

Definition code (c : ascii) : nat := nat_of_ascii c.

(** [str.isspace] on the code points below 256. *)
Definition is_space (c : ascii) : bool :=
  let n := code c in
  ((9 <=? n) && (n <=? 13)) || ((28 <=? n) && (n <=? 32))
  || (n =? 133) || (n =? 160).

Fixpoint lstrip (s : string) : string :=
  match s with
  | EmptyString => EmptyString
  | String c s' => if is_space c then lstrip s' else s
  end.

Definition rstrip (s : string) : string := String.rev (lstrip (String.rev s)).

(** [s.strip()] *)
Definition strip (s : string) : string := rstrip (lstrip s).

(** Truthiness of a string: [not s] is [is_empty s]. *)
Definition is_empty (s : string) : bool :=
  match s with EmptyString => true | _ => false end.

(** [not s or not s.strip()] *)
Definition is_blank (s : string) : bool := is_empty s || is_empty (strip s).

(** [s.lower()] on the code points below 256: A-Z and the Latin-1 capitals
    (192..222 without the multiplication sign 215) move up by 32. *)
Definition lower_char (c : ascii) : ascii :=
  let n := code c in
  if ((65 <=? n) && (n <=? 90)) || ((192 <=? n) && (n <=? 222) && negb (n =? 215))
  then ascii_of_nat (n + 32) else c.

Fixpoint lower (s : string) : string :=
  match s with
  | EmptyString => EmptyString
  | String c s' => String (lower_char c) (lower s')
  end.

(** [s.startswith(p)] *)
Definition startswith (s p : string) : bool := String.prefix p s.

(** [p in s] for strings *)
Fixpoint contains (p s : string) : bool :=
  String.prefix p s ||
  match s with
  | EmptyString => false
  | String _ s' => contains p s'
  end.

(** [x in [a, b, ...]] for a list of strings *)
Definition in_list (x : string) (l : list string) : bool :=
  existsb (String.eqb x) l.

(** [s[:n]] *)
Definition take (n : nat) (s : string) : string := String.substring 0 n s.

End PyStr.

(* ================================================================== *)
(** * Python dictionaries with string keys *)

Module PyDict.
Section Dict.
Context {V : Type}.

Definition keys (d : list (string * V)) : list string := map fst d.
Definition values (d : list (string * V)) : list V := map snd d.

(** [d.get(k)] *)
Fixpoint get (k : string) (d : list (string * V)) : option V :=
  match d with
  | [] => None
  | (k', v) :: d' => if String.eqb k k' then Some v else get k d'
  end.

(** [k in d] *)
Definition mem (k : string) (d : list (string * V)) : bool :=
  match get k d with Some _ => true | None => false end.

(** [d[k] = f(d[k])] for a key that is present; the dict is unchanged
    when it is not (the callers check or fail before). *)
Fixpoint update (f : V -> V) (k : string) (d : list (string * V)) : list (string * V) :=
  match d with
  | [] => []
  | (k', v) :: d' =>
      if String.eqb k k' then (k', f v) :: d' else (k', v) :: update f k d'
  end.

(** [set(d.keys())] *)
Definition key_set (d : list (string * V)) : gset string := list_to_set (keys d).
End Dict.
End PyDict.

(* ================================================================== *)
(** * The values a serialised record is made of *)

(** What [to_dict] builds and [from_dict] reads: [None], strings, integers,
    floats, lists, and dictionaries with string keys. *)
Inductive pyval (R : Type) : Type :=
  | PNone
  | PStr (s : string)
  | PInt (z : Z)
  | PFloat (x : R)
  | PList (l : list (pyval R))
  | PDict (d : list (string * pyval R)).
Arguments PNone {R}.
Arguments PStr {R} s.
Arguments PInt {R} z.
Arguments PFloat {R} x.
Arguments PList {R} l.
Arguments PDict {R} d.

Module PyVal.
Section Readers.
Context {R : Type} `{!PyFloat R}.

(** The readers give [None] for a value of another shape: a record of the
    embedding holds values of its declared field types only. *)
Definition as_str (v : pyval R) : option string :=
  match v with PStr s => Some s | _ => None end.

Definition as_int (v : pyval R) : option Z :=
  match v with PInt z => Some z | _ => None end.

(** A field declared [float] takes an [int] as well. *)
Definition as_float (v : pyval R) : option R :=
  match v with PFloat x => Some x | PInt z => Some (f_lit z 1) | _ => None end.

Definition as_list (v : pyval R) : option (list (pyval R)) :=
  match v with PList l => Some l | _ => None end.

Definition as_dict (v : pyval R) : option (list (string * pyval R)) :=
  match v with PDict d => Some d | _ => None end.

(** A dictionary all of whose values are read by [read]. *)
Definition dict_of (A : Type) (read : pyval R -> option A)
    (d : list (string * pyval R)) : option (list (string * A)) :=
  mapM (fun kv : string * pyval R => v ← read kv.2; Some (kv.1, v)) d.

(** A dataclass without defaults built from the entries of [data] as
    keyword arguments: every key of [data] has to be a field (each field is
    then looked up, which fails for a missing one). *)
(** [data[key]] read at the type of the field it goes to. *)
Definition field_str (key : string) (data : list (string * pyval R)) : option string :=
  v ← PyDict.get key data; as_str v.

Definition field_int (key : string) (data : list (string * pyval R)) : option Z :=
  v ← PyDict.get key data; as_int v.

Definition field_float (key : string) (data : list (string * pyval R)) : option R :=
  v ← PyDict.get key data; as_float v.

Definition field_list (key : string) (data : list (string * pyval R))
    : option (list (pyval R)) :=
  v ← PyDict.get key data; as_list v.

Definition field_dict (key : string) (data : list (string * pyval R))
    : option (list (string * pyval R)) :=
  v ← PyDict.get key data; as_dict v.

Definition only_fields (fields : list string) (data : list (string * pyval R)) : bool :=
  forallb (fun k => PyStr.in_list k fields) (PyDict.keys data).
End Readers.
End PyVal.

(* ================================================================== *)
(** * backend/models/article.py *)

Module Article.

Record t : Type := mk {
  title : string;
  url : string;
  published : string;
  content : string;
  source_type : string   (* "Full Article" or "Headline Only" *)
}.

Definition validate (self : t) : bool :=
  if PyStr.is_blank (title self) then false
  else if PyStr.is_empty (url self)
          || negb (PyStr.startswith (url self) "http://"
                   || PyStr.startswith (url self) "https://") then false
  else if PyStr.is_blank (content self) then false
  else if negb (PyStr.in_list (source_type self) ["Full Article"; "Headline Only"]) then false
  else true.

(** [asdict(self)] *)
Definition to_dict {R : Type} (self : t) : list (string * pyval R) :=
  [("title", PStr (title self)); ("url", PStr (url self));
   ("published", PStr (published self)); ("content", PStr (content self));
   ("source_type", PStr (source_type self))].

(** the constructor called with the entries of [data] as keyword arguments *)
Definition from_dict {R : Type} (data : list (string * pyval R)) : option t :=
  if PyVal.only_fields ["title"; "url"; "published"; "content"; "source_type"] data then
    title ← PyVal.field_str "title" data;
    url ← PyVal.field_str "url" data;
    published ← PyVal.field_str "published" data;
    content ← PyVal.field_str "content" data;
    source_type ← PyVal.field_str "source_type" data;
    Some (mk title url published content source_type)
  else None.

End Article.

Module HeadlineSentiment.
Section WithFloat.
Context {R : Type} `{!PyFloat R}.
Local Open Scope pyf_scope.

Record t : Type := mk {
  score : R;        (* VADER compound score (-1 to 1) *)
  label : string    (* "Positive", "Negative", "Neutral" *)
}.

Definition validate (self : t) : bool :=
  if (score self <? f_lit (-1) 1) || (score self >? f_lit 1 1) then false
  else if negb (PyStr.in_list (label self) ["Positive"; "Negative"; "Neutral"]) then false
  else true.

(** [asdict(self)] *)
Definition to_dict (self : t) : list (string * pyval R) :=
  [("score", PFloat (score self)); ("label", PStr (label self))].

(** the constructor called with the entries of [data] as keyword arguments *)
Definition from_dict (data : list (string * pyval R)) : option t :=
  if PyVal.only_fields ["score"; "label"] data then
    score ← PyVal.field_float "score" data;
    label ← PyVal.field_str "label" data;
    Some (mk score label)
  else None.
End WithFloat.
Arguments t : clear implicits.
End HeadlineSentiment.

Module ContentSentiment.
Section WithFloat.
Context {R : Type} `{!PyFloat R}.
Local Open Scope pyf_scope.

Record t : Type := mk {
  confidence : R;                       (* model confidence (0 to 1) *)
  label : string;                       (* "Positive", "Negative", "Neutral" *)
  probabilities : list (string * R)     (* raw probabilities for each class *)
}.

Definition validate (self : t) : bool :=
  if (confidence self <? f_lit 0 1) || (confidence self >? f_lit 1 1) then false
  else if negb (PyStr.in_list (label self) ["Positive"; "Negative"; "Neutral"]) then false
  else
    let prob_sum := py_sum (PyDict.values (probabilities self)) in
    if f_abs (prob_sum - f_lit 1 1) >? f_lit 1 100 then false
    else true.

(** [asdict(self)]; the dictionary of probabilities is copied entry by
    entry. *)
Definition to_dict (self : t) : list (string * pyval R) :=
  [("confidence", PFloat (confidence self)); ("label", PStr (label self));
   ("probabilities",
    PDict (map (fun kv : string * R => (kv.1, PFloat kv.2)) (probabilities self)))].

(** the constructor called with the entries of [data] as keyword arguments *)
Definition from_dict (data : list (string * pyval R)) : option t :=
  if PyVal.only_fields ["confidence"; "label"; "probabilities"] data then
    confidence ← PyVal.field_float "confidence" data;
    label ← PyVal.field_str "label" data;
    probabilities ←
      PyVal.field_dict "probabilities" data ≫= PyVal.dict_of R PyVal.as_float;
    Some (mk confidence label probabilities)
  else None.
End WithFloat.
Arguments t : clear implicits.
End ContentSentiment.

Module AnalyzedArticle.
Section WithFloat.
Context {R : Type} `{!PyFloat R}.

Record t : Type := mk {
  article : Article.t;
  headline_sentiment : HeadlineSentiment.t R;
  content_sentiment : ContentSentiment.t R
}.

Definition validate (self : t) : bool :=
  Article.validate (article self)
  && HeadlineSentiment.validate (headline_sentiment self)
  && ContentSentiment.validate (content_sentiment self).

Definition to_dict (self : t) : list (string * pyval R) :=
  [("article", PDict (Article.to_dict (article self)));
   ("headline_sentiment", PDict (HeadlineSentiment.to_dict (headline_sentiment self)));
   ("content_sentiment", PDict (ContentSentiment.to_dict (content_sentiment self)))].

Definition from_dict (data : list (string * pyval R)) : option t :=
  article ← PyVal.field_dict "article" data ≫= Article.from_dict;
  headline_sentiment ←
    PyVal.field_dict "headline_sentiment" data ≫= HeadlineSentiment.from_dict;
  content_sentiment ←
    PyVal.field_dict "content_sentiment" data ≫= ContentSentiment.from_dict;
  Some (mk article headline_sentiment content_sentiment).
End WithFloat.
Arguments t : clear implicits.
End AnalyzedArticle.

(* ================================================================== *)
(** * datetime (standard library), naive timestamps only *)

Module datetime.

Record t : Type := mk {
  year : N; month : N; day : N;
  hour : N; minute : N; second : N; microsecond : N
}.

Definition is_leap (y : N) : bool :=
  ((y mod 4 =? 0) && (negb (y mod 100 =? 0) || (y mod 400 =? 0)))%N.

Definition days_in_month (y m : N) : N :=
  if (m =? 2)%N then (if is_leap y then 29 else 28)%N
  else if ((m =? 4) || (m =? 6) || (m =? 9) || (m =? 11))%N then 30%N
  else 31%N.

(** The range check of the constructor; every [datetime] object passes it. *)
Definition wf (d : t) : bool :=
  ((1 <=? year d) && (year d <=? 9999) && (1 <=? month d) && (month d <=? 12)
   && (1 <=? day d) && (day d <=? days_in_month (year d) (month d))
   && (hour d <? 24) && (minute d <? 60) && (second d <? 60)
   && (microsecond d <? 1000000))%N.

Definition digit_char (n : N) : ascii := ascii_of_N (48 + n mod 10).

Definition digit_value (c : ascii) : option N :=
  let n := N_of_ascii c in
  if ((48 <=? n) && (n <=? 57))%N then Some (n - 48)%N else None.

(** The decimal digits of [n], most significant first, on [width] places. *)
Fixpoint pad (width : nat) (n : N) : string :=
  match width with
  | O => EmptyString
  | S w => String (digit_char (n / 10 ^ N.of_nat w)) (pad w n)
  end.

(** [self.isoformat()]: the fraction is printed when it is not zero. *)
Definition isoformat (self : t) : string :=
  pad 4 (year self) +:+ "-" +:+ pad 2 (month self) +:+ "-" +:+ pad 2 (day self)
  +:+ "T" +:+ pad 2 (hour self) +:+ ":" +:+ pad 2 (minute self) +:+ ":"
  +:+ pad 2 (second self)
  +:+ (if (microsecond self =? 0)%N then "" else "." +:+ pad 6 (microsecond self)).

(** Reads exactly [width] digits. *)
Fixpoint read_digits (width : nat) (acc : N) (s : string) : option (N * string) :=
  match width with
  | O => Some (acc, s)
  | S w =>
      match s with
      | EmptyString => None
      | String c s' => d ← digit_value c; read_digits w (10 * acc + d)%N s'
      end
  end.

Definition expect (c : ascii) (s : string) : option string :=
  match s with
  | String c' s' => if Ascii.eqb c c' then Some s' else None
  | EmptyString => None
  end.

(** The time part [HH[:MM[:SS[.fff[fff]]]]] as (hour, minute, second,
    microsecond). *)
Definition parse_time (s : string) : option (N * N * N * N) :=
  '(hh, s) ← read_digits 2 0 s;
  if PyStr.is_empty s then Some (hh, 0, 0, 0)%N
  else
    s ← expect ":" s;
    '(mi, s) ← read_digits 2 0 s;
    if PyStr.is_empty s then Some (hh, mi, 0, 0)%N
    else
      s ← expect ":" s;
      '(ss, s) ← read_digits 2 0 s;
      if PyStr.is_empty s then Some (hh, mi, ss, 0)%N
      else
        s ← expect "." s;
        '(ms, s) ← read_digits 3 0 s;
        if PyStr.is_empty s then Some (hh, mi, ss, ms * 1000)%N
        else
          '(us, s) ← read_digits 3 ms s;
          if PyStr.is_empty s then Some (hh, mi, ss, us) else None.

(** [datetime.fromisoformat(s)] for the strings without a UTC offset:
    [YYYY-MM-DD], then any one separator character and the time part.
    [None] is the [ValueError]. *)
Definition fromisoformat (s : string) : option t :=
  '(y, s) ← read_digits 4 0 s;
  s ← expect "-" s;
  '(m, s) ← read_digits 2 0 s;
  s ← expect "-" s;
  '(d, s) ← read_digits 2 0 s;
  '(hh, mi, ss, us) ←
    match s with
    | EmptyString => Some (0, 0, 0, 0)%N
    | String _ s' => parse_time s'
    end;
  let r := mk y m d hh mi ss us in
  if wf r then Some r else None.

End datetime.

(* ================================================================== *)
(** * backend/models/analysis_report.py *)

Module AnalysisReport.
Section WithFloat.
Context {R : Type} `{!PyFloat R}.
Local Open Scope pyf_scope.

Record t : Type := mk {
  timestamp : datetime.t;
  query : string;
  category : string;
  total_articles : Z;
  sentiment_distribution : list (string * Z);
  net_sentiment_score : R;
  market_signal : string;
  articles : list (AnalyzedArticle.t R);
  processing_time : R
}.

Definition _calculate_sentiment_distribution
    (articles : list (AnalyzedArticle.t R)) : list (string * Z) :=
  fold_left
    (fun distribution analyzed_article =>
       let sentiment_label :=
         ContentSentiment.label (AnalyzedArticle.content_sentiment analyzed_article) in
       if PyDict.mem sentiment_label distribution
       then PyDict.update (fun n => (n + 1)%Z) sentiment_label distribution
       else distribution)
    articles
    [("Positive", 0%Z); ("Negative", 0%Z); ("Neutral", 0%Z)].

(** The numeric value of a sentiment label. *)
Definition direction (label : string) : R :=
  if String.eqb label "Positive" then f_lit 1 1
  else if String.eqb label "Negative" then f_lit (-1) 1
  else f_lit 0 1.

(** One turn of the loop: the pair is (weighted_score, total_weight). *)
Definition score_step (acc : R * R) (analyzed_article : AnalyzedArticle.t R) : R * R :=
  let content_sentiment := AnalyzedArticle.content_sentiment analyzed_article in
  let confidence := ContentSentiment.confidence content_sentiment in
  (fst acc + direction (ContentSentiment.label content_sentiment) * confidence,
   snd acc + confidence).

Definition _calculate_net_sentiment_score
    (articles : list (AnalyzedArticle.t R)) : R :=
  match articles with
  | [] => f_lit 0 1
  | _ =>
      let '(weighted_score, total_weight) :=
        fold_left score_step articles (f_lit 0 1, f_lit 0 1) in
      if total_weight >? f_lit 0 1 then weighted_score / total_weight
      else f_lit 0 1
  end.

Definition _determine_market_signal (net_sentiment_score : R) : string :=
  if net_sentiment_score >? f_lit 15 100 then "BULLISH"
  else if net_sentiment_score <? f_lit (-15) 100 then "BEARISH"
  else "NEUTRAL".

(** The dataclass constructor followed by [__post_init__]: an empty
    distribution, a [None] score and an empty signal are derived from
    the articles, in this order. *)
Definition init (timestamp : datetime.t) (query category : string)
    (total_articles : Z) (sentiment_distribution : list (string * Z))
    (net_sentiment_score : option R) (market_signal : string)
    (articles : list (AnalyzedArticle.t R)) (processing_time : R) : t :=
  let sentiment_distribution :=
    match sentiment_distribution with
    | [] => _calculate_sentiment_distribution articles
    | _ => sentiment_distribution
    end in
  let net_sentiment_score :=
    match net_sentiment_score with
    | None => _calculate_net_sentiment_score articles
    | Some s => s
    end in
  let market_signal :=
    if PyStr.is_empty market_signal
    then _determine_market_signal net_sentiment_score
    else market_signal in
  mk timestamp query category total_articles sentiment_distribution
     net_sentiment_score market_signal articles processing_time.

Definition validate (self : t) : bool :=
  if (total_articles self <? 0)%Z then false
  else if (net_sentiment_score self <? f_lit (-1) 1)
          || (net_sentiment_score self >? f_lit 1 1) then false
  else if negb (PyStr.in_list (market_signal self) ["BULLISH"; "BEARISH"; "NEUTRAL"]) then false
  else if processing_time self <? f_lit 0 1 then false
  else if negb (bool_decide (PyDict.key_set (sentiment_distribution self)
                             = {["Positive"; "Negative"; "Neutral"]})) then false
  else if negb (Z.of_nat (length (articles self)) =? total_articles self)%Z then false
  else forallb AnalyzedArticle.validate (articles self).

(** [create_from_articles]; [now] is the value of [datetime.utcnow()]. *)
Definition create_from_articles (now : datetime.t) (query category : string)
    (articles : list (AnalyzedArticle.t R)) (processing_time : R) : t :=
  init now query category (Z.of_nat (length articles)) [] None ""
       articles processing_time.

(** [get_sentiment_percentages]: the share of each label in percent; an
    [int / int] division gives a float. *)
Definition get_sentiment_percentages (self : t) : list (string * R) :=
  if (total_articles self =? 0)%Z
  then [("Positive", f_lit 0 1); ("Negative", f_lit 0 1); ("Neutral", f_lit 0 1)]
  else
    map (fun kv : string * Z =>
           (kv.1, (f_lit kv.2 1 / f_lit (total_articles self) 1) * f_lit 100 1))
        (sentiment_distribution self).

Definition to_dict (self : t) : list (string * pyval R) :=
  [("timestamp", PStr (datetime.isoformat (timestamp self)));
   ("query", PStr (query self));
   ("category", PStr (category self));
   ("total_articles", PInt (total_articles self));
   ("sentiment_distribution",
    PDict (map (fun kv : string * Z => (kv.1, PInt kv.2)) (sentiment_distribution self)));
   ("net_sentiment_score", PFloat (net_sentiment_score self));
   ("market_signal", PStr (market_signal self));
   ("articles",
    PList (map (fun article => PDict (AnalyzedArticle.to_dict article)) (articles self)));
   ("processing_time", PFloat (processing_time self))].

(** A score that is [None] in the dictionary reaches the constructor as
    [None]. *)
Definition from_dict (data : list (string * pyval R)) : option t :=
  timestamp ← PyVal.field_str "timestamp" data ≫= datetime.fromisoformat;
  articles ←
    PyVal.field_list "articles" data
      ≫= mapM (fun article_data => PyVal.as_dict article_data ≫= AnalyzedArticle.from_dict);
  query ← PyVal.field_str "query" data;
  category ← PyVal.field_str "category" data;
  total_articles ← PyVal.field_int "total_articles" data;
  sentiment_distribution ←
    PyVal.field_dict "sentiment_distribution" data ≫= PyVal.dict_of Z PyVal.as_int;
  net_sentiment_score ←
    (v ← PyDict.get "net_sentiment_score" data;
     match v with
     | PNone => Some None
     | _ => Some <$> PyVal.as_float v
     end);
  market_signal ← PyVal.field_str "market_signal" data;
  processing_time ← PyVal.field_float "processing_time" data;
  Some (init timestamp query category total_articles sentiment_distribution
          net_sentiment_score market_signal articles processing_time).
End WithFloat.
Arguments t : clear implicits.
End AnalysisReport.

(* ================================================================== *)
(** * backend/services/sentiment_engine.py *)

Module SentimentEngine.

(** [text.split('. ')]; [cur] is the piece being read. *)
Fixpoint split_dot_space (cur s : string) : list string :=
  match s with
  | EmptyString => [cur]
  | String c s' =>
      match s' with
      | EmptyString => [cur +:+ String c EmptyString]
      | String c' s'' =>
          if Ascii.eqb c "." && Ascii.eqb c' " "
          then cur :: split_dot_space "" s''
          else split_dot_space (cur +:+ String c EmptyString) s'
      end
  end.

(** [text.split()]: the maximal runs of characters that are not spaces. *)
Fixpoint split_whitespace (cur s : string) : list string :=
  match s with
  | EmptyString => if PyStr.is_empty cur then [] else [cur]
  | String c s' =>
      if PyStr.is_space c
      then (if PyStr.is_empty cur then split_whitespace "" s'
            else cur :: split_whitespace "" s')
      else split_whitespace (cur +:+ String c EmptyString) s'
  end.

(** The two accumulation loops of [_truncate_text]: pieces are appended,
    each followed by [sep], until the first one that does not fit. *)
Fixpoint append_while_fits (sep : string) (max_text_length : nat)
    (truncated : string) (pieces : list string) : string :=
  match pieces with
  | [] => truncated
  | piece :: rest =>
      if String.length (truncated +:+ piece +:+ sep) <=? max_text_length
      then append_while_fits sep max_text_length (truncated +:+ piece +:+ sep) rest
      else truncated
  end.

Definition _truncate_text (max_text_length : nat) (text : string) : string :=
  if String.length text <=? max_text_length then text
  else
    let sentences := split_dot_space "" text in
    let truncated := append_while_fits ". " max_text_length "" sentences in
    let truncated :=
      if PyStr.is_empty truncated
      then append_while_fits " " max_text_length "" (split_whitespace "" text)
      else truncated in
    let truncated :=
      if PyStr.is_empty truncated then PyStr.take max_text_length text
      else truncated in
    PyStr.strip truncated.

(** What [calculate_market_signal] returns; the key [total_articles] is
    absent from the dictionary of the empty case. *)
Record market_stats {R : Type} : Type := mk_stats {
  market_signal : string;
  net_sentiment_score : R;
  sentiment_distribution : list (string * Z);
  confidence_weighted_score : R;
  total_articles : option Z
}.
Arguments market_stats : clear implicits.

Section Engine.
Context {R : Type} `{!PyFloat R}.
Local Open Scope pyf_scope.

(** The classifiers are collaborators.  [vader_compound text] is
    [self.vader.polarity_scores(text)['compound']]; [finbert_softmax text
    max_length] is the row of probabilities that tokenizer, model and
    softmax give; [None] stands for any exception they raise. *)
Variable vader_compound : string -> option R.
Variable finbert_softmax : string -> nat -> option (list R).
(** [config.MAX_TEXT_LENGTH] *)
Variable max_text_length : nat.

Definition finbert_labels : list string := ["Negative"; "Neutral"; "Positive"].

Definition analyze_headline (text : string) : HeadlineSentiment.t R :=
  let attempt : option (HeadlineSentiment.t R) :=
    if PyStr.is_blank text
    then Some (HeadlineSentiment.mk (f_lit 0 1) "Neutral")
    else
      compound_score ← vader_compound text;
      let label :=
        if compound_score >? f_lit 5 100 then "Positive"
        else if compound_score <? f_lit (-5) 100 then "Negative"
        else "Neutral" in
      Some (HeadlineSentiment.mk compound_score label) in
  match attempt with
  | Some r => r
  | None => HeadlineSentiment.mk (f_lit 0 1) "Neutral"
  end.

(** [np.argmax]: the first index that holds the largest entry; it raises
    on an empty array. *)
Fixpoint argmax_from (best_idx : nat) (best : R) (idx : nat) (xs : list R) : nat :=
  match xs with
  | [] => best_idx
  | x :: xs' =>
      if x >? best then argmax_from idx x (S idx) xs'
      else argmax_from best_idx best (S idx) xs'
  end.

Definition argmax (xs : list R) : option nat :=
  match xs with
  | [] => None
  | x :: xs' => Some (argmax_from 0 x 1 xs')
  end.

(** The value both the blank-input branch and the [except] branch build. *)
Definition neutral_fallback : ContentSentiment.t R :=
  ContentSentiment.mk (f_lit 33 100) "Neutral"
    [("Negative", f_lit 33 100); ("Neutral", f_lit 34 100); ("Positive", f_lit 33 100)].

(** The [try] block of [analyze_content]; [None] = it raised. *)
Definition analyze_content_try (text : string) : option (ContentSentiment.t R) :=
  if PyStr.is_blank text then Some neutral_fallback
  else
    let truncated_text := _truncate_text max_text_length text in
    probabilities ← finbert_softmax truncated_text max_text_length;
    predicted_idx ← argmax probabilities;
    predicted_label ← finbert_labels !! predicted_idx;
    confidence ← probabilities !! predicted_idx;
    let prob_dict := zip finbert_labels probabilities in
    Some (ContentSentiment.mk confidence predicted_label prob_dict).

Definition analyze_content (text : string) : ContentSentiment.t R :=
  match analyze_content_try text with
  | Some r => r
  | None => neutral_fallback
  end.

(** Neither analysis raises, so the [except] branch of [analyze_article]
    is never taken. *)
Definition analyze_article (article : Article.t) : AnalyzedArticle.t R :=
  let headline_sentiment := analyze_headline (Article.title article) in
  let content_sentiment := analyze_content (Article.content article) in
  AnalyzedArticle.mk article headline_sentiment content_sentiment.

Definition analyze_articles_batch (articles : list Article.t)
    : list (AnalyzedArticle.t R) :=
  fold_left (fun analyzed_articles article =>
               analyzed_articles ++ [analyze_article article])
            articles [].

(** One turn of the loop of [calculate_market_signal]; the state is
    (sentiment_counts, weighted_score, total_weight), and
    [sentiment_counts[label] += 1] raises [KeyError] for a label that is
    not a key. *)
Definition signal_step (st : option (list (string * Z) * R * R))
    (analyzed_article : AnalyzedArticle.t R) : option (list (string * Z) * R * R) :=
  '(sentiment_counts, weighted_score, total_weight) ← st;
  let content_sentiment := AnalyzedArticle.content_sentiment analyzed_article in
  let label := ContentSentiment.label content_sentiment in
  if PyDict.mem label sentiment_counts then
    let sentiment_counts := PyDict.update (fun n => (n + 1)%Z) label sentiment_counts in
    let confidence := ContentSentiment.confidence content_sentiment in
    let direction :=
      if String.eqb label "Positive" then f_lit 1 1
      else if String.eqb label "Negative" then f_lit (-1) 1
      else f_lit 0 1 in
    Some (sentiment_counts, weighted_score + direction * confidence,
          total_weight + confidence)
  else None.

Definition calculate_market_signal (analyzed_articles : list (AnalyzedArticle.t R))
    : option (market_stats R) :=
  match analyzed_articles with
  | [] =>
      Some (mk_stats R "NEUTRAL" (f_lit 0 1)
              [("Positive", 0%Z); ("Negative", 0%Z); ("Neutral", 0%Z)]
              (f_lit 0 1) None)
  | _ =>
      '(sentiment_counts, weighted_score, total_weight) ←
        fold_left signal_step analyzed_articles
          (Some ([("Positive", 0%Z); ("Negative", 0%Z); ("Neutral", 0%Z)],
                 f_lit 0 1, f_lit 0 1));
      let net_sentiment_score :=
        if total_weight >? f_lit 0 1 then weighted_score / total_weight
        else f_lit 0 1 in
      let market_signal :=
        if net_sentiment_score >? f_lit 15 100 then "BULLISH"
        else if net_sentiment_score <? f_lit (-15) 100 then "BEARISH"
        else "NEUTRAL" in
      Some (mk_stats R market_signal net_sentiment_score sentiment_counts
              weighted_score (Some (Z.of_nat (length analyzed_articles))))
  end.
End Engine.
End SentimentEngine.


(* ================================================================== *)
(** * backend/services/news_aggregator.py *)

Module NewsAggregator.

(** An entry of a parsed feed.  A field the feed did not give is [None]:
    reading it as an attribute ([entry.link], [entry.title]) raises,
    [entry.get('published', '')] gives the default. *)
Record rss_entry : Type := mk_entry {
  entry_title : option string;
  entry_link : option string;
  entry_published : option string
}.

(** The state of the worker pool of [fetch_articles]: the submitted entries
    no worker has taken yet, the entries the workers are processing, and
    the articles collected from the completed ones. *)
Record pool : Type := mk_pool {
  queue : list rss_entry;
  running : list rss_entry;
  articles : list Article.t
}.

Section Aggregator.

(** Configuration. *)
Variable articles_per_query : nat.
Variable max_workers : nat.
Variable min_content_length : nat.

(** Collaborators; [None] stands for an exception.
    - [quote]: [urllib.parse.quote];
    - [feedparser_parse rss_url]: the entries of the parsed feed;
    - [urlparse url]: the pair (netloc, query);
    - [parse_qs_url query]: [parse_qs(query).get("url", [None])[0]];
    - [session_head url]: the final URL after redirects;
    - [trafilatura_fetch_url], [trafilatura_extract]: inner [None] is the
      library's own "nothing found";
    - [paragraph_text url]: the text of the paragraphs of the page, as
      [requests] and [BeautifulSoup] give it in [_extract_content_fallback]. *)
Variable quote : string -> string.
Variable feedparser_parse : string -> option (list rss_entry).
Variable urlparse : string -> option (string * string).
Variable parse_qs_url : string -> option string.
Variable session_head : string -> option string.
Variable trafilatura_fetch_url : string -> option (option string).
Variable trafilatura_extract : string -> option (option string).
Variable paragraph_text : string -> option string.

(** The inner loop of the first phase for the entries of one query.  The
    state is (unique_links, raw_entries); an entry without a link raises,
    which ends the work on this query and keeps what was added so far. *)
Fixpoint gather_entries (st : gset string * list rss_entry)
    (entries : list rss_entry) : gset string * list rss_entry :=
  match entries with
  | [] => st
  | entry :: rest =>
      match entry_link entry with
      | None => st
      | Some link =>
          if bool_decide (link ∈ st.1) then gather_entries st rest
          else gather_entries ({[link]} ∪ st.1, st.2 ++ [entry]) rest
      end
  end.

Definition gather_query (st : gset string * list rss_entry) (query : string)
    : gset string * list rss_entry :=
  let rss_url := "https://news.google.com/rss/search?q=" +:+ quote query in
  match feedparser_parse rss_url with
  | None => st
  | Some entries => gather_entries st (take articles_per_query entries)
  end.

(** Phase 1 of [fetch_articles]: all RSS entries are gathered first. *)
Definition gather (queries : list string) : gset string * list rss_entry :=
  fold_left gather_query queries (∅, []).

Definition _resolve_single_url (url : string) : string :=
  let attempt : option string :=
    '(netloc, query) ← urlparse url;
    let from_query :=
      if PyStr.contains "news.google.com" netloc then
        match parse_qs_url query with
        | Some potential_url =>
            if PyStr.is_empty potential_url then None else Some potential_url
        | None => None
        end
      else None in
    match from_query with
    | Some potential_url => Some potential_url
    | None => session_head url
    end in
  match attempt with
  | Some resolved => resolved
  | None => url
  end.

(** [_resolve_single_url] does not raise, so the fallback to the original
    URL inside the loop is never taken. *)
Definition resolve_google_urls (urls : list string) : list string :=
  fold_left (fun resolved_urls url => resolved_urls ++ [_resolve_single_url url]) urls [].

Definition _extract_content_fallback (url : string) : string :=
  match paragraph_text url with
  | Some text => PyStr.strip text
  | None => ""
  end.

Definition extract_content (url : string) : string :=
  let attempt : option string :=
    downloaded ← trafilatura_fetch_url url;
    extracted ←
      match downloaded with
      | Some page =>
          if PyStr.is_empty page then Some None
          else trafilatura_extract page
      | None => Some None
      end;
    match extracted with
    | Some content =>
        if PyStr.is_empty content then Some (_extract_content_fallback url)
        else Some (PyStr.strip content)
    | None => Some (_extract_content_fallback url)
    end in
  match attempt with
  | Some text => text
  | None => ""
  end.

(** The task a worker runs for one entry. *)
Definition _process_rss_entry (entry : rss_entry) : option Article.t :=
  let attempt : option (option Article.t) :=
    link ← entry_link entry;
    real_url ← resolve_google_urls [link] !! 0%nat;
    let content := extract_content real_url in
    '(content, source_type) ←
      (if negb (PyStr.is_empty content) && (min_content_length <=? String.length content)
       then Some (content, "Full Article")
       else title ← entry_title entry; Some (title, "Headline Only"));
    title ← entry_title entry;
    let article :=
      Article.mk title real_url (default "" (entry_published entry)) content source_type in
    if Article.validate article then Some (Some article) else Some None in
  match attempt with
  | Some result => result
  | None => None
  end.

(** Phase 2 of [fetch_articles].  Every gathered entry is submitted once; a
    worker takes the next submitted entry while fewer than [max_workers] are
    at work, and a worker that completes hands its article, if any, to the
    collecting loop.  Which worker completes first is not determined. *)
Inductive pool_step : pool -> pool -> Prop :=
  | pool_start entry queue running articles :
      (length running < max_workers)%nat ->
      pool_step (mk_pool (entry :: queue) running articles)
                (mk_pool queue (running ++ [entry]) articles)
  | pool_complete queue before entry after articles :
      pool_step (mk_pool queue (before ++ entry :: after) articles)
                (mk_pool queue (before ++ after)
                   (match _process_rss_entry entry with
                    | Some article => articles ++ [article]
                    | None => articles
                    end)).

(** The pool when the executor is entered: phase 1 is over and its
    [raw_entries] are what gets submitted. *)
Definition pool_init (queries : list string) : pool :=
  mk_pool (gather queries).2 [] [].

(** [fetch_articles queries] raises: [ThreadPoolExecutor(max_workers=0)]
    raises ValueError ("max_workers must be greater than 0"), and the
    executor is made outside every [try] of the method, whatever the
    queries gave. *)
Definition fetch_articles_raises : Prop := max_workers = 0%nat.

(** [fetch_articles queries] may return [result]: the executor has a
    worker and the pool runs until nothing is waiting or in work. *)
Definition fetch_articles (queries : list string) (result : list Article.t) : Prop :=
  (0 < max_workers)%nat /\ rtc pool_step (pool_init queries) (mk_pool [] [] result).

(** State of the loop of [deduplicate_articles]:
    (seen_urls, seen_titles, unique_articles). *)
Definition dedup_step (st : gset string * gset string * list Article.t)
    (article : Article.t) : gset string * gset string * list Article.t :=
  let '(seen_urls, seen_titles, unique_articles) := st in
  if bool_decide (Article.url article ∈ seen_urls) then st
  else
    let title_normalized := PyStr.strip (PyStr.lower (Article.title article)) in
    if bool_decide (title_normalized ∈ seen_titles) then st
    else ({[Article.url article]} ∪ seen_urls,
          {[title_normalized]} ∪ seen_titles,
          unique_articles ++ [article]).

Definition deduplicate_articles (articles : list Article.t) : list Article.t :=
  (fold_left dedup_step articles (∅, ∅, [])).2.

(** The default queries of [get_queries_for_category], by category. *)
Definition category_queries : list (string * list string) :=
  [("stock", ["stock market news"; "equity market"; "stock prices"]);
   ("crypto", ["cryptocurrency news"; "bitcoin market"; "crypto prices"]);
   ("commodity", ["commodity prices"; "gold market"; "oil prices"]);
   ("real_estate", ["real estate market"; "housing market"; "property prices"]);
   ("exchange", ["stock exchange news"; "trading market"; "financial markets"]);
   ("all", ["financial news"; "market news"; "economic news"])].

(** [custom_query] is [None] when the argument is left out; an empty
    string counts as left out as well. *)
Definition get_queries_for_category (category : string) (custom_query : option string)
    : list string :=
  let use_custom :=
    match custom_query with
    | Some q => negb (PyStr.is_empty q)
    | None => false
    end in
  if use_custom then
    let q := default "" custom_query in
    let base_queries := [q] in
    let base_queries :=
      if String.eqb category "stock"
      then base_queries ++ [q +:+ " stock"; q +:+ " shares"]
      else if String.eqb category "crypto"
      then base_queries ++ [q +:+ " crypto"; q +:+ " cryptocurrency"]
      else if String.eqb category "commodity"
      then base_queries ++ [q +:+ " price"; q +:+ " market"]
      else if String.eqb category "real_estate"
      then base_queries ++ [q +:+ " real estate"; q +:+ " property"]
      else if String.eqb category "exchange"
      then base_queries ++ [q +:+ " exchange"; q +:+ " trading"]
      else base_queries in
    take 3 base_queries
  else
    default (default [] (PyDict.get "all" category_queries))
            (PyDict.get category category_queries).

End Aggregator.
End NewsAggregator.


(* ================================================================== *)
(** * backend/utils/error_handling.py *)

(** The module [..utils.error_handling] that [financial_data_service.py]
    imports its decorators from is not among the sources; its three
    policies are written here from section 4.4 of the specification.  Time
    is a rational clock carried by the state, so a call takes the time its
    attempts and back-off pauses take. *)
Module Resilience.

Local Open Scope Q_scope.

(** Modelled from the spec: the failure kinds of the missing module, after
    the taxonomy of section 7. *)
Inductive failure : Type :=
  | Transient      (* network / timeout inside the call: retryable *)
  | Permanent      (* malformed input / parse: not retried *)
  | CircuitOpen    (* the breaker refused the call *)
  | Timeout.       (* the deadline of [with_timeout] passed: the call was cancelled *)

(** Modelled from the spec: the states of the circuit breaker of the
    missing module, [state ∈ {Closed, Open, HalfOpen}]. *)
Inductive breaker_state : Type := Closed | Open | HalfOpen.

(** Modelled from the spec: the CircuitState of section 3,
    [{state, consecutive_failures: int, opened_at: timestamp|null}]. *)
Record CircuitState : Type := mk_circuit {
  state : breaker_state;
  consecutive_failures : nat;
  opened_at : option Q
}.

(** Modelled from the spec: the [RetryConfig] of the missing module, with
    the three tunables the source passes. *)
Record RetryConfig : Type := mk_retry {
  max_retries : nat;
  base_delay : Q;
  max_delay : Q
}.

(** Modelled from the spec: the [CircuitBreakerConfig] of the missing
    module, with the two tunables the source passes. *)
Record CircuitBreakerConfig : Type := mk_breaker {
  failure_threshold : nat;
  recovery_timeout : Q
}.

(** What a protected operation runs in: the clock, the circuit state of
    the operation (shared by all its calls), the times at which the
    underlying function was entered so far, and the deadline in force, if
    a [with_timeout] is around. *)
Record world : Type := mk_world {
  clock : Q;
  circuit : CircuitState;
  entries : list Q;
  deadline : option Q
}.

(** The number of times the underlying function was entered so far. *)
Definition invocations (w : world) : nat := length (entries w).

Definition outcome (T : Type) : Type := failure + T.

(** A call: it ends in a value or a failure and leaves a new world. *)
Definition call (T : Type) : Type := world -> outcome T * world.

(** The function under the decorators: its [n]-th invocation takes some
    time and ends in a value or a failure. *)
Definition operation (T : Type) : Type := nat -> Q * outcome T.

Definition set_clock (t : Q) (w : world) : world :=
  mk_world t (circuit w) (entries w) (deadline w).

Definition set_circuit (c : CircuitState) (w : world) : world :=
  mk_world (clock w) c (entries w) (deadline w).

Definition set_deadline (d : option Q) (w : world) : world :=
  mk_world (clock w) (circuit w) (entries w) d.

(** Modelled from the spec: the cancellation of [with_timeout] of the
    missing module, "aborts/cancels the in-flight call once a configured
    duration elapses".  Something that starts now and would take [span] is
    cut when it would end after the deadline in force. *)
Definition expires (w : world) (span : Q) : bool :=
  match deadline w with
  | Some d => Qltb d (clock w + span)
  | None => false
  end.

(** Modelled from the spec: where a cancelled call stops, at the deadline
    ("once a configured duration elapses"). *)
Definition cut (w : world) : world :=
  set_clock (default (clock w) (deadline w)) w.

(** Modelled from the spec: one invocation of the underlying function under
    the policies of the missing module.  The function is entered now; it
    runs for its duration and gives its outcome, unless the deadline comes
    first: then it is cancelled at the deadline, and "on expiry [the
    timeout] surfaces a Timeout failure". *)
Definition invoke {T : Type} (f : operation T) : call T :=
  fun w =>
    let '(duration, result) := f (invocations w) in
    let entered := mk_world (clock w) (circuit w) (entries w ++ [clock w]) (deadline w) in
    if expires w duration then (inl Timeout, cut entered)
    else (result, set_clock (clock w + duration) entered).

(** Modelled from the spec: the pause before a retry in [with_retry] of the
    missing module; the cancellation cuts a pause as it cuts an invocation
    (the retries happen "within what time remains").  The boolean tells
    whether the pause came to its end. *)
Definition sleep (delay : Q) (w : world) : bool * world :=
  if expires w delay then (false, cut w)
  else (true, set_clock (clock w + delay) w).

(** Modelled from the spec: the length of the pause before a retry in
    [with_retry] of the missing module, "exponential backoff
    ([base_delay * 2^attempt], capped at [max_delay])". *)
Definition backoff (config : RetryConfig) (attempt : nat) : Q :=
  Qmin (base_delay config * inject_Z (2 ^ Z.of_nat attempt)) (max_delay config).

(** Modelled from the spec: the loop of [with_retry] of the missing module.
    "On a transient-kind failure, retries up to [max_retries] times ...;
    permanent-kind failures are not retried."  A cancellation ends the
    loop: it is the Timeout failure of the deadline, not a failure of the
    underlying call. *)
Fixpoint retry_from {T : Type} (config : RetryConfig) (retries_left attempt : nat)
    (f : call T) (w : world) : outcome T * world :=
  let '(result, w') := f w in
  match result, retries_left with
  | inl Transient, S n =>
      let '(rested, w'') := sleep (backoff config attempt) w' in
      if rested then retry_from config n (S attempt) f w''
      else (inl Timeout, w'')
  | _, _ => (result, w')
  end.

(** Modelled from the spec: the decorator [with_retry] of the missing
    module. *)
Definition with_retry {T : Type} (config : RetryConfig) (f : call T) : call T :=
  retry_from config (max_retries config) 0 f.

(** Modelled from the spec: what [with_circuit_breaker] of the missing
    module records when a call it let through ends.  "Closed: ... each
    failure increments [consecutive_failures]; reaching [failure_threshold]
    transitions to Open and records [opened_at]; any success resets
    [consecutive_failures] to 0.  HalfOpen: ... success transitions to
    Closed (counters reset); failure transitions back to Open (new
    [opened_at])."  A call that the deadline cancelled ended in a Timeout
    failure and counts as a failure. *)
Definition record_outcome {T : Type} (config : CircuitBreakerConfig)
    (mode : breaker_state) (failures : nat) (result : outcome T) (w : world) : world :=
  match result with
  | inr _ => set_circuit (mk_circuit Closed 0 None) w
  | inl _ =>
      match mode with
      | Closed =>
          if (failure_threshold config <=? S failures)%nat
          then set_circuit (mk_circuit Open (S failures) (Some (clock w))) w
          else set_circuit (mk_circuit Closed (S failures) None) w
      | _ => set_circuit (mk_circuit Open (S failures) (Some (clock w))) w
      end
  end.

(** Modelled from the spec: a call that [with_circuit_breaker] of the
    missing module lets through in state [mode] ("calls pass through",
    "one trial call is allowed through"). *)
Definition pass_through {T : Type} (config : CircuitBreakerConfig)
    (mode : breaker_state) (f : call T) (w : world) : outcome T * world :=
  let failures := consecutive_failures (circuit w) in
  let '(result, w') :=
    f (set_circuit (mk_circuit mode failures (opened_at (circuit w))) w) in
  (result, record_outcome config mode failures result w').

(** Modelled from the spec: the decorator [with_circuit_breaker] of the
    missing module.  "Open: calls fail immediately with a CircuitOpen error,
    no attempt made, until [recovery_timeout] has elapsed since [opened_at],
    at which point the state becomes HalfOpen." *)
Definition with_circuit_breaker {T : Type} (config : CircuitBreakerConfig)
    (f : call T) : call T :=
  fun w =>
    match state (circuit w) with
    | Closed => pass_through config Closed f w
    | HalfOpen => pass_through config HalfOpen f w
    | Open =>
        match opened_at (circuit w) with
        | Some since =>
            if Qltb (clock w - since) (recovery_timeout config)
            then (inl CircuitOpen, w)
            else pass_through config HalfOpen f w
        | None => pass_through config HalfOpen f w
        end
    end.

(** Modelled from the spec: the decorator [with_timeout] of the missing
    module.  "Aborts/cancels the in-flight call once a configured duration
    elapses; on expiry surfaces a Timeout failure."  The deadline is put in
    force for everything under the decorator, which is cut at it (see
    [invoke] and [sleep]); a deadline already in force that comes earlier
    stays in force; the deadline of the caller is back in force
    afterwards. *)
Definition with_timeout {T : Type} (seconds : Q) (f : call T) : call T :=
  fun w =>
    let own := clock w + seconds in
    let d :=
      match deadline w with
      | Some outer => Qmin outer own
      | None => own
      end in
    let '(result, w') := f (set_deadline (Some d) w) in
    (result, set_deadline (deadline w) w').

End Resilience.

(* ================================================================== *)
(** * backend/services/financial_data_service.py *)

Module FinancialDataService.
Import Resilience.

(** Decorators apply from the bottom up:
    [@with_timeout(30.0) @with_circuit_breaker(...) @with_retry(...) def f]
    binds the name to [with_timeout(30.0)(with_circuit_breaker(...)(with_retry(...)(f)))]. *)
Definition fetch_decorators {T : Type} (f : call T) : call T :=
  with_timeout 30
    (with_circuit_breaker (mk_breaker 3 300)
       (with_retry (mk_retry 2 1 10) f)).

Section Metrics.
Local Open Scope Q_scope.

(** [round(x)] to the nearest integer, ties to the even one. *)
Definition round_half_even (x : Q) : Z :=
  let below := Qfloor x in
  let rest := x - inject_Z below in
  if Qltb rest (1 # 2) then below
  else if Qltb (1 # 2) rest then (below + 1)%Z
  else if Z.even below then below else (below + 1)%Z.

(** [round(x, 3)] *)
Definition round3 (x : Q) : Q := Qmake (round_half_even (x * 1000)) 1000.

(** [min(a, b)]: the first argument unless the second is smaller. *)
Definition py_min (a b : Q) : Q := if Qltb b a then b else a.

(** The fields of a [TickerInfo], as the constructor call of
    [get_ticker_info] names them ([models.financial_data] is not among the
    sources); [None] is a value the data provider did not give. *)
Record TickerInfo : Type := mk_ticker_info {
  symbol : string;
  current_price : Q;
  market_cap : option Z;
  pe_ratio : option Q;
  fifty_two_week_high : option Q;
  fifty_two_week_low : option Q;
  sector : option string;
  industry : option string;
  volume : option Z
}.

(** The fields of a [DerivedMetrics], as [calculate_derived_metrics] names
    them. *)
Record DerivedMetrics : Type := mk_derived {
  growth_score : Q;
  safety_score : Q;
  hype_score : Q;
  sentiment_score : Q
}.

Definition calculate_derived_metrics (ticker_info : TickerInfo) (news_count : Z)
    : DerivedMetrics :=
  let growth_score :=
    match pe_ratio ticker_info with
    | Some pe =>
        if negb (Qeq_bool pe 0) && Qltb 0 pe then
          if Qltb pe 10 then 95 # 100
          else if Qltb pe 15 then 8 # 10
          else if Qltb pe 20 then 65 # 100
          else if Qltb pe 25 then 5 # 10
          else if Qltb pe 35 then 35 # 100
          else 2 # 10
        else 5 # 10
    | None => 5 # 10
    end in
  let safety_score :=
    match market_cap ticker_info with
    | Some cap =>
        if negb (cap =? 0)%Z && (0 <? cap)%Z then
          let market_cap_billions := inject_Z cap / 1000000000 in
          if Qltb 500 market_cap_billions then 1
          else if Qltb 200 market_cap_billions then 9 # 10
          else if Qltb 50 market_cap_billions then 75 # 100
          else if Qltb 10 market_cap_billions then 6 # 10
          else if Qltb 2 market_cap_billions then 4 # 10
          else if Qltb (3 # 10) market_cap_billions then 25 # 100
          else 1 # 10
        else 5 # 10
    | None => 5 # 10
    end in
  let volume_factor :=
    match volume ticker_info with
    | Some v =>
        if negb (v =? 0)%Z && (0 <? v)%Z then
          if (100000000 <? v)%Z then 7 # 10
          else if (50000000 <? v)%Z then 6 # 10
          else if (10000000 <? v)%Z then 5 # 10
          else if (1000000 <? v)%Z then 4 # 10
          else if (100000 <? v)%Z then 3 # 10
          else 2 # 10
        else 3 # 10
    | None => 3 # 10
    end in
  let news_factor := py_min (inject_Z news_count / 20) (3 # 10) in
  let hype_score := py_min (volume_factor + news_factor) 1 in
  let sentiment_score := 5 # 10 in
  mk_derived (round3 growth_score) (round3 safety_score) (round3 hype_score)
             (round3 sentiment_score).

End Metrics.

Section Service.

(** The ticker objects of [yfinance]. *)
Variable Ticker : Type.

(** [yf_lookup ticker n]: the [n]-th lookup of [yf.Ticker(ticker)] and its
    [info]: how long it takes, and either the exception ([None]) or the
    ticker object with the answer to "[info] is non-empty and has the key
    ['symbol']". *)
Variable yf_lookup : string -> nat -> Q * option (Ticker * bool).



End Service.
End FinancialDataService.

(* ================================================================== *)
(** * backend/app.py *)

Module App.

Definition crypto_keywords : list string :=
  ["bitcoin"; "btc"; "ethereum"; "eth"; "crypto"; "cryptocurrency";
   "dogecoin"; "doge"; "litecoin"; "ltc"; "ripple"; "xrp"; "cardano"; "ada"].

Definition stock_keywords : list string :=
  ["stock"; "shares"; "equity"; "aapl"; "apple"; "tesla"; "tsla";
   "microsoft"; "msft"; "google"; "googl"; "amazon"; "amzn"].

Definition commodity_keywords : list string :=
  ["gold"; "silver"; "oil"; "crude"; "copper"; "platinum";
   "natural gas"; "wheat"; "corn"; "commodity"].

Definition real_estate_keywords : list string :=
  ["real estate"; "property"; "housing"; "reit"; "mortgage";
   "residential"; "commercial property"].

Definition exchange_keywords : list string :=
  ["exchange"; "nasdaq"; "nyse"; "binance"; "coinbase"; "forex"].

(** [any(keyword in query_lower for keyword in keywords)] *)
Definition any_keyword_in (keywords : list string) (query_lower : string) : bool :=
  existsb (fun keyword => PyStr.contains keyword query_lower) keywords.

Definition categorize_financial_instrument (query : string) : string :=
  let query_lower := PyStr.lower query in
  if any_keyword_in crypto_keywords query_lower then "crypto"
  else if any_keyword_in stock_keywords query_lower then "stock"
  else if any_keyword_in commodity_keywords query_lower then "commodity"
  else if any_keyword_in real_estate_keywords query_lower then "real_estate"
  else if any_keyword_in exchange_keywords query_lower then "exchange"
  else "all".

(** What [start_analysis] answers: 404 when no article was found, 500 when
    the report fails its validation, 500 "Analysis failed" when anything in
    the handler raised (the message, the text of the exception, is left
    out), and otherwise the fields of the report (the articles of the
    answer are those of the report). *)
Inductive response (R : Type) : Type :=
  | NoArticles (query category : string)
  | ValidationFailed
  | AnalysisFailed
  | Completed (report : AnalysisReport.t R).
Arguments NoArticles {R} query category.
Arguments ValidationFailed {R}.
Arguments AnalysisFailed {R}.
Arguments Completed {R} report.

(** What [request.get_json()] makes of the body of the request.  It raises
    on a body it cannot read; it gives a JSON value that is not an object
    (null, a number, a string, a boolean, a list), of which the handler
    takes the truth value only; or it gives an object.  The values of the
    fields of an object are strings here: the handler passes the two fields
    it reads on as they are, and what the services and the report do with a
    value of another type is not modelled. *)
Inductive request_body : Type :=
  | Unreadable
  | NotAnObject (truthy : bool)
  | Object (fields : list (string * string)).

Section Handler.
Context {R : Type} `{!PyFloat R}.
Local Open Scope pyf_scope.

(** The configuration and the collaborators of the two services. *)
Variable articles_per_query : nat.
Variable max_workers : nat.
Variable min_content_length : nat.
Variable max_text_length : nat.
Variable quote : string -> string.
Variable feedparser_parse : string -> option (list NewsAggregator.rss_entry).
Variable urlparse : string -> option (string * string).
Variable parse_qs_url : string -> option string.
Variable session_head : string -> option string.
Variable trafilatura_fetch_url : string -> option (option string).
Variable trafilatura_extract : string -> option (option string).
Variable paragraph_text : string -> option string.
Variable vader_compound : string -> option R.
Variable finbert_softmax : string -> nat -> option (list R).

(** [data.get(key, fallback) if data else fallback]: the fallback for a
    body that is falsy (null, 0, an empty string, list or object), and
    AttributeError, here [None], for a truthy body that is not an object and
    so has no [get]. *)
Definition request_field (data : request_body) (key fallback : string) : option string :=
  match data with
  | Unreadable => None
  | NotAnObject truthy => if truthy then None else Some fallback
  | Object [] => Some fallback
  | Object fields => Some (default fallback (PyDict.get key fields))
  end.

(** Steps 2 to 7 of [start_analysis] once [fetch_articles] has returned
    [articles]; [start_time] and [end_time] are the two readings of
    [time.time()], [now] the one of [datetime.utcnow()]. *)
Definition finish_analysis (search_query category : string)
    (start_time end_time : R) (now : datetime.t) (articles : list Article.t)
    : response R :=
  match articles with
  | [] => NoArticles search_query category
  | _ =>
      let unique_articles := NewsAggregator.deduplicate_articles articles in
      let analyzed_articles :=
        SentimentEngine.analyze_articles_batch vader_compound finbert_softmax
          max_text_length unique_articles in
      let processing_time := end_time - start_time in
      let report :=
        AnalysisReport.create_from_articles now search_query category
          analyzed_articles processing_time in
      if negb (AnalysisReport.validate report) then ValidationFailed
      else Completed report
  end.

(** [start_analysis] may answer [answer].  The whole handler is in one
    [try]: a body that cannot be read, a body without [get] and the
    exception of [fetch_articles] all end in the answer of its
    [except Exception]. *)
Definition start_analysis (data : request_body)
    (start_time end_time : R) (now : datetime.t) (answer : response R) : Prop :=
  match data with
  | Unreadable => answer = AnalysisFailed
  | _ =>
      match request_field data "query" "gold", request_field data "category" "commodity" with
      | Some search_query, Some category =>
          let queries :=
            NewsAggregator.get_queries_for_category category (Some search_query) in
          (NewsAggregator.fetch_articles_raises max_workers /\ answer = AnalysisFailed)
          \/ exists articles,
               NewsAggregator.fetch_articles articles_per_query max_workers
                 min_content_length quote feedparser_parse urlparse parse_qs_url
                 session_head trafilatura_fetch_url trafilatura_extract paragraph_text
                 queries articles
               /\ answer
                  = finish_analysis search_query category start_time end_time now articles
      | _, _ => answer = AnalysisFailed
      end
  end.

End Handler.
End App.

(* ================================================================== *)
(** * gold.py, the first script *)

Module Gold.

Definition QUERIES : list string :=
  ["gold market"; "gold price"; "gold news"; "gold trends"; "gold forecast";
   "gold investment"].

Definition ARTICLES_PER_QUERY : nat := 8.
Definition MIN_CONTENT_LENGTH : nat := 120.

(** The dictionaries [fetch_news] collects. *)
Record article : Type := mk_article {
  title : string;
  url : string;
  published : string;
  content : string
}.

Section Script.

(** Collaborators, as in [NewsAggregator]; [paragraph_text url] is the
    joined text of the paragraphs [requests] and [BeautifulSoup] give. *)
Variable quote : string -> string.
Variable feedparser_parse : string -> option (list NewsAggregator.rss_entry).
Variable urlparse : string -> option (string * string).
Variable parse_qs_url : string -> option string.
Variable paragraph_text : string -> option string.

Definition resolve_google_news_url (url : string) : string :=
  match urlparse url with
  | Some (netloc, query) =>
      if PyStr.contains "news.google.com" netloc
      then default url (parse_qs_url query)
      else url
  | None => url
  end.

Definition fetch_article_content (url : string) : string :=
  match paragraph_text url with
  | Some text => PyStr.strip text
  | None => ""
  end.

(** The inner loop of [fetch_news]; the state is (seen_urls, articles).
    Nothing is caught here: an entry without a link or a title makes the
    whole function raise. *)
Fixpoint fetch_entries (st : gset string * list article)
    (entries : list NewsAggregator.rss_entry) : option (gset string * list article) :=
  match entries with
  | [] => Some st
  | entry :: rest =>
      link ← NewsAggregator.entry_link entry;
      let url := resolve_google_news_url link in
      if bool_decide (url ∈ st.1) then fetch_entries st rest
      else
        let content := fetch_article_content url in
        content ←
          (if String.length content <? MIN_CONTENT_LENGTH
           then NewsAggregator.entry_title entry
           else Some content);
        title ← NewsAggregator.entry_title entry;
        fetch_entries
          ({[url]} ∪ st.1,
           st.2 ++ [mk_article title url
                      (default "" (NewsAggregator.entry_published entry)) content])
          rest
  end.

Definition fetch_query (st : option (gset string * list article)) (query : string)
    : option (gset string * list article) :=
  st ← st;
  let rss_url := "https://news.google.com/rss/search?q=" +:+ quote query in
  entries ← feedparser_parse rss_url;
  fetch_entries st (take ARTICLES_PER_QUERY entries).

(** [fetch_news()]; [None] = it raised. *)
Definition fetch_news : option (list article) :=
  st ← fold_left fetch_query QUERIES (Some (∅, []));
  Some st.2.

End Script.
End Gold.

(* ================================================================== *)
(** * The embedding at sample inputs *)

(** The binary64 literals are the doubles written in the source. *)
Example binary64_literals :
  (f_lit 15 100 : float) = 0.15%float /\ (f_lit (-15) 100 : float) = (-0.15)%float
  /\ (f_lit 5 100 : float) = 0.05%float /\ (f_lit (-5) 100 : float) = (-0.05)%float
  /\ (f_lit 33 100 : float) = 0.33%float /\ (f_lit 34 100 : float) = 0.34%float
  /\ (f_lit 1 100 : float) = 0.01%float /\ (f_lit 9 10 : float) = 0.9%float
  /\ (f_lit 1 2 : float) = 0.5%float /\ (f_lit 1 1 : float) = 1%float
  /\ (f_lit (-1) 1 : float) = (-1)%float /\ (f_lit 0 1 : float) = 0%float.
Proof. vm_compute. repeat split; reflexivity. Qed.

Example truncate_at_sentence :
  SentimentEngine._truncate_text 20 "Hello world. This is a test. Another sentence here."
  = "Hello world.".
Proof. vm_compute. reflexivity. Qed.

Example truncate_at_word :
  SentimentEngine._truncate_text 8 "Hello world. This is a test. Another sentence here."
  = "Hello".
Proof. vm_compute. reflexivity. Qed.

Example truncate_at_character :
  SentimentEngine._truncate_text 4 "Hello world. This is a test. Another sentence here."
  = "Hell".
Proof. vm_compute. reflexivity. Qed.

Example isoformat_sample :
  datetime.isoformat (datetime.mk 2024 2 29 23 59 1 12345) = "2024-02-29T23:59:01.012345"
  /\ datetime.isoformat (datetime.mk 2024 1 1 12 0 0 0) = "2024-01-01T12:00:00"
  /\ datetime.fromisoformat "2024-01-05 10:02:03.120"
     = Some (datetime.mk 2024 1 5 10 2 3 120000)
  /\ datetime.fromisoformat "2023-02-29T10:02:03" = None.
Proof. vm_compute. repeat split; reflexivity. Qed.

(** The article of [test_integration.py] validates. *)
Example article_validates :
  Article.validate
    (Article.mk "Gold prices surge amid market uncertainty"
       "https://example.com/gold-news" "2024-01-01"
       "Gold prices have increased significantly due to market volatility..."
       "Full Article") = true
  /\ Article.validate (Article.mk "   " "https://example.com" "" "text" "Full Article")
     = false
  /\ Article.validate (Article.mk "Gold" "ftp://example.com" "" "text" "Full Article")
     = false.
Proof. vm_compute. repeat split; reflexivity. Qed.

(* ================================================================== *)
(** * Properties of the aggregation *)

(** The label and the confidence of the content score of a unit: all the
    net score reads. *)
Definition unit_score {R : Type} (a : AnalyzedArticle.t R) : string * R :=
  (ContentSentiment.label (AnalyzedArticle.content_sentiment a),
   ContentSentiment.confidence (AnalyzedArticle.content_sentiment a)).

Definition unit_confidence {R : Type} (a : AnalyzedArticle.t R) : R :=
  ContentSentiment.confidence (AnalyzedArticle.content_sentiment a).

Ltac q_ops :=
  cbn [f_lit f_add f_sub f_mul f_div f_abs f_ltb Q_PyFloat] in *.

Section ExactArithmetic.
Local Open Scope Q_scope.

Lemma Qltb_true (x y : Q) : Qltb x y = true <-> x < y.
Proof.
  unfold Qltb. rewrite negb_true_iff. split.
  - intros H. apply Qnot_le_lt. intros Hle.
    apply Qle_bool_iff in Hle. congruence.
  - intros H. destruct (Qle_bool y x) eqn:E; [|reflexivity].
    apply Qle_bool_iff in E. lra.
Qed.

Lemma Qltb_false (x y : Q) : Qltb x y = false <-> y <= x.
Proof.
  unfold Qltb. rewrite negb_false_iff. apply Qle_bool_iff.
Qed.

Lemma direction_cases (label : string) :
  AnalysisReport.direction (R:=Q) label = 1
  \/ AnalysisReport.direction (R:=Q) label = -1
  \/ AnalysisReport.direction (R:=Q) label = 0.
Proof.
  unfold AnalysisReport.direction.
  destruct (String.eqb label "Positive"); [left; reflexivity|].
  destruct (String.eqb label "Negative"); [right; left|right; right]; reflexivity.
Qed.

(** The loop keeps the weighted score between minus and plus the total
    weight, and the total weight at or above where it started, as long as
    no confidence is negative. *)
Lemma score_step_pair (w t : Q) (a : AnalyzedArticle.t Q) :
  AnalysisReport.score_step (w, t) a =
  (w + AnalysisReport.direction (unit_score a).1 * unit_confidence a,
   t + unit_confidence a).
Proof. reflexivity. Qed.

Lemma score_fold_invariant (articles : list (AnalyzedArticle.t Q)) :
  forall w t : Q,
    Forall (fun a => 0 <= unit_confidence a) articles ->
    - t <= w <= t ->
    let p := fold_left AnalysisReport.score_step articles (w, t) in
    - p.2 <= p.1 <= p.2 /\ t <= p.2.
Proof.
  induction articles as [|a rest IH]; intros w t Hconf Hwt; cbn [fold_left].
  - cbn. split; [exact Hwt | lra].
  - inversion Hconf as [|? ? Ha Hrest]; subst.
    rewrite score_step_pair.
    destruct (direction_cases (unit_score a).1) as [Hd|[Hd|Hd]]; rewrite Hd;
      (edestruct IH as [IH1 IH2];
       [exact Hrest | | split; [exact IH1 | lra]]); lra.
Qed.

Lemma net_score_of_fold (a : AnalyzedArticle.t Q) (rest : list (AnalyzedArticle.t Q)) :
  AnalysisReport._calculate_net_sentiment_score (a :: rest) =
  let p := fold_left AnalysisReport.score_step (a :: rest) (0, 0) in
  if Qltb 0 p.2 then p.1 / p.2 else 0.
Proof.
  unfold AnalysisReport._calculate_net_sentiment_score.
  destruct (fold_left _ _ _) as [w t]. reflexivity.
Qed.

End ExactArithmetic.

(* ------------------------------------------------------------------ *)
(** ** The net score reads the (label, confidence) pairs only *)

(** The computation of [_calculate_net_sentiment_score] on the list of
    (label, confidence) pairs of the units. *)
Definition net_score_of {R : Type} `{!PyFloat R} (scores : list (string * R)) : R :=
  match scores with
  | [] => f_lit 0 1
  | _ =>
      let '(weighted_score, total_weight) :=
        fold_left
          (fun acc s =>
             (f_add acc.1 (f_mul (AnalysisReport.direction s.1) s.2), f_add acc.2 s.2))
          scores (f_lit 0 1, f_lit 0 1) in
      if f_ltb (f_lit 0 1) total_weight then f_div weighted_score total_weight
      else f_lit 0 1
  end.

Section AnyArithmetic.
Context {R : Type} `{!PyFloat R}.

Lemma score_fold_map (articles : list (AnalyzedArticle.t R)) (acc : R * R) :
  fold_left AnalysisReport.score_step articles acc =
  fold_left
    (fun acc s =>
       (f_add acc.1 (f_mul (AnalysisReport.direction s.1) s.2), f_add acc.2 s.2))
    (map unit_score articles) acc.
Proof.
  revert acc. induction articles as [|a rest IH]; intros acc; [reflexivity|].
  cbn [fold_left map]. rewrite IH. reflexivity.
Qed.

Lemma net_score_reads_unit_scores (articles : list (AnalyzedArticle.t R)) :
  AnalysisReport._calculate_net_sentiment_score articles =
  net_score_of (map unit_score articles).
Proof.
  destruct articles as [|a rest]; [reflexivity|].
  unfold AnalysisReport._calculate_net_sentiment_score, net_score_of.
  rewrite score_fold_map. reflexivity.
Qed.

(** What [create_from_articles] stores is what the three private methods
    compute from the articles. *)
Lemma create_from_articles_fields (now : datetime.t) (query category : string)
    (articles : list (AnalyzedArticle.t R)) (processing_time : R) :
  let r := AnalysisReport.create_from_articles now query category articles processing_time in
  AnalysisReport.total_articles r = Z.of_nat (length articles)
  /\ AnalysisReport.sentiment_distribution r
     = AnalysisReport._calculate_sentiment_distribution articles
  /\ AnalysisReport.net_sentiment_score r
     = AnalysisReport._calculate_net_sentiment_score articles
  /\ AnalysisReport.market_signal r
     = AnalysisReport._determine_market_signal
         (AnalysisReport._calculate_net_sentiment_score articles)
  /\ AnalysisReport.articles r = articles.
Proof. cbn. repeat split; reflexivity. Qed.

Lemma direction_values (label : string) :
  AnalysisReport.direction (R:=R) label = f_lit 1 1
  \/ AnalysisReport.direction (R:=R) label = f_lit (-1) 1
  \/ AnalysisReport.direction (R:=R) label = f_lit 0 1.
Proof.
  unfold AnalysisReport.direction.
  destruct (String.eqb label "Positive"); [left; reflexivity|].
  destruct (String.eqb label "Negative"); [right; left|right; right]; reflexivity.
Qed.

End AnyArithmetic.

(* ------------------------------------------------------------------ *)
(** ** The weightless case in binary64 *)

(** In binary64 a zero confidence is one of the two zeros. *)
Definition is_float_zero (x : float) : Prop := x = 0%float \/ x = (-0)%float.

Lemma score_fold_weightless_binary64 (articles : list (AnalyzedArticle.t float)) :
  Forall (fun a => is_float_zero (unit_confidence a)) articles ->
  fold_left AnalysisReport.score_step articles (0%float, 0%float) = (0%float, 0%float).
Proof.
  induction articles as [|a rest IH]; intros Hconf; [reflexivity|].
  inversion Hconf as [|? ? Ha Hrest]; subst.
  cbn [fold_left].
  replace (AnalysisReport.score_step (0%float, 0%float) a) with (0%float, 0%float);
    [exact (IH Hrest)|].
  unfold AnalysisReport.score_step, unit_confidence in *. cbn [fst snd].
  destruct (direction_values (R:=float)
              (ContentSentiment.label (AnalyzedArticle.content_sentiment a)))
    as [Hd|[Hd|Hd]]; rewrite Hd; destruct Ha as [Ha|Ha]; rewrite Ha;
    vm_compute; reflexivity.
Qed.

(* ------------------------------------------------------------------ *)
(** ** The net score as the quotient of two sums *)

(** The two sums of the specification, [Σ direction_i * confidence_i] and
    [Σ confidence_i], over the (label, confidence) pairs. *)
Definition weighted_sum (scores : list (string * Q)) : Q :=
  foldr (fun s acc => AnalysisReport.direction s.1 * s.2 + acc)%Q 0%Q scores.

Definition weight_sum (scores : list (string * Q)) : Q :=
  foldr (fun s acc => s.2 + acc)%Q 0%Q scores.

(** Scenario A of the specification: three units Positive with confidence
    0.9 and two units Negative with confidence 0.5. *)
Definition scenario_A : list (string * Q) :=
  [("Positive", 9 # 10); ("Positive", 9 # 10); ("Positive", 9 # 10);
   ("Negative", 1 # 2); ("Negative", 1 # 2)]%Q.

Definition scenario_A_binary64 : list (string * float) :=
  [("Positive", 0.9); ("Positive", 0.9); ("Positive", 0.9);
   ("Negative", 0.5); ("Negative", 0.5)]%float.

(** The orders in which three Positive and two Negative units can come. *)
Definition scenario_A_arrangements : list (list (string * float)) :=
  let P := ("Positive", 0.9%float) in
  let N := ("Negative", 0.5%float) in
  [[P; P; P; N; N]; [P; P; N; P; N]; [P; P; N; N; P]; [P; N; P; P; N];
   [P; N; P; N; P]; [P; N; N; P; P]; [N; P; P; P; N]; [N; P; P; N; P];
   [N; P; N; P; P]; [N; N; P; P; P]].

Section QuotientOfSums.
Local Open Scope Q_scope.

Lemma score_fold_sums (scores : list (string * Q)) :
  forall w t : Q,
    let p := fold_left
               (fun acc s =>
                  (f_add acc.1 (f_mul (AnalysisReport.direction s.1) s.2), f_add acc.2 s.2))
               scores (w, t) in
    p.1 == w + weighted_sum scores /\ p.2 == t + weight_sum scores.
Proof.
  induction scores as [|s rest IH]; intros w t; cbn [fold_left fst snd].
  - cbn. split; ring.
  - destruct (IH (f_add w (f_mul (AnalysisReport.direction s.1) s.2)) (f_add t s.2))
      as [IH1 IH2].
    split; [rewrite IH1 | rewrite IH2]; q_ops;
      unfold weighted_sum, weight_sum; cbn [foldr]; ring.
Qed.

Lemma weighted_sum_perm (l1 l2 : list (string * Q)) :
  l1 ≡ₚ l2 -> weighted_sum l1 == weighted_sum l2.
Proof.
  induction 1 as [|x l l' _ IH|x y l|l l' l'' _ IH1 _ IH2]; cbn [weighted_sum foldr].
  - reflexivity.
  - fold (weighted_sum l) (weighted_sum l'). rewrite IH. reflexivity.
  - ring.
  - etransitivity; eassumption.
Qed.

Lemma weight_sum_perm (l1 l2 : list (string * Q)) :
  l1 ≡ₚ l2 -> weight_sum l1 == weight_sum l2.
Proof.
  induction 1 as [|x l l' _ IH|x y l|l l' l'' _ IH1 _ IH2]; cbn [weight_sum foldr].
  - reflexivity.
  - fold (weight_sum l) (weight_sum l'). rewrite IH. reflexivity.
  - ring.
  - etransitivity; eassumption.
Qed.

(** The code computes the quotient of the two sums when the weight sum is
    positive, and the literal [0.0] otherwise. *)
Lemma net_score_quotient (articles : list (AnalyzedArticle.t Q)) :
  let scores := map unit_score articles in
  (0 < weight_sum scores ->
   AnalysisReport._calculate_net_sentiment_score articles
   == weighted_sum scores / weight_sum scores)
  /\ (weight_sum scores <= 0 ->
      AnalysisReport._calculate_net_sentiment_score articles = 0).
Proof.
  cbn zeta. rewrite net_score_reads_unit_scores.
  destruct (map unit_score articles) as [|s rest] eqn:E.
  { cbn. split; [intros H; lra | reflexivity]. }
  unfold net_score_of.
  pose proof (score_fold_sums (s :: rest) 0 0) as Hs. cbn zeta in Hs.
  destruct (fold_left _ (s :: rest) _) as [w t]. cbn [fst snd] in Hs.
  destruct Hs as [Hw Ht]. q_ops.
  split; intros Hpos.
  - assert (Hlt : Qltb 0 t = true) by (apply Qltb_true; lra).
    rewrite Hlt, Hw, Ht. field. lra.
  - assert (Hlt : Qltb 0 t = false) by (apply Qltb_false; lra).
    rewrite Hlt. reflexivity.
Qed.

End QuotientOfSums.

(* ------------------------------------------------------------------ *)
(** ** Sample data *)

(** The article of [test_integration.py]. *)
Definition sample_article : Article.t :=
  Article.mk "Gold prices surge amid market uncertainty"
    "https://example.com/gold-news" "2024-01-01"
    "Gold prices have increased significantly due to market volatility..."
    "Full Article".

(** A unit around [sample_article] whose content score has the given label
    and confidence, the rest of the probability going to Neutral. *)
Definition sample_unit {R : Type} `{!PyFloat R} (label : string) (confidence : R)
    : AnalyzedArticle.t R :=
  AnalyzedArticle.mk sample_article
    (HeadlineSentiment.mk (f_lit 65 100) "Positive")
    (ContentSentiment.mk confidence label
       [(label, confidence); ("Neutral", f_sub (f_lit 1 1) confidence)]).

Definition sample_now : datetime.t := datetime.mk 2024 1 1 12 0 0 0.

Definition scenario_A_units {R : Type} `{!PyFloat R} : list (AnalyzedArticle.t R) :=
  [sample_unit "Positive" (f_lit 9 10); sample_unit "Positive" (f_lit 9 10);
   sample_unit "Positive" (f_lit 9 10); sample_unit "Negative" (f_lit 1 2);
   sample_unit "Negative" (f_lit 1 2)].

(* ------------------------------------------------------------------ *)
(** ** The aggregation: bounds, empty input, scenario A *)

Section AggregationProperties.
Local Open Scope Q_scope.

Lemma weight_sum_weightless (articles : list (AnalyzedArticle.t Q)) :
  Forall (fun a => unit_confidence a == 0) articles ->
  weight_sum (map unit_score articles) == 0.
Proof.
  induction 1 as [|a rest Ha _ IH]; cbn; [reflexivity|].
  fold (weight_sum (map unit_score rest)). unfold unit_confidence in Ha.
  rewrite Ha, IH. ring.
Qed.

(** C5: for every unit list whose confidences lie in [0, 1], the net score
    the aggregator computes is the quotient [Σ direction_i * confidence_i /
    Σ confidence_i] of the two sums when the weight sum is positive, is
    [0.0] when the weight sum is zero, and lies in [-1, 1]. *)
Theorem net_sentiment_score_bounded (articles : list (AnalyzedArticle.t Q)) :
  Forall (fun a => 0 <= unit_confidence a <= 1) articles ->
  let scores := map unit_score articles in
  let net := AnalysisReport._calculate_net_sentiment_score articles in
  (0 < weight_sum scores -> net == weighted_sum scores / weight_sum scores)
  /\ (weight_sum scores == 0 -> net = 0)
  /\ -1 <= net <= 1.
Proof.
  intros Hconf scores net.
  destruct (net_score_quotient articles) as [Hpos Hzero].
  split; [exact Hpos|]. split; [intros Hz; apply Hzero; fold scores; lra|].
  subst net. destruct articles as [|a rest]; [cbn; lra|].
  rewrite net_score_of_fold.
  assert (Hnonneg : Forall (fun a => 0 <= unit_confidence a) (a :: rest)).
  { eapply Forall_impl; [exact Hconf|]. cbn. intros x Hx. lra. }
  pose proof (score_fold_invariant (a :: rest) 0 0 Hnonneg) as Hinv.
  cbn zeta in *.
  destruct (fold_left AnalysisReport.score_step (a :: rest) (0, 0)) as [w t].
  cbn [fst snd] in *.
  destruct Hinv as [[Hlo Hhi] _]; [lra|].
  destruct (Qltb 0 t) eqn:Ht; [|lra].
  apply Qltb_true in Ht. split.
  - apply Qle_shift_div_l; [exact Ht | lra].
  - apply Qle_shift_div_r; [exact Ht | lra].
Qed.

(** C4: aggregation of the empty list gives net score 0.0, signal Neutral
    and a unit count of 0, and aggregation of any list in which every
    confidence is zero gives net score 0.0 and signal Neutral; this holds
    in exact arithmetic and in binary64, and [calculate_market_signal]
    returns its all-zero dictionary for the empty list. *)
Theorem aggregate_empty_or_weightless
    (now : datetime.t) (query category : string)
    (unitsQ : list (AnalyzedArticle.t Q)) (timeQ : Q)
    (unitsF : list (AnalyzedArticle.t float)) (timeF : float) :
  Forall (fun a => unit_confidence a == 0) unitsQ ->
  Forall (fun a => is_float_zero (unit_confidence a)) unitsF ->
  let emptyQ := AnalysisReport.create_from_articles now query category [] timeQ in
  let emptyF := AnalysisReport.create_from_articles now query category [] timeF in
  let reportQ := AnalysisReport.create_from_articles now query category unitsQ timeQ in
  let reportF := AnalysisReport.create_from_articles now query category unitsF timeF in
  (AnalysisReport.net_sentiment_score emptyQ = 0
   /\ AnalysisReport.market_signal emptyQ = "NEUTRAL"
   /\ AnalysisReport.total_articles emptyQ = 0%Z)
  /\ (AnalysisReport.net_sentiment_score emptyF = 0%float
      /\ AnalysisReport.market_signal emptyF = "NEUTRAL"
      /\ AnalysisReport.total_articles emptyF = 0%Z)
  /\ (AnalysisReport.net_sentiment_score reportQ = 0
      /\ AnalysisReport.market_signal reportQ = "NEUTRAL")
  /\ (AnalysisReport.net_sentiment_score reportF = 0%float
      /\ AnalysisReport.market_signal reportF = "NEUTRAL")
  /\ SentimentEngine.calculate_market_signal (R:=Q) []
     = Some (SentimentEngine.mk_stats Q "NEUTRAL" 0
               [("Positive", 0%Z); ("Negative", 0%Z); ("Neutral", 0%Z)] 0 None).
Proof.
  intros HQ HF emptyQ emptyF reportQ reportF.
  split; [repeat split; reflexivity|].
  split; [repeat split; reflexivity|].
  assert (HnetQ : AnalysisReport._calculate_net_sentiment_score unitsQ = 0).
  { apply (net_score_quotient unitsQ). rewrite (weight_sum_weightless unitsQ HQ). lra. }
  assert (HnetF : AnalysisReport._calculate_net_sentiment_score unitsF = 0%float).
  { destruct unitsF as [|a rest]; [reflexivity|].
    unfold AnalysisReport._calculate_net_sentiment_score.
    change (f_lit 0 1 : float) with 0%float.
    rewrite (score_fold_weightless_binary64 (a :: rest) HF). reflexivity. }
  split; [|split; [|reflexivity]].
  - destruct (create_from_articles_fields now query category unitsQ timeQ)
      as (_ & _ & Hn & Hs & _).
    fold reportQ in Hn, Hs. rewrite Hn, Hs, HnetQ. split; reflexivity.
  - destruct (create_from_articles_fields now query category unitsF timeF)
      as (_ & _ & Hn & Hs & _).
    fold reportF in Hn, Hs. rewrite Hn, Hs, HnetF. split; reflexivity.
Qed.

(** C1: for a unit list of three units labelled Positive with confidence
    0.9 and two units labelled Negative with confidence 0.5, in any order,
    the aggregator computes the net score 1.7 / 3.7 = 17/37, which exceeds
    0.15, and the signal BULLISH.  In binary64 the signal is BULLISH and the
    score lies between 0.459 and 0.460 for every order of the units, and for
    the order of the specification it is the double 0.45945945945945948. *)
Theorem scenario_A_is_bullish
    (now : datetime.t) (query category : string)
    (unitsQ : list (AnalyzedArticle.t Q)) (timeQ : Q)
    (unitsF : list (AnalyzedArticle.t float)) (timeF : float) :
  map unit_score unitsQ ≡ₚ scenario_A ->
  map unit_score unitsF ∈ scenario_A_arrangements ->
  let reportQ := AnalysisReport.create_from_articles now query category unitsQ timeQ in
  let reportF := AnalysisReport.create_from_articles now query category unitsF timeF in
  (AnalysisReport.net_sentiment_score reportQ
   == (3 * (9 # 10) * 1 + 2 * (1 # 2) * -1) / (3 * (9 # 10) + 2 * (1 # 2))
   /\ AnalysisReport.net_sentiment_score reportQ == 17 # 37
   /\ 15 # 100 < AnalysisReport.net_sentiment_score reportQ
   /\ AnalysisReport.market_signal reportQ = "BULLISH")
  /\ (AnalysisReport.market_signal reportF = "BULLISH"
      /\ PrimFloat.ltb 0.459 (AnalysisReport.net_sentiment_score reportF) = true
      /\ PrimFloat.ltb (AnalysisReport.net_sentiment_score reportF) 0.46 = true
      /\ (map unit_score unitsF = scenario_A_binary64 ->
          AnalysisReport.net_sentiment_score reportF = 0.45945945945945948%float)).
Proof.
  intros HQ HF reportQ reportF.
  assert (Hnet : AnalysisReport._calculate_net_sentiment_score unitsQ == 17 # 37).
  { destruct (net_score_quotient unitsQ) as [Hpos _]. cbn zeta in Hpos.
    rewrite Hpos; rewrite (weight_sum_perm _ _ HQ); [|reflexivity].
    rewrite (weighted_sum_perm _ _ HQ). reflexivity. }
  split.
  - destruct (create_from_articles_fields now query category unitsQ timeQ)
      as (_ & _ & Hn & Hs & _).
    fold reportQ in Hn, Hs. rewrite Hn, Hs.
    assert (Hgt : 15 # 100 < AnalysisReport._calculate_net_sentiment_score unitsQ)
      by (rewrite Hnet; reflexivity).
    split; [rewrite Hnet; reflexivity|]. split; [exact Hnet|]. split; [exact Hgt|].
    unfold AnalysisReport._determine_market_signal. q_ops.
    apply Qltb_true in Hgt. rewrite Hgt. reflexivity.
  - destruct (create_from_articles_fields now query category unitsF timeF)
      as (_ & _ & Hn & Hs & _).
    fold reportF in Hn, Hs. rewrite Hn, Hs, net_score_reads_unit_scores.
    unfold scenario_A_arrangements in HF. cbn zeta in HF.
    repeat (apply elem_of_cons in HF; destruct HF as [HF|HF];
            [rewrite HF; repeat split; try (vm_compute; reflexivity);
             intros Heq; vm_compute in Heq; try discriminate Heq; vm_compute; reflexivity|]).
    apply elem_of_nil in HF. destruct HF.
Qed.

End AggregationProperties.

(* ------------------------------------------------------------------ *)
(** ** The aggregation at sample inputs *)

Ltac q_closed := unfold Qle, Qlt, Qeq; cbn; lia.

Lemma net_sentiment_score_bounded_witness :
  (-1 <= AnalysisReport._calculate_net_sentiment_score (scenario_A_units (R:=Q)) <= 1)%Q.
Proof.
  refine (proj2 (proj2 (net_sentiment_score_bounded scenario_A_units _))).
  repeat constructor; q_closed.
Defined.

Lemma aggregate_empty_or_weightless_witness :
  AnalysisReport.market_signal
    (AnalysisReport.create_from_articles sample_now "Gold" "commodity"
       [sample_unit "Positive" 0%Q; sample_unit "Negative" 0%Q] 1%Q) = "NEUTRAL"
  /\ AnalysisReport.market_signal
       (AnalysisReport.create_from_articles sample_now "Gold" "commodity"
          [sample_unit "Positive" 0%float; sample_unit "Negative" (-0)%float] 1%float)
     = "NEUTRAL".
Proof.
  assert (HQ : Forall (fun a : AnalyzedArticle.t Q => (unit_confidence a == 0)%Q)
                 [sample_unit "Positive" 0%Q; sample_unit "Negative" 0%Q]).
  { constructor; [reflexivity|]. constructor; [reflexivity|]. constructor. }
  assert (HF : Forall (fun a : AnalyzedArticle.t float => is_float_zero (unit_confidence a))
                 [sample_unit "Positive" 0%float; sample_unit "Negative" (-0)%float]).
  { constructor; [left; reflexivity|]. constructor; [right; reflexivity|]. constructor. }
  pose proof (aggregate_empty_or_weightless sample_now "Gold" "commodity"
                _ 1%Q _ 1%float HQ HF) as H.
  cbv zeta in H.
  split; [exact (proj2 (proj1 (proj2 (proj2 H))))
         | exact (proj2 (proj1 (proj2 (proj2 (proj2 H)))))].
Defined.

Lemma scenario_A_is_bullish_witness :
  AnalysisReport.market_signal
    (AnalysisReport.create_from_articles sample_now "Gold" "commodity"
       (scenario_A_units (R:=Q)) 1%Q) = "BULLISH"
  /\ AnalysisReport.market_signal
       (AnalysisReport.create_from_articles sample_now "Gold" "commodity"
          (scenario_A_units (R:=float)) 1%float) = "BULLISH".
Proof.
  assert (HQ : map unit_score (scenario_A_units (R:=Q)) ≡ₚ scenario_A) by reflexivity.
  assert (HF : map unit_score (scenario_A_units (R:=float)) ∈ scenario_A_arrangements).
  { vm_compute. apply list_elem_of_here. }
  pose proof (scenario_A_is_bullish sample_now "Gold" "commodity"
                _ 1%Q _ 1%float HQ HF) as H.
  cbv zeta in H.
  split; [exact (proj2 (proj2 (proj2 (proj1 H)))) | exact (proj1 (proj2 H))].
Defined.

(* ------------------------------------------------------------------ *)
(** ** What the validation of a report checks *)

(** [sum(d.values())] for a dictionary of counts. *)
Definition distribution_total (d : list (string * Z)) : Z :=
  fold_left Z.add (PyDict.values d) 0%Z.

(** A report that [validate] accepts although its distribution does not
    add up to its article count: the constructor is given a distribution
    of five Positive units and no article. *)
Definition miscounted_report : AnalysisReport.t Q :=
  AnalysisReport.init sample_now "Gold" "commodity" 0
    [("Positive", 5%Z); ("Negative", 0%Z); ("Neutral", 0%Z)]
    (Some 0%Q) "NEUTRAL" [] 1%Q.

Section ValidationProperties.
Context {R : Type} `{!PyFloat R}.

Lemma fold_add_shift (xs : list Z) (acc : Z) :
  fold_left Z.add xs acc = (acc + fold_left Z.add xs 0)%Z.
Proof.
  revert acc. induction xs as [|x xs IH]; intros acc; cbn [fold_left].
  - lia.
  - rewrite (IH (acc + x)%Z), (IH (0 + x)%Z). lia.
Qed.

Lemma distribution_total_cons (k : string) (v : Z) (d : list (string * Z)) :
  distribution_total ((k, v) :: d) = (v + distribution_total d)%Z.
Proof.
  unfold distribution_total, PyDict.values. cbn [map snd fold_left].
  rewrite (fold_add_shift _ (0 + v)%Z). lia.
Qed.

(** Counting a label that is a key adds one to the total and keeps the keys. *)
Lemma update_total (label : string) (d : list (string * Z)) :
  PyDict.mem label d = true ->
  distribution_total (PyDict.update (fun n => (n + 1)%Z) label d)
  = (distribution_total d + 1)%Z.
Proof.
  unfold PyDict.mem.
  induction d as [|[k v] d IH]; cbn [PyDict.get PyDict.update]; [discriminate|].
  destruct (String.eqb label k); intros H.
  - rewrite !distribution_total_cons. lia.
  - rewrite !distribution_total_cons, (IH H). lia.
Qed.

Lemma update_keys (f : Z -> Z) (label : string) (d : list (string * Z)) :
  PyDict.keys (PyDict.update f label d) = PyDict.keys d.
Proof.
  induction d as [|[k v] d IH]; cbn [PyDict.update]; [reflexivity|].
  destruct (String.eqb label k); cbn; [reflexivity|].
  unfold PyDict.keys in IH. rewrite IH. reflexivity.
Qed.

Lemma mem_keys (label : string) (d : list (string * Z)) :
  PyDict.mem label d = PyStr.in_list label (PyDict.keys d).
Proof.
  unfold PyDict.mem, PyStr.in_list.
  induction d as [|[k v] d IH]; cbn [PyDict.get PyDict.keys map fst existsb]; [reflexivity|].
  destruct (String.eqb label k); [reflexivity|exact IH].
Qed.

(** The counting loop, started from any dictionary whose keys are the
    three labels, ends with the starting total plus the number of units
    when every unit carries one of the three labels. *)
Lemma distribution_fold_total (articles : list (AnalyzedArticle.t R)) :
  forall d : list (string * Z),
    PyDict.keys d = ["Positive"; "Negative"; "Neutral"] ->
    Forall (fun a => PyStr.in_list (unit_score a).1 ["Positive"; "Negative"; "Neutral"] = true)
           articles ->
    let d' :=
      fold_left
        (fun distribution analyzed_article =>
           let sentiment_label :=
             ContentSentiment.label (AnalyzedArticle.content_sentiment analyzed_article) in
           if PyDict.mem sentiment_label distribution
           then PyDict.update (fun n => (n + 1)%Z) sentiment_label distribution
           else distribution)
        articles d in
    PyDict.keys d' = ["Positive"; "Negative"; "Neutral"]
    /\ distribution_total d' = (distribution_total d + Z.of_nat (length articles))%Z.
Proof.
  induction articles as [|a rest IH]; intros d Hkeys Hlabels; cbn [fold_left length].
  - cbn zeta. split; [exact Hkeys | lia].
  - inversion Hlabels as [|? ? Ha Hrest]; subst. cbn [unit_score fst] in Ha.
    assert (Hmem : PyDict.mem
                     (ContentSentiment.label (AnalyzedArticle.content_sentiment a)) d = true)
      by (rewrite mem_keys, Hkeys; exact Ha).
    cbn zeta. rewrite Hmem.
    destruct (IH (PyDict.update (fun n => (n + 1)%Z)
                    (ContentSentiment.label (AnalyzedArticle.content_sentiment a)) d))
      as [Hk Ht]; [rewrite update_keys; exact Hkeys | exact Hrest |].
    cbn zeta in Hk, Ht. split; [exact Hk|].
    rewrite Ht, (update_total _ _ Hmem). lia.
Qed.

Lemma content_validate_label (c : ContentSentiment.t R) :
  ContentSentiment.validate c = true ->
  PyStr.in_list (ContentSentiment.label c) ["Positive"; "Negative"; "Neutral"] = true.
Proof.
  unfold ContentSentiment.validate.
  destruct (_ || _); [discriminate|].
  destruct (PyStr.in_list _ _); [reflexivity|discriminate].
Qed.

(** What an accepted report is known to satisfy. *)
Lemma validate_sound (r : AnalysisReport.t R) :
  AnalysisReport.validate r = true ->
  (0 <= AnalysisReport.total_articles r)%Z
  /\ f_ltb (AnalysisReport.net_sentiment_score r) (f_lit (-1) 1) = false
  /\ f_ltb (f_lit 1 1) (AnalysisReport.net_sentiment_score r) = false
  /\ PyStr.in_list (AnalysisReport.market_signal r) ["BULLISH"; "BEARISH"; "NEUTRAL"] = true
  /\ f_ltb (AnalysisReport.processing_time r) (f_lit 0 1) = false
  /\ PyDict.key_set (AnalysisReport.sentiment_distribution r)
     = {["Positive"; "Negative"; "Neutral"]}
  /\ Z.of_nat (length (AnalysisReport.articles r)) = AnalysisReport.total_articles r
  /\ Forall (fun a => AnalyzedArticle.validate a = true) (AnalysisReport.articles r).
Proof.
  unfold AnalysisReport.validate.
  destruct (AnalysisReport.total_articles r <? 0)%Z eqn:E1; [discriminate|].
  destruct (f_ltb (AnalysisReport.net_sentiment_score r) (f_lit (-1) 1)) eqn:E2;
    [discriminate|].
  destruct (f_ltb (f_lit 1 1) (AnalysisReport.net_sentiment_score r)) eqn:E3;
    [discriminate|].
  destruct (PyStr.in_list (AnalysisReport.market_signal r) _) eqn:E4; [|discriminate].
  destruct (f_ltb (AnalysisReport.processing_time r) (f_lit 0 1)) eqn:E5; [discriminate|].
  cbn [orb negb].
  destruct (bool_decide _) eqn:E6; [|discriminate].
  destruct (Z.of_nat _ =? _)%Z eqn:E7; [|discriminate].
  cbn [negb]. intros E8.
  apply Z.ltb_ge in E1. apply bool_decide_eq_true in E6. apply Z.eqb_eq in E7.
  rewrite forallb_forall in E8.
  repeat split; try assumption.
  apply Forall_forall. intros a Ha. apply E8. apply list_elem_of_In. exact Ha.
Qed.

End ValidationProperties.

(** C3 (as amended): the validation of a report accepts it only if the keys
    of sentiment_distribution are exactly Positive, Negative and Neutral and
    len(articles) == total_articles; it does not compare the sum of the
    distribution with total_articles.  For a report that
    [create_from_articles] builds and the validation accepts, the
    distribution does sum to total_articles. *)
Theorem validate_checks_keys_and_count {R : Type} `{!PyFloat R}
    (r : AnalysisReport.t R)
    (now : datetime.t) (query category : string)
    (articles : list (AnalyzedArticle.t R)) (processing_time : R) :
  AnalysisReport.validate r = true ->
  AnalysisReport.validate
    (AnalysisReport.create_from_articles now query category articles processing_time) = true ->
  (PyDict.key_set (AnalysisReport.sentiment_distribution r)
   = {["Positive"; "Negative"; "Neutral"]}
   /\ Z.of_nat (length (AnalysisReport.articles r)) = AnalysisReport.total_articles r)
  /\ distribution_total
       (AnalysisReport.sentiment_distribution
          (AnalysisReport.create_from_articles now query category articles processing_time))
     = AnalysisReport.total_articles
         (AnalysisReport.create_from_articles now query category articles processing_time).
Proof.
  intros Hr Hcreated. split.
  - destruct (validate_sound r Hr) as (_ & _ & _ & _ & _ & Hkeys & Hlen & _).
    split; assumption.
  - destruct (validate_sound _ Hcreated) as (_ & _ & _ & _ & _ & _ & _ & Hall).
    destruct (create_from_articles_fields now query category articles processing_time)
      as (Htotal & Hdist & _ & _ & Harts).
    cbv zeta in *. rewrite Harts in Hall. rewrite Hdist, Htotal.
    unfold AnalysisReport._calculate_sentiment_distribution.
    edestruct (distribution_fold_total articles
                 [("Positive", 0%Z); ("Negative", 0%Z); ("Neutral", 0%Z)]) as [_ Ht];
      [reflexivity | | cbv zeta in Ht; rewrite Ht; reflexivity].
    eapply Forall_impl; [exact Hall|].
    intros a Ha. cbn [unit_score fst]. apply content_validate_label.
    unfold AnalyzedArticle.validate in Ha.
    apply andb_true_iff in Ha. exact (proj2 Ha).
Qed.

(** C3 (as stated) fails: [validate] accepts [miscounted_report], whose
    distribution sums to 5 while total_articles is 0. *)
Lemma validate_accepts_miscounted_report :
  AnalysisReport.validate miscounted_report = true
  /\ distribution_total (AnalysisReport.sentiment_distribution miscounted_report) = 5%Z
  /\ AnalysisReport.total_articles miscounted_report = 0%Z
  /\ (distribution_total (AnalysisReport.sentiment_distribution miscounted_report)
      =? AnalysisReport.total_articles miscounted_report)%Z = false.
Proof. vm_compute. repeat split; reflexivity. Qed.

Lemma validate_checks_keys_and_count_witness :
  AnalysisReport.validate miscounted_report = true
  /\ distribution_total
       (AnalysisReport.sentiment_distribution
          (AnalysisReport.create_from_articles sample_now "Gold" "commodity"
             [sample_unit "Positive" (85 # 100)%Q] (52 # 10)%Q))
     = 1%Z.
Proof.
  assert (H1 : AnalysisReport.validate miscounted_report = true) by (vm_compute; reflexivity).
  assert (H2 : AnalysisReport.validate
                 (AnalysisReport.create_from_articles sample_now "Gold" "commodity"
                    [sample_unit "Positive" (85 # 100)%Q] (52 # 10)%Q) = true)
    by (vm_compute; reflexivity).
  split; [exact H1|].
  exact (proj2 (validate_checks_keys_and_count miscounted_report sample_now "Gold"
                  "commodity" [sample_unit "Positive" (85 # 100)%Q] (52 # 10)%Q H1 H2)).
Defined.

(* ================================================================== *)
(** * Properties of the scorer *)

(** The three parts of the invariant the specification states for a content
    score, as the checks they are: the probabilities sum to 1.0 within 0.01
    (the test of [ContentSentiment.validate]), no probability exceeds the one
    of the label, and the confidence is the probability of the label. *)
Definition probabilities_sum_to_one (c : ContentSentiment.t Q) : bool :=
  negb (Qltb (1 # 100)
          (Qabs (py_sum (PyDict.values (ContentSentiment.probabilities c)) - 1))).

Definition label_is_argmax (c : ContentSentiment.t Q) : bool :=
  match PyDict.get (ContentSentiment.label c) (ContentSentiment.probabilities c) with
  | Some p => forallb (fun q => Qle_bool q p) (PyDict.values (ContentSentiment.probabilities c))
  | None => false
  end.

Definition confidence_is_label_probability (c : ContentSentiment.t Q) : bool :=
  match PyDict.get (ContentSentiment.label c) (ContentSentiment.probabilities c) with
  | Some p => Qeq_bool (ContentSentiment.confidence c) p
  | None => false
  end.

Definition content_score_invariant (c : ContentSentiment.t Q) : bool :=
  probabilities_sum_to_one c && label_is_argmax c && confidence_is_label_probability c.

(** A classifier that always raises, and one that returns a fixed row. *)
Definition failing_classifier {R : Type} : string -> nat -> option (list R) :=
  fun _ _ => None.

Definition constant_classifier {R : Type} (row : list R) : string -> nat -> option (list R) :=
  fun _ _ => Some row.

Section ScorerProperties.
Context {R : Type} `{!PyFloat R}.
Variable finbert_softmax : string -> nat -> option (list R).
Variable max_text_length : nat.

(** The result of [analyze_content] is the fallback, or it is built from
    the row the classifier returned. *)
Lemma analyze_content_cases (text : string) :
  SentimentEngine.analyze_content finbert_softmax max_text_length text
  = SentimentEngine.neutral_fallback
  \/ exists probabilities predicted_idx predicted_label confidence,
       PyStr.is_blank text = false
       /\ finbert_softmax (SentimentEngine._truncate_text max_text_length text)
            max_text_length = Some probabilities
       /\ SentimentEngine.argmax probabilities = Some predicted_idx
       /\ SentimentEngine.finbert_labels !! predicted_idx = Some predicted_label
       /\ probabilities !! predicted_idx = Some confidence
       /\ SentimentEngine.analyze_content finbert_softmax max_text_length text
          = ContentSentiment.mk confidence predicted_label
              (zip SentimentEngine.finbert_labels probabilities).
Proof.
  unfold SentimentEngine.analyze_content, SentimentEngine.analyze_content_try.
  destruct (PyStr.is_blank text) eqn:Hblank; [left; reflexivity|].
  destruct (finbert_softmax _ _) as [probabilities|] eqn:Hrow; [|left; reflexivity].
  cbn [mbind option_bind].
  destruct (SentimentEngine.argmax probabilities) as [idx|] eqn:Hidx; [|left; reflexivity].
  cbn [mbind option_bind].
  destruct (SentimentEngine.finbert_labels !! idx) as [lbl|] eqn:Hlbl; [|left; reflexivity].
  cbn [mbind option_bind].
  destruct (probabilities !! idx) as [conf|] eqn:Hconf; [|left; reflexivity].
  right. exists probabilities, idx, lbl, conf. repeat split; try assumption; reflexivity.
Qed.

(** On empty or blank input, and when the classifier raises, the [try]
    block gives the fallback or raises, and the function returns the
    fallback. *)
Lemma analyze_content_fallback (text : string) :
  PyStr.is_blank text = true
  \/ finbert_softmax (SentimentEngine._truncate_text max_text_length text)
       max_text_length = None ->
  SentimentEngine.analyze_content finbert_softmax max_text_length text
  = SentimentEngine.neutral_fallback
  /\ SentimentEngine.analyze_content_try finbert_softmax max_text_length text
     = (if PyStr.is_blank text then Some SentimentEngine.neutral_fallback else None).
Proof.
  unfold SentimentEngine.analyze_content, SentimentEngine.analyze_content_try.
  intros [Hblank|Hraise].
  - rewrite Hblank. split; reflexivity.
  - destruct (PyStr.is_blank text); [split; reflexivity|].
    rewrite Hraise. split; reflexivity.
Qed.

(** C7: [analyze_content] never fails: for every text it returns a content
    score, which is the fallback or is built from the row the classifier
    returned; when the text is empty or blank, or the classifier raises, the
    result is the Neutral fallback with confidence 0.33 and the
    probabilities Negative 0.33, Neutral 0.34, Positive 0.33, the exception
    staying inside the function. *)
Theorem analyze_content_never_fails (text : string) :
  PyStr.is_blank text = true
  \/ finbert_softmax (SentimentEngine._truncate_text max_text_length text)
       max_text_length = None ->
  SentimentEngine.analyze_content finbert_softmax max_text_length text
  = ContentSentiment.mk (f_lit 33 100) "Neutral"
      [("Negative", f_lit 33 100); ("Neutral", f_lit 34 100); ("Positive", f_lit 33 100)]
  /\ forall other : string,
       SentimentEngine.analyze_content finbert_softmax max_text_length other
       = SentimentEngine.neutral_fallback
       \/ exists probabilities predicted_idx predicted_label confidence,
            finbert_softmax (SentimentEngine._truncate_text max_text_length other)
              max_text_length = Some probabilities
            /\ SentimentEngine.argmax probabilities = Some predicted_idx
            /\ SentimentEngine.finbert_labels !! predicted_idx = Some predicted_label
            /\ probabilities !! predicted_idx = Some confidence
            /\ SentimentEngine.analyze_content finbert_softmax max_text_length other
               = ContentSentiment.mk confidence predicted_label
                   (zip SentimentEngine.finbert_labels probabilities).
Proof.
  intros Hfallback. split.
  - exact (proj1 (analyze_content_fallback text Hfallback)).
  - intros other. destruct (analyze_content_cases other) as [Hf|Hrow]; [left; exact Hf|].
    right. destruct Hrow as (row & idx & label & confidence & _ & Hrow).
    exists row, idx, label, confidence. exact Hrow.
Qed.

End ScorerProperties.

Lemma analyze_content_never_fails_witness :
  SentimentEngine.analyze_content (R:=Q) failing_classifier 512 "Gold rallies."
  = SentimentEngine.neutral_fallback
  /\ SentimentEngine.analyze_content (R:=float) (constant_classifier [0.1; 0.2; 0.7]%float) 512 "   "
     = SentimentEngine.neutral_fallback.
Proof.
  split.
  - exact (proj1 (analyze_content_never_fails (R:=Q) failing_classifier 512 "Gold rallies."
                    (or_intror eq_refl))).
  - exact (proj1 (analyze_content_never_fails (R:=float)
                    (constant_classifier [0.1; 0.2; 0.7]%float) 512 "   "
                    (or_introl eq_refl))).
Defined.

Section ContentScoreInvariant.
Local Open Scope Q_scope.
Variable finbert_softmax : string -> nat -> option (list Q).
Variable max_text_length : nat.

Lemma Qle_bool_of_le (x y : Q) : x <= y -> Qle_bool x y = true.
Proof. apply Qle_bool_iff. Qed.

(** A row of three probabilities that sum to 1.0 within 0.01 gives a
    content score with the whole invariant. *)
Lemma row_score_invariant (a b c : Q) (idx : nat) (label : string) (confidence : Q) :
  Qabs (py_sum [a; b; c] - 1) <= 1 # 100 ->
  SentimentEngine.argmax [a; b; c] = Some idx ->
  SentimentEngine.finbert_labels !! idx = Some label ->
  [a; b; c] !! idx = Some confidence ->
  content_score_invariant
    (ContentSentiment.mk confidence label (zip SentimentEngine.finbert_labels [a; b; c]))
  = true.
Proof.
  intros Hsum Hidx Hlabel Hconf.
  unfold content_score_invariant, probabilities_sum_to_one, label_is_argmax,
    confidence_is_label_probability.
  cbn [ContentSentiment.probabilities ContentSentiment.label ContentSentiment.confidence].
  assert (Hs : Qltb (1 # 100) (Qabs (py_sum [a; b; c] - 1)) = false)
    by (apply Qltb_false; exact Hsum).
  change (PyDict.values (zip SentimentEngine.finbert_labels [a; b; c])) with [a; b; c].
  rewrite Hs. cbn [negb andb].
  unfold SentimentEngine.argmax in Hidx. cbn [SentimentEngine.argmax_from] in Hidx.
  q_ops.
  destruct (Qltb a b) eqn:Hab; destruct (Qltb b c) eqn:Hbc; destruct (Qltb a c) eqn:Hac;
    injection Hidx as <-; cbn in Hlabel, Hconf;
    injection Hlabel as <-; injection Hconf as <-;
    cbn [zip zip_with SentimentEngine.finbert_labels PyDict.get String.eqb Ascii.eqb
         Bool.eqb forallb];
    try apply Qltb_true in Hab; try apply Qltb_false in Hab;
    try apply Qltb_true in Hbc; try apply Qltb_false in Hbc;
    try apply Qltb_true in Hac; try apply Qltb_false in Hac;
    rewrite ?Qle_bool_of_le by lra; cbn [andb];
    try (apply Qeq_bool_iff; reflexivity); exfalso; lra.
Qed.

End ContentScoreInvariant.

Section ContentScoreProperties.
Local Open Scope Q_scope.
Variable finbert_softmax : string -> nat -> option (list Q).
Variable max_text_length : nat.

(** With a row of three entries no step of the [try] block raises. *)
Lemma row_of_three_is_scored (text : string) (a b c : Q) :
  PyStr.is_blank text = false ->
  finbert_softmax (SentimentEngine._truncate_text max_text_length text) max_text_length
  = Some [a; b; c] ->
  exists idx label confidence,
    SentimentEngine.argmax [a; b; c] = Some idx
    /\ SentimentEngine.finbert_labels !! idx = Some label
    /\ [a; b; c] !! idx = Some confidence
    /\ SentimentEngine.analyze_content finbert_softmax max_text_length text
       = ContentSentiment.mk confidence label
           (zip SentimentEngine.finbert_labels [a; b; c]).
Proof.
  intros Hblank Hrow.
  unfold SentimentEngine.analyze_content, SentimentEngine.analyze_content_try.
  rewrite Hblank, Hrow. cbn [mbind option_bind].
  unfold SentimentEngine.argmax. cbn [SentimentEngine.argmax_from].
  destruct (f_ltb a b); destruct (f_ltb b c); destruct (f_ltb a c);
    cbn [mbind option_bind]; eexists _, _, _; repeat split; reflexivity.
Qed.

(** C2 (as amended): every content score [analyze_content] produces has
    probabilities that sum to 1.0 within 0.01 and a label that is the
    arg-max of its probabilities, provided the classifier returns rows of
    three probabilities that sum to 1.0 within 0.01; its confidence is the
    probability of its label when the score comes from a classifier run,
    whereas on empty or blank input and on a classifier failure the
    confidence is 0.33 and the probability of its label Neutral is 0.34. *)
Theorem content_score_invariant_but_fallback_confidence (text : string) :
  (forall row,
     finbert_softmax (SentimentEngine._truncate_text max_text_length text) max_text_length
     = Some row ->
     length row = 3%nat /\ Qabs (py_sum row - 1) <= 1 # 100) ->
  let c := SentimentEngine.analyze_content finbert_softmax max_text_length text in
  probabilities_sum_to_one c = true
  /\ label_is_argmax c = true
  /\ (PyStr.is_blank text = false ->
      is_Some (finbert_softmax (SentimentEngine._truncate_text max_text_length text)
                 max_text_length) ->
      confidence_is_label_probability c = true)
  /\ (PyStr.is_blank text = true
      \/ finbert_softmax (SentimentEngine._truncate_text max_text_length text)
           max_text_length = None ->
      ContentSentiment.confidence c = 33 # 100
      /\ PyDict.get (ContentSentiment.label c) (ContentSentiment.probabilities c)
         = Some (34 # 100)
      /\ confidence_is_label_probability c = false).
Proof.
  intros Hclassifier c.
  assert (Hfallback :
    PyStr.is_blank text = true
    \/ finbert_softmax (SentimentEngine._truncate_text max_text_length text)
         max_text_length = None ->
    c = SentimentEngine.neutral_fallback).
  { intros H. exact (proj1 (analyze_content_fallback finbert_softmax max_text_length text H)). }
  destruct (PyStr.is_blank text) eqn:Hblank.
  { rewrite (Hfallback (or_introl eq_refl)).
    split; [reflexivity|]. split; [reflexivity|].
    split; [discriminate|]. intros _. repeat split; reflexivity. }
  destruct (finbert_softmax _ _) as [row|] eqn:Hrow.
  2:{ rewrite (Hfallback (or_intror eq_refl)).
      split; [reflexivity|]. split; [reflexivity|].
      split; [intros _ [x Hx]; discriminate Hx|]. intros _. repeat split; reflexivity. }
  destruct (Hclassifier row eq_refl) as [Hlen Hsum].
  destruct row as [|a [|b [|c0 [|? ?]]]]; try discriminate Hlen.
  destruct (row_of_three_is_scored text a b c0 Hblank Hrow)
    as (idx & label & confidence & Hidx & Hlabel & Hconf & Hc).
  fold c in Hc.
  pose proof (row_score_invariant a b c0 idx label confidence Hsum Hidx Hlabel Hconf) as Hinv.
  rewrite <- Hc in Hinv. unfold content_score_invariant in Hinv.
  apply andb_true_iff in Hinv. destruct Hinv as [Hinv H3].
  apply andb_true_iff in Hinv. destruct Hinv as [H1 H2].
  split; [exact H1|]. split; [exact H2|]. split; [intros _ _; exact H3|].
  intros [H|H]; discriminate H.
Qed.

End ContentScoreProperties.

(** C2 (as stated) fails on the fallback: whether the classifier raises or
    the input is blank, the content score has confidence 0.33 while the
    probability of its label, the largest one, is 0.34. *)
Lemma fallback_confidence_is_not_label_probability :
  let raised := SentimentEngine.analyze_content (R:=Q) failing_classifier 512 "Gold rallies." in
  let blank :=
    SentimentEngine.analyze_content (R:=Q)
      (constant_classifier [1 # 10; 2 # 10; 7 # 10]%Q) 512 "" in
  content_score_invariant raised = false
  /\ content_score_invariant blank = false
  /\ ContentSentiment.confidence raised = (33 # 100)%Q
  /\ PyDict.get (ContentSentiment.label raised) (ContentSentiment.probabilities raised)
     = Some (34 # 100)%Q
  /\ Qeq_bool (33 # 100) (34 # 100) = false.
Proof. vm_compute. repeat split; reflexivity. Qed.

Lemma content_score_invariant_but_fallback_confidence_witness :
  let c :=
    SentimentEngine.analyze_content (R:=Q)
      (constant_classifier [5 # 100; 10 # 100; 85 # 100]%Q) 512
      "Gold market shows strong bullish momentum." in
  ContentSentiment.label c = "Positive"
  /\ probabilities_sum_to_one c = true
  /\ label_is_argmax c = true
  /\ confidence_is_label_probability c = true.
Proof.
  assert (H : forall row,
             constant_classifier [5 # 100; 10 # 100; 85 # 100]%Q
               (SentimentEngine._truncate_text 512 "Gold market shows strong bullish momentum.")
               512 = Some row ->
             length row = 3%nat /\ (Qabs (py_sum row - 1) <= 1 # 100)%Q).
  { intros row Hrow. injection Hrow as <-. split; [reflexivity|]. vm_compute. discriminate. }
  pose proof (content_score_invariant_but_fallback_confidence
                (constant_classifier [5 # 100; 10 # 100; 85 # 100]%Q) 512
                "Gold market shows strong bullish momentum." H) as (H1 & H2 & H3 & _).
  cbv zeta. split; [reflexivity|]. split; [exact H1|]. split; [exact H2|].
  apply H3; [reflexivity | eexists; reflexivity].
Defined.

(** The fallback in binary64: it passes [ContentSentiment.validate], and
    its confidence is below the probability of its label there as well. *)
Lemma fallback_binary64 :
  ContentSentiment.validate (SentimentEngine.neutral_fallback (R:=float)) = true
  /\ py_sum (PyDict.values
               (ContentSentiment.probabilities (SentimentEngine.neutral_fallback (R:=float))))
     = 1%float
  /\ PrimFloat.ltb
       (ContentSentiment.confidence (SentimentEngine.neutral_fallback (R:=float)))
       0.34%float = true.
Proof. vm_compute. repeat split; reflexivity. Qed.

(* ================================================================== *)
(** * Properties of the news aggregator *)

Section Deduplication.

(** The URLs and the normalised titles of a list of articles. *)
Definition urls_of (articles : list Article.t) : list string :=
  map Article.url articles.

Definition normalized_titles_of (articles : list Article.t) : list string :=
  map (fun a => PyStr.strip (PyStr.lower (Article.title a))) articles.

(** The state of the loop describes the accepted articles: the two sets
    are their URLs and their normalised titles, which do not repeat. *)
Definition dedup_state_ok (st : gset string * gset string * list Article.t) : Prop :=
  st.1.1 = list_to_set (urls_of st.2)
  /\ st.1.2 = list_to_set (normalized_titles_of st.2)
  /\ NoDup (urls_of st.2)
  /\ NoDup (normalized_titles_of st.2).

Lemma dedup_step_ok (st : gset string * gset string * list Article.t) (a : Article.t) :
  dedup_state_ok st -> dedup_state_ok (NewsAggregator.dedup_step st a).
Proof.
  destruct st as [[seen_urls seen_titles] unique].
  intros (Hu & Ht & Hnu & Hnt). cbn [fst snd] in *.
  unfold NewsAggregator.dedup_step.
  case_bool_decide as Hurl; [repeat split; assumption|].
  case_bool_decide as Htitle; [repeat split; assumption|].
  unfold dedup_state_ok, urls_of, normalized_titles_of in *. cbn [fst snd].
  rewrite !map_app, !list_to_set_app_L. cbn [map list_to_set].
  subst seen_urls seen_titles.
  repeat split.
  - set_solver.
  - set_solver.
  - apply NoDup_app. repeat split; [exact Hnu | | apply NoDup_singleton].
    intros x Hx Hx'. apply list_elem_of_singleton in Hx'. subst x.
    apply Hurl. apply elem_of_list_to_set. exact Hx.
  - apply NoDup_app. repeat split; [exact Hnt | | apply NoDup_singleton].
    intros x Hx Hx'. apply list_elem_of_singleton in Hx'. subst x.
    apply Htitle. apply elem_of_list_to_set. exact Hx.
Qed.

Lemma dedup_fold_ok (articles : list Article.t) :
  forall st, dedup_state_ok st ->
    dedup_state_ok (fold_left NewsAggregator.dedup_step articles st).
Proof.
  induction articles as [|a rest IH]; intros st Hst; [exact Hst|].
  cbn [fold_left]. apply IH. apply dedup_step_ok. exact Hst.
Qed.

(** The output of the pass has pairwise distinct URLs and pairwise distinct
    normalised titles. *)
Lemma deduplicate_articles_distinct (articles : list Article.t) :
  NoDup (urls_of (NewsAggregator.deduplicate_articles articles))
  /\ NoDup (normalized_titles_of (NewsAggregator.deduplicate_articles articles)).
Proof.
  unfold NewsAggregator.deduplicate_articles.
  destruct (dedup_fold_ok articles (∅, ∅, [])) as (_ & _ & Hu & Ht).
  - repeat split; constructor.
  - split; assumption.
Qed.

(** On a list without repeated URLs or titles the loop accepts every
    article. *)
Lemma dedup_fold_distinct (post : list Article.t) :
  forall pre : list Article.t,
    NoDup (urls_of (pre ++ post)) ->
    NoDup (normalized_titles_of (pre ++ post)) ->
    fold_left NewsAggregator.dedup_step post
      (list_to_set (urls_of pre), list_to_set (normalized_titles_of pre), pre)
    = (list_to_set (urls_of (pre ++ post)),
       list_to_set (normalized_titles_of (pre ++ post)), pre ++ post).
Proof.
  induction post as [|a rest IH]; intros pre Hu Ht.
  - rewrite app_nil_r. reflexivity.
  - cbn [fold_left].
    assert (Hstep :
      NewsAggregator.dedup_step
        (list_to_set (urls_of pre), list_to_set (normalized_titles_of pre), pre) a
      = (list_to_set (urls_of (pre ++ [a])),
         list_to_set (normalized_titles_of (pre ++ [a])), pre ++ [a])).
    { unfold NewsAggregator.dedup_step.
      unfold urls_of, normalized_titles_of in *.
      rewrite !map_app in Hu, Ht. cbn [map] in Hu, Ht.
      apply NoDup_app in Hu. destruct Hu as (_ & Hu & _).
      apply NoDup_app in Ht. destruct Ht as (_ & Ht & _).
      case_bool_decide as Hurl.
      { exfalso. apply elem_of_list_to_set in Hurl. apply (Hu _ Hurl). left. }
      case_bool_decide as Htitle.
      { exfalso. apply elem_of_list_to_set in Htitle. apply (Ht _ Htitle). left. }
      rewrite !map_app, !list_to_set_app_L. cbn [map list_to_set].
      f_equal; try f_equal; try reflexivity; set_solver. }
    rewrite Hstep.
    replace (pre ++ a :: rest) with ((pre ++ [a]) ++ rest) in *
      by (rewrite <- app_assoc; reflexivity).
    apply IH; assumption.
Qed.

(** C9: the deduplication pass is idempotent: for every article list,
    applying [deduplicate_articles] to its own output yields the same list,
    the output having pairwise distinct URLs and pairwise distinct
    case-normalised titles. *)
Theorem deduplicate_articles_idempotent (articles : list Article.t) :
  NewsAggregator.deduplicate_articles (NewsAggregator.deduplicate_articles articles)
  = NewsAggregator.deduplicate_articles articles
  /\ NoDup (urls_of (NewsAggregator.deduplicate_articles articles))
  /\ NoDup (normalized_titles_of (NewsAggregator.deduplicate_articles articles)).
Proof.
  destruct (deduplicate_articles_distinct articles) as [Hu Ht].
  split; [|split; assumption].
  unfold NewsAggregator.deduplicate_articles at 1.
  change (∅ : gset string, ∅ : gset string, @nil Article.t)
    with (list_to_set (urls_of []) : gset string,
          list_to_set (normalized_titles_of []) : gset string, @nil Article.t).
  rewrite (dedup_fold_distinct _ [] Hu Ht). reflexivity.
Qed.

End Deduplication.

(* ------------------------------------------------------------------ *)
(** ** Deduplication before the fan-out *)

Lemma submseteq_fmap_NoDup {A B : Type} (f : A -> B) (l k : list A) :
  l ⊆+ k -> NoDup (f <$> k) -> NoDup (f <$> l).
Proof.
  intros Hsub Hk. apply submseteq_Permutation in Hsub as [rest Hperm].
  rewrite Hperm, fmap_app in Hk. apply NoDup_app in Hk. exact (proj1 Hk).
Qed.

Section FanOut.
Variable articles_per_query : nat.
Variable max_workers : nat.
Variable min_content_length : nat.
Variable quote : string -> string.
Variable feedparser_parse : string -> option (list NewsAggregator.rss_entry).
Variable urlparse : string -> option (string * string).
Variable parse_qs_url : string -> option string.
Variable session_head : string -> option string.
Variable trafilatura_fetch_url : string -> option (option string).
Variable trafilatura_extract : string -> option (option string).
Variable paragraph_text : string -> option string.

Local Abbreviation gather := (NewsAggregator.gather articles_per_query quote feedparser_parse).
Local Abbreviation pool_step :=
  (NewsAggregator.pool_step max_workers min_content_length urlparse parse_qs_url
     session_head trafilatura_fetch_url trafilatura_extract paragraph_text).
Local Abbreviation pool_init := (NewsAggregator.pool_init articles_per_query quote feedparser_parse).
Local Abbreviation fetch_articles :=
  (NewsAggregator.fetch_articles articles_per_query max_workers min_content_length quote
     feedparser_parse urlparse parse_qs_url session_head trafilatura_fetch_url
     trafilatura_extract paragraph_text).

(** The state of the first phase: the set holds the links of the entries
    kept so far, every kept entry has a link, and no link is kept twice. *)
Definition gather_state_ok (st : gset string * list NewsAggregator.rss_entry) : Prop :=
  st.1 = list_to_set (omap NewsAggregator.entry_link st.2)
  /\ Forall (fun e => is_Some (NewsAggregator.entry_link e)) st.2
  /\ NoDup (NewsAggregator.entry_link <$> st.2).

Lemma gather_entries_ok (entries : list NewsAggregator.rss_entry) :
  forall st, gather_state_ok st -> gather_state_ok (NewsAggregator.gather_entries st entries).
Proof.
  induction entries as [|entry rest IH]; intros st Hst; cbn [NewsAggregator.gather_entries];
    [exact Hst|].
  destruct (NewsAggregator.entry_link entry) as [link|] eqn:Hlink; [|exact Hst].
  case_bool_decide as Hseen; [apply IH; exact Hst|].
  apply IH. destruct st as [links raw]. destruct Hst as (Hset & Hall & Hnodup).
  cbn [fst snd] in *. unfold gather_state_ok. cbn [fst snd].
  assert (Hone : omap NewsAggregator.entry_link [entry] = [link])
    by (cbn; rewrite Hlink; reflexivity).
  rewrite omap_app, fmap_app, list_to_set_app_L, Hone. cbn [fmap list_fmap].
  rewrite Hlink. cbn [list_to_set]. subst links. repeat split.
  - set_solver.
  - apply Forall_app. split; [exact Hall|]. constructor; [|constructor].
    rewrite Hlink. eexists; reflexivity.
  - apply NoDup_app. repeat split; [exact Hnodup | | apply NoDup_singleton].
    intros x Hx Hx'. apply list_elem_of_singleton in Hx'. subst x.
    apply Hseen. apply elem_of_list_to_set. apply list_elem_of_omap.
    apply list_elem_of_fmap in Hx as (e & He & Hin).
    exists e. split; [exact Hin | symmetry; exact He].
Qed.

Lemma gather_ok (queries : list string) : gather_state_ok (gather queries).
Proof.
  unfold NewsAggregator.gather.
  assert (Hgen : forall st, gather_state_ok st ->
            gather_state_ok
              (fold_left (NewsAggregator.gather_query articles_per_query quote feedparser_parse)
                 queries st)).
  { induction queries as [|q rest IH]; intros st Hst; [exact Hst|].
    cbn [fold_left]. apply IH. unfold NewsAggregator.gather_query.
    destruct (feedparser_parse _); [apply gather_entries_ok|]; exact Hst. }
  apply Hgen. repeat split; constructor.
Qed.

(** The pool only moves the gathered entries around: what is waiting or
    in work is a sub-multiset of them, and the workers are at most
    [max_workers]. *)
Lemma pool_step_ok (raw : list NewsAggregator.rss_entry) (s s' : NewsAggregator.pool) :
  pool_step s s' ->
  NewsAggregator.queue s ++ NewsAggregator.running s ⊆+ raw
  /\ length (NewsAggregator.running s) <= max_workers ->
  NewsAggregator.queue s' ++ NewsAggregator.running s' ⊆+ raw
  /\ length (NewsAggregator.running s') <= max_workers.
Proof.
  intros Hstep [Hsub Hlen].
  destruct Hstep as [entry queue running articles Hfree | queue before entry after articles];
    cbn [NewsAggregator.queue NewsAggregator.running] in *.
  - split.
    + etransitivity; [|exact Hsub].
      apply Permutation_submseteq.
      rewrite (Permutation_app_comm running [entry]). cbn [app].
      symmetry. apply Permutation_middle.
    + rewrite length_app. cbn [length]. lia.
  - split.
    + etransitivity; [|exact Hsub].
      apply submseteq_skips_l, submseteq_skips_l, submseteq_cons.
      reflexivity.
    + rewrite length_app in *. cbn [length] in Hlen. lia.
Qed.

(** C6: in [fetch_articles] the entries of all queries are deduplicated by
    link in the first, sequential phase, whose set of seen links is a local
    of that phase (the task of a worker, [_process_rss_entry], takes the
    entry only); the pool starts from the result of that phase over all the
    queries; so, in every state the pool can reach, the entries waiting or
    in work are among the gathered ones, each at most once, at most
    [max_workers] are in work, and no two entries in work have the same
    link. *)
Theorem fetch_dedup_completes_before_fan_out
    (queries : list string) (s : NewsAggregator.pool) :
  rtc pool_step (pool_init queries) s ->
  (gather queries).1 = list_to_set (omap NewsAggregator.entry_link (gather queries).2)
  /\ NoDup (NewsAggregator.entry_link <$> (gather queries).2)
  /\ Forall (fun e => is_Some (NewsAggregator.entry_link e)) (gather queries).2
  /\ NewsAggregator.queue s ++ NewsAggregator.running s ⊆+ (gather queries).2
  /\ length (NewsAggregator.running s) <= max_workers
  /\ NoDup (NewsAggregator.entry_link <$> NewsAggregator.running s).
Proof.
  intros Hreach.
  destruct (gather_ok queries) as (Hset & Hall & Hnodup).
  assert (Hinv : NewsAggregator.queue s ++ NewsAggregator.running s ⊆+ (gather queries).2
                 /\ length (NewsAggregator.running s) <= max_workers).
  { revert s Hreach.
    apply (rtc_ind_r
             (fun s => NewsAggregator.queue s ++ NewsAggregator.running s
                         ⊆+ (gather queries).2
                       /\ length (NewsAggregator.running s) <= max_workers)).
    - unfold NewsAggregator.pool_init. cbn [NewsAggregator.queue NewsAggregator.running].
      rewrite app_nil_r. split; [reflexivity | cbn; lia].
    - intros y z _ Hstep Hy. eapply pool_step_ok; eassumption. }
  destruct Hinv as [Hsub Hlen].
  repeat split; try assumption.
  eapply submseteq_fmap_NoDup; [|exact Hnodup].
  etransitivity; [|exact Hsub]. apply submseteq_inserts_l. reflexivity.
Qed.

(** The pool always finishes: with at least one worker, [fetch_articles]
    has a result for every list of queries. *)
Lemma pool_drains (queue : list NewsAggregator.rss_entry) :
  0 < max_workers ->
  forall articles, exists result,
    rtc pool_step (NewsAggregator.mk_pool queue [] articles)
                  (NewsAggregator.mk_pool [] [] result).
Proof.
  intros Hworkers. induction queue as [|entry rest IH]; intros articles.
  - exists articles. apply rtc_refl.
  - destruct (IH (match NewsAggregator._process_rss_entry min_content_length urlparse
                          parse_qs_url session_head trafilatura_fetch_url
                          trafilatura_extract paragraph_text entry with
                  | Some article => articles ++ [article]
                  | None => articles
                  end)) as [result Hresult].
    exists result.
    eapply rtc_l; [apply NewsAggregator.pool_start; cbn; exact Hworkers|].
    eapply rtc_l; [|exact Hresult].
    exact (NewsAggregator.pool_complete _ _ _ _ _ _ _ _ rest [] entry [] articles).
Qed.

Lemma fetch_articles_returns (queries : list string) :
  0 < max_workers -> exists result, fetch_articles queries result.
Proof.
  intros Hworkers. unfold NewsAggregator.fetch_articles, NewsAggregator.pool_init.
  destruct (pool_drains (gather queries).2 Hworkers []) as [result Hresult].
  exists result. split; [exact Hworkers | exact Hresult].
Qed.

End FanOut.

(** A feed source for two queries whose results share a link, with every
    network collaborator failing. *)
Definition sample_entry (title link : string) : NewsAggregator.rss_entry :=
  NewsAggregator.mk_entry (Some title) (Some link) (Some "Mon, 01 Jan 2024 12:00:00 GMT").

Definition sample_feed (rss_url : string) : option (list NewsAggregator.rss_entry) :=
  if String.eqb rss_url "https://news.google.com/rss/search?q=gold"
  then Some [sample_entry "Gold hits record" "https://news.google.com/a";
             sample_entry "Gold slips" "https://news.google.com/b"]
  else if String.eqb rss_url "https://news.google.com/rss/search?q=gold price"
  then Some [sample_entry "Gold slips" "https://news.google.com/b";
             sample_entry "Gold steady" "https://news.google.com/c"]
  else None.

Lemma fetch_dedup_completes_before_fan_out_witness :
  NoDup (NewsAggregator.entry_link <$>
           [sample_entry "Gold hits record" "https://news.google.com/a";
            sample_entry "Gold slips" "https://news.google.com/b"]).
Proof.
  assert (Hreach :
    rtc (NewsAggregator.pool_step 5 100 (fun _ => None) (fun _ => None) (fun _ => None)
           (fun _ => None) (fun _ => None) (fun _ => None))
        (NewsAggregator.pool_init 5 (fun q => q) sample_feed ["gold"; "gold price"])
        (NewsAggregator.mk_pool
           [sample_entry "Gold steady" "https://news.google.com/c"]
           [sample_entry "Gold hits record" "https://news.google.com/a";
            sample_entry "Gold slips" "https://news.google.com/b"] [])).
  { eapply rtc_l.
    { exact (NewsAggregator.pool_start 5 100 _ _ _ _ _ _
               (sample_entry "Gold hits record" "https://news.google.com/a")
               [sample_entry "Gold slips" "https://news.google.com/b";
                sample_entry "Gold steady" "https://news.google.com/c"] [] []
               ltac:(cbn; lia)). }
    eapply rtc_l; [|apply rtc_refl].
    exact (NewsAggregator.pool_start 5 100 _ _ _ _ _ _
             (sample_entry "Gold slips" "https://news.google.com/b")
             [sample_entry "Gold steady" "https://news.google.com/c"]
             [sample_entry "Gold hits record" "https://news.google.com/a"] []
             ltac:(cbn; lia)). }
  exact (proj2 (proj2 (proj2 (proj2 (proj2
           (fetch_dedup_completes_before_fan_out 5 5 100 (fun q => q) sample_feed
              (fun _ => None) (fun _ => None) (fun _ => None) (fun _ => None)
              (fun _ => None) (fun _ => None) _ _ Hreach)))))).
Defined.

Example gather_sample :
  (NewsAggregator.gather 5 (fun q => q) sample_feed ["gold"; "gold price"]).2
  = [sample_entry "Gold hits record" "https://news.google.com/a";
     sample_entry "Gold slips" "https://news.google.com/b";
     sample_entry "Gold steady" "https://news.google.com/c"].
Proof. vm_compute. reflexivity. Qed.

Example deduplicate_sample :
  NewsAggregator.deduplicate_articles
    [Article.mk "Gold slips" "https://a" "" "x" "Full Article";
     Article.mk "  GOLD SLIPS " "https://b" "" "y" "Full Article";
     Article.mk "Gold steady" "https://a" "" "z" "Full Article";
     Article.mk "Gold steady" "https://c" "" "z" "Full Article"]
  = [Article.mk "Gold slips" "https://a" "" "x" "Full Article";
     Article.mk "Gold steady" "https://c" "" "z" "Full Article"].
Proof. vm_compute. reflexivity. Qed.

(* ================================================================== *)
(** * Serialisation round trips *)

Section DatetimeRoundTrip.
Local Open Scope N_scope.

Lemma digit_value_digit_char (n : N) :
  datetime.digit_value (datetime.digit_char n) = Some (n mod 10).
Proof.
  unfold datetime.digit_value, datetime.digit_char.
  assert (Hlt : n mod 10 < 10) by (apply N.mod_lt; discriminate).
  set (r := n mod 10) in *. clearbody r.
  assert (Hbyte : 48 + r < 256) by lia.
  rewrite N_ascii_embedding by exact Hbyte.
  destruct (N.leb_spec 48 (48 + r)) as [_|H]; [|lia].
  destruct (N.leb_spec (48 + r) 57) as [_|H]; [|lia].
  cbn [andb]. f_equal. lia.
Qed.

Lemma append_cons (c : ascii) (s rest : string) :
  String c s +:+ rest = String c (s +:+ rest).
Proof. reflexivity. Qed.

Lemma append_empty_l (s : string) : "" +:+ s = s.
Proof. reflexivity. Qed.

Lemma append_empty_r (s : string) : s +:+ "" = s.
Proof. induction s as [|c s IH]; [reflexivity|]. rewrite append_cons, IH. reflexivity. Qed.

Lemma append_assoc (s1 s2 s3 : string) : (s1 +:+ s2) +:+ s3 = s1 +:+ (s2 +:+ s3).
Proof.
  induction s1 as [|c s1 IH]; [reflexivity|]. rewrite !append_cons, IH. reflexivity.
Qed.

(** Reading back the digits [pad] wrote. *)
Lemma read_digits_pad (width : nat) :
  forall (acc n : N) (rest : string),
    datetime.read_digits width acc (datetime.pad width n +:+ rest)
    = Some (acc * 10 ^ N.of_nat width + n mod 10 ^ N.of_nat width, rest).
Proof.
  induction width as [|w IH]; intros acc n rest.
  - cbn [datetime.read_digits datetime.pad]. change ("" +:+ rest) with rest.
    change (10 ^ N.of_nat 0) with 1. rewrite N.mod_1_r. f_equal. f_equal. lia.
  - cbn [datetime.read_digits datetime.pad]. rewrite append_cons.
    rewrite digit_value_digit_char. cbn [mbind option_bind].
    rewrite IH. f_equal. f_equal.
    rewrite Nat2N.inj_succ, N.pow_succ_r'.
    rewrite (N.mul_comm 10 (10 ^ N.of_nat w)).
    rewrite N.Div0.mod_mul_r. lia.
Qed.

Lemma pad_split (a b : nat) (n : N) :
  datetime.pad (a + b) n = datetime.pad a (n / 10 ^ N.of_nat b) +:+ datetime.pad b n.
Proof.
  induction a as [|a IH].
  - reflexivity.
  - cbn [Nat.add datetime.pad]. rewrite append_cons, IH. f_equal.
    rewrite N.Div0.div_div, <- N.pow_add_r. f_equal. f_equal. f_equal. lia.
Qed.

Lemma read_small (width : nat) (n : N) (rest : string) :
  n < 10 ^ N.of_nat width ->
  datetime.read_digits width 0 (datetime.pad width n +:+ rest) = Some (n, rest).
Proof.
  intros Hn. rewrite read_digits_pad, N.mod_small by exact Hn. reflexivity.
Qed.

Lemma pad_nonempty (w : nat) (n : N) (rest : string) :
  PyStr.is_empty (datetime.pad (S w) n +:+ rest) = false.
Proof. reflexivity. Qed.

Ltac read_field :=
  rewrite read_small by (cbn; lia); cbn [mbind option_bind].

Ltac read_separator :=
  rewrite append_cons, append_empty_l;
  cbn [PyStr.is_empty datetime.expect Ascii.eqb Bool.eqb mbind option_bind].

Lemma parse_time_isoformat (hh mi ss us : N) :
  hh < 24 -> mi < 60 -> ss < 60 -> us < 1000000 ->
  datetime.parse_time
    (datetime.pad 2 hh +:+ ":" +:+ datetime.pad 2 mi +:+ ":" +:+ datetime.pad 2 ss
     +:+ (if us =? 0 then "" else "." +:+ datetime.pad 6 us))
  = Some (hh, mi, ss, us).
Proof.
  intros Hhh Hmi Hss Hus. unfold datetime.parse_time.
  read_field. read_separator. read_field. read_separator. read_field.
  destruct (us =? 0) eqn:Hzero.
  - apply N.eqb_eq in Hzero. subst us. reflexivity.
  - apply N.eqb_neq in Hzero. read_separator.
    change (datetime.pad 6 us) with (datetime.pad (3 + 3) us).
    rewrite (pad_split 3 3 us), <- (append_empty_r (datetime.pad 3 us)), read_digits_pad. cbn [mbind option_bind].
    rewrite pad_nonempty, read_digits_pad. cbn [mbind option_bind PyStr.is_empty].
    f_equal. f_equal.
    change (N.of_nat 3) with 3. change (10 ^ 3) with 1000.
    rewrite (N.mod_small (us / 1000) 1000)
      by (apply N.Div0.div_lt_upper_bound; lia).
    pose proof (N.div_mod us 1000 ltac:(discriminate)). lia.
Qed.

(** [fromisoformat] inverts [isoformat] on every timestamp in range. *)
Lemma fromisoformat_isoformat (t : datetime.t) :
  datetime.wf t = true ->
  datetime.fromisoformat (datetime.isoformat t) = Some t.
Proof.
  intros Hwf. pose proof Hwf as Hwf'. unfold datetime.wf in Hwf'.
  repeat (apply andb_true_iff in Hwf'; destruct Hwf' as [Hwf' ?]).
  repeat match goal with
         | H : (_ <=? _) = true |- _ => apply N.leb_le in H
         | H : (_ <? _) = true |- _ => apply N.ltb_lt in H
         end.
  assert (Hday : datetime.day t <= 31).
  { etransitivity; [eassumption|]. unfold datetime.days_in_month.
    repeat match goal with |- context [if ?b then _ else _] => destruct b end; lia. }
  unfold datetime.fromisoformat, datetime.isoformat.
  read_field. read_separator. read_field. read_separator. read_field.
  rewrite append_cons, append_empty_l. cbv iota.
  rewrite parse_time_isoformat by assumption. cbn [mbind option_bind].
  destruct t as [y m d hh mi ss us]. cbn [datetime.year datetime.month datetime.day
    datetime.hour datetime.minute datetime.second datetime.microsecond] in *.
  rewrite Hwf. reflexivity.
Qed.

End DatetimeRoundTrip.

Section RecordRoundTrip.
Context {R : Type} `{!PyFloat R}.

Lemma article_round_trip (a : Article.t) :
  Article.from_dict (R:=R) (Article.to_dict a) = Some a.
Proof. destruct a. reflexivity. Qed.

Lemma headline_round_trip (h : HeadlineSentiment.t R) :
  HeadlineSentiment.from_dict (HeadlineSentiment.to_dict h) = Some h.
Proof. destruct h. reflexivity. Qed.

Lemma float_dict_round_trip (d : list (string * R)) :
  PyVal.dict_of R PyVal.as_float (map (fun kv : string * R => (kv.1, PFloat kv.2)) d)
  = Some d.
Proof.
  unfold PyVal.dict_of. induction d as [|[k v] d IH]; [reflexivity|].
  cbn [map mapM fst snd PyVal.as_float mbind option_bind mret option_ret].
  cbn [mapM] in IH. rewrite IH. reflexivity.
Qed.

Lemma int_dict_round_trip (d : list (string * Z)) :
  PyVal.dict_of (R:=R) Z PyVal.as_int (map (fun kv : string * Z => (kv.1, PInt kv.2)) d)
  = Some d.
Proof.
  unfold PyVal.dict_of. induction d as [|[k v] d IH]; [reflexivity|].
  cbn [map mapM fst snd PyVal.as_int mbind option_bind mret option_ret].
  cbn [mapM] in IH. rewrite IH. reflexivity.
Qed.

Lemma content_round_trip (c : ContentSentiment.t R) :
  ContentSentiment.from_dict (ContentSentiment.to_dict c) = Some c.
Proof.
  destruct c as [confidence label probabilities].
  unfold ContentSentiment.from_dict, ContentSentiment.to_dict.
  cbn [ContentSentiment.confidence ContentSentiment.label ContentSentiment.probabilities].
  change (PyVal.only_fields _ _) with true. cbv iota.
  change (PyVal.field_float "confidence" _) with (Some confidence).
  change (PyVal.field_str "label" _) with (Some label).
  cbn [mbind option_bind].
  change (PyVal.field_dict "probabilities" _)
    with (Some (map (fun kv : string * R => (kv.1, PFloat kv.2)) probabilities)).
  cbn [mbind option_bind]. rewrite float_dict_round_trip. reflexivity.
Qed.

Lemma analyzed_article_round_trip (a : AnalyzedArticle.t R) :
  AnalyzedArticle.from_dict (AnalyzedArticle.to_dict a) = Some a.
Proof.
  destruct a as [article headline content].
  unfold AnalyzedArticle.from_dict, AnalyzedArticle.to_dict.
  cbn [AnalyzedArticle.article AnalyzedArticle.headline_sentiment
       AnalyzedArticle.content_sentiment].
  change (PyVal.field_dict "article" _) with (Some (Article.to_dict (R:=R) article)).
  change (PyVal.field_dict "headline_sentiment" _)
    with (Some (HeadlineSentiment.to_dict headline)).
  change (PyVal.field_dict "content_sentiment" _)
    with (Some (ContentSentiment.to_dict content)).
  cbn [mbind option_bind].
  rewrite article_round_trip, headline_round_trip, content_round_trip. reflexivity.
Qed.

Lemma articles_round_trip (articles : list (AnalyzedArticle.t R)) :
  mapM (fun article_data => PyVal.as_dict article_data ≫= AnalyzedArticle.from_dict)
       (map (fun article => PDict (AnalyzedArticle.to_dict article)) articles)
  = Some articles.
Proof.
  induction articles as [|a rest IH]; [reflexivity|].
  cbn [map mapM PyVal.as_dict mbind option_bind mret option_ret].
  rewrite analyzed_article_round_trip. cbn [mapM] in IH.
  cbn [mbind option_bind]. rewrite IH. reflexivity.
Qed.

(** The constructor keeps a distribution and a signal that are not empty
    and a score that is given. *)
Lemma init_given (timestamp : datetime.t) (query category : string) (total : Z)
    (distribution : list (string * Z)) (score : R) (signal : string)
    (articles : list (AnalyzedArticle.t R)) (time : R) :
  distribution <> [] -> PyStr.is_empty signal = false ->
  AnalysisReport.init timestamp query category total distribution (Some score) signal
    articles time
  = AnalysisReport.mk timestamp query category total distribution score signal articles time.
Proof.
  intros Hd Hs. unfold AnalysisReport.init. rewrite Hs.
  destruct distribution; [contradiction|reflexivity].
Qed.

(** C10: for every report that [validate] accepts (its timestamp being a
    [datetime], that is, in range), [from_dict] applied to [to_dict] gives
    back a report equal to the original in every field: timestamp, query,
    category, total_articles, sentiment_distribution, net_sentiment_score,
    market_signal, processing_time, and the list of articles with both
    sentiment records of each. *)
Theorem report_round_trip (r : AnalysisReport.t R) :
  AnalysisReport.validate r = true ->
  datetime.wf (AnalysisReport.timestamp r) = true ->
  AnalysisReport.from_dict (AnalysisReport.to_dict r) = Some r.
Proof.
  intros Hvalid Hwf.
  destruct (validate_sound r Hvalid) as (_ & _ & _ & Hsignal & _ & Hkeys & _ & _).
  destruct r as [timestamp query category total distribution score signal articles time].
  cbn [AnalysisReport.timestamp AnalysisReport.market_signal
       AnalysisReport.sentiment_distribution] in *.
  assert (Hd : distribution <> []).
  { intros ->. unfold PyDict.key_set in Hkeys. cbn in Hkeys.
    assert (Hin : "Positive" ∈ (∅ : gset string)) by (rewrite Hkeys; set_solver).
    set_solver. }
  assert (Hs : PyStr.is_empty signal = false) by (destruct signal; [discriminate|reflexivity]).
  unfold AnalysisReport.from_dict, AnalysisReport.to_dict.
  cbn [AnalysisReport.timestamp AnalysisReport.query AnalysisReport.category
       AnalysisReport.total_articles AnalysisReport.sentiment_distribution
       AnalysisReport.net_sentiment_score AnalysisReport.market_signal
       AnalysisReport.articles AnalysisReport.processing_time].
  change (PyVal.field_str "timestamp" _) with (Some (datetime.isoformat timestamp)).
  cbn [mbind option_bind]. rewrite (fromisoformat_isoformat timestamp Hwf).
  change (PyVal.field_list "articles" _)
    with (Some (map (fun article => PDict (AnalyzedArticle.to_dict article)) articles)).
  cbn [mbind option_bind]. rewrite articles_round_trip.
  change (PyVal.field_str "query" _) with (Some query).
  change (PyVal.field_str "category" _) with (Some category).
  change (PyVal.field_int "total_articles" _) with (Some total).
  change (PyVal.field_dict "sentiment_distribution" _)
    with (Some (map (fun kv : string * Z => (kv.1, PInt (R:=R) kv.2)) distribution)).
  cbn [mbind option_bind]. rewrite int_dict_round_trip.
  change (PyDict.get "net_sentiment_score" _) with (Some (PFloat score)).
  change (PyVal.field_str "market_signal" _) with (Some signal).
  change (PyVal.field_float "processing_time" _) with (Some time).
  cbn [mbind option_bind fmap option_fmap option_map PyVal.as_float].
  rewrite (init_given _ _ _ _ _ _ _ _ _ Hd Hs). reflexivity.
Qed.

End RecordRoundTrip.

Lemma report_round_trip_witness :
  AnalysisReport.from_dict
    (AnalysisReport.to_dict
       (AnalysisReport.create_from_articles sample_now "Gold" "commodity"
          [sample_unit "Positive" (85 # 100)%Q; sample_unit "Negative" (6 # 10)%Q]
          (52 # 10)%Q))
  = Some (AnalysisReport.create_from_articles sample_now "Gold" "commodity"
            [sample_unit "Positive" (85 # 100)%Q; sample_unit "Negative" (6 # 10)%Q]
            (52 # 10)%Q).
Proof.
  apply report_round_trip; vm_compute; reflexivity.
Defined.

(* ================================================================== *)
(** * The order of the resilience policies *)

Section PolicyOrder.
Import Resilience.
Local Open Scope Q_scope.
Context {T : Type}.


















End PolicyOrder.

Section PolicyOrderTheorem.
Import Resilience.
Local Open Scope Q_scope.
Context {T : Type}.










End PolicyOrderTheorem.

Section FetchTickerData.
Import Resilience.
Local Open Scope Q_scope.

Variable Ticker : Type.
Variable yf_lookup : string -> nat -> Q * option (Ticker * bool).



End FetchTickerData.

(** A function that fails with a transient failure after a given time, every
    time; a lookup that answers after a given time; and two worlds: a fresh
    one, and one whose breaker opened 50 seconds ago. *)
Definition always_failing (seconds : Q) : Resilience.operation unit :=
  fun _ => (seconds, inl Resilience.Transient).


Definition fresh_world : Resilience.world :=
  Resilience.mk_world 0 (Resilience.mk_circuit Resilience.Closed 0 None) [] None.



(** The order matters: with the retry around the breaker, the same failing
    function would make the breaker count every attempt and open after one
    protected call; and with the timeout innermost, every attempt would get
    a deadline of its own. *)
Example other_orders_differ :
  let swapped :=
    Resilience.with_retry (Resilience.mk_retry 2 1 10)
      (Resilience.with_circuit_breaker (Resilience.mk_breaker 3 300)
         (Resilience.invoke (always_failing 1))) fresh_world in
  let composed :=
    FinancialDataService.fetch_decorators (Resilience.invoke (always_failing 1)) fresh_world in
  let timeout_innermost :=
    Resilience.with_circuit_breaker (Resilience.mk_breaker 3 300)
      (Resilience.with_retry (Resilience.mk_retry 2 1 10)
         (Resilience.with_timeout 30 (Resilience.invoke (always_failing 20)))) fresh_world in
  let timeout_outermost :=
    FinancialDataService.fetch_decorators (Resilience.invoke (always_failing 20))
      fresh_world in
  Resilience.consecutive_failures (Resilience.circuit swapped.2) = 3%nat
  /\ Resilience.state (Resilience.circuit swapped.2) = Resilience.Open
  /\ Resilience.consecutive_failures (Resilience.circuit composed.2) = 1%nat
  /\ Resilience.state (Resilience.circuit composed.2) = Resilience.Closed
  /\ Resilience.entries timeout_innermost.2 = [0; 21; 43]%Q
  /\ Resilience.entries timeout_outermost.2 = [0; 21]%Q
  /\ timeout_outermost.1 = inl Resilience.Timeout.
Proof. vm_compute. repeat split; reflexivity. Qed.

(* ================================================================== *)
(** * Further properties: the scorer *)

Section TruncateText.

Lemma length_rev_app (s1 s2 : string) :
  String.length (String.rev_app s1 s2) = String.length s1 + String.length s2.
Proof.
  revert s2. induction s1 as [|c s1 IH]; intros s2; cbn [String.rev_app String.length].
  - reflexivity.
  - rewrite IH. cbn [String.length]. lia.
Qed.

Lemma length_rev (s : string) : String.length (String.rev s) = String.length s.
Proof. unfold String.rev. rewrite length_rev_app. cbn. lia. Qed.

Lemma length_lstrip (s : string) : String.length (PyStr.lstrip s) <= String.length s.
Proof.
  induction s as [|c s IH]; cbn [PyStr.lstrip String.length]; [lia|].
  destruct (PyStr.is_space c); cbn [String.length]; lia.
Qed.

Lemma length_strip (s : string) : String.length (PyStr.strip s) <= String.length s.
Proof.
  unfold PyStr.strip, PyStr.rstrip. rewrite length_rev.
  etransitivity; [apply length_lstrip|]. rewrite length_rev. apply length_lstrip.
Qed.

Lemma length_take (n : nat) (s : string) : String.length (PyStr.take n s) <= n.
Proof.
  unfold PyStr.take. revert s. induction n as [|n IH]; intros s.
  - destruct s; cbn; lia.
  - destruct s as [|c s]; cbn [String.substring String.length]; [lia|].
    specialize (IH s). lia.
Qed.

Lemma length_append_while_fits (sep : string) (max_text_length : nat)
    (pieces : list string) :
  forall truncated,
    String.length truncated <= max_text_length ->
    String.length
      (SentimentEngine.append_while_fits sep max_text_length truncated pieces)
    <= max_text_length.
Proof.
  induction pieces as [|piece rest IH]; intros truncated Hfits;
    cbn [SentimentEngine.append_while_fits]; [exact Hfits|].
  destruct (String.length (truncated +:+ piece +:+ sep) <=? max_text_length) eqn:Hnext;
    [|exact Hfits].
  apply IH. apply Nat.leb_le. exact Hnext.
Qed.

(** X1: the text [_truncate_text] hands to the classifier never has more
    than [max_text_length] characters, whatever branch (sentences, words,
    characters) produced it, and a text that already fits is returned
    unchanged. *)
Theorem truncate_text_within_limit (max_text_length : nat) (text : string) :
  String.length (SentimentEngine._truncate_text max_text_length text) <= max_text_length
  /\ (String.length text <= max_text_length ->
      SentimentEngine._truncate_text max_text_length text = text).
Proof.
  unfold SentimentEngine._truncate_text.
  destruct (String.length text <=? max_text_length) eqn:Hshort.
  - apply Nat.leb_le in Hshort. split; [exact Hshort | reflexivity].
  - apply Nat.leb_gt in Hshort. split; [|lia].
    etransitivity; [apply length_strip|]. cbv zeta.
    destruct (PyStr.is_empty
                (SentimentEngine.append_while_fits ". " max_text_length ""
                   (SentimentEngine.split_dot_space "" text))) eqn:Hsentences.
    + destruct (PyStr.is_empty
                  (SentimentEngine.append_while_fits " " max_text_length ""
                     (SentimentEngine.split_whitespace "" text))) eqn:Hwords.
      * apply length_take.
      * apply length_append_while_fits. cbn. lia.
    + rewrite Hsentences. apply length_append_while_fits. cbn. lia.
Qed.

End TruncateText.

Lemma truncate_text_within_limit_witness :
  String.length
    (SentimentEngine._truncate_text 20
       "Hello world. This is a test. Another sentence here.") <= 20
  /\ SentimentEngine._truncate_text 20 "Gold rallies." = "Gold rallies.".
Proof.
  split.
  - exact (proj1 (truncate_text_within_limit 20
                    "Hello world. This is a test. Another sentence here.")).
  - apply (proj2 (truncate_text_within_limit 20 "Gold rallies.")). cbn. lia.
Defined.

Ltac label_facts :=
  repeat match goal with
         | |- _ /\ _ => split
         | |- _ <-> _ => split
         | |- _ -> _ => intro
         end;
  try discriminate; try reflexivity; try assumption; try lra; try (exfalso; lra).

Section ScorerOutputs.
Local Open Scope Q_scope.
Variable vader_compound : string -> option Q.
Variable finbert_softmax : string -> nat -> option (list Q).
Variable max_text_length : nat.

(** X2: [analyze_headline] never fails and its result passes
    [HeadlineSentiment.validate] whenever the compound score of VADER lies
    in [-1, 1]; on blank input or when VADER raises the result is (0.0,
    Neutral), and otherwise the label is Positive exactly above 0.05,
    Negative exactly below -0.05 and Neutral in between. *)
Theorem analyze_headline_validates (text : string) :
  (forall s, vader_compound text = Some s -> -1 <= s <= 1) ->
  let h := SentimentEngine.analyze_headline vader_compound text in
  HeadlineSentiment.validate h = true
  /\ (PyStr.is_blank text = true \/ vader_compound text = None ->
      h = HeadlineSentiment.mk 0 "Neutral")
  /\ (HeadlineSentiment.label h = "Positive" <-> 5 # 100 < HeadlineSentiment.score h)
  /\ (HeadlineSentiment.label h = "Negative" <-> HeadlineSentiment.score h < -5 # 100)
  /\ (HeadlineSentiment.label h = "Neutral"
      <-> -5 # 100 <= HeadlineSentiment.score h <= 5 # 100).
Proof.
  intros Hrange. unfold SentimentEngine.analyze_headline.
  destruct (PyStr.is_blank text) eqn:Hblank.
  { cbn zeta. split; [reflexivity|]. split; [reflexivity|]. cbn. label_facts. }
  destruct (vader_compound text) as [s|] eqn:Hs; cbn [mbind option_bind].
  2:{ cbn zeta. split; [reflexivity|]. split; [reflexivity|]. cbn. label_facts. }
  destruct (Hrange s eq_refl) as [Hlo Hhi]. cbn zeta. q_ops.
  assert (Hv1 : Qltb s (-1) = false) by (apply Qltb_false; exact Hlo).
  assert (Hv2 : Qltb 1 s = false) by (apply Qltb_false; exact Hhi).
  unfold HeadlineSentiment.validate.
  cbn [HeadlineSentiment.score HeadlineSentiment.label]. q_ops.
  rewrite Hv1, Hv2. cbn [orb].
  destruct (Qltb (5 # 100) s) eqn:Hpos.
  { apply Qltb_true in Hpos. split; [reflexivity|].
    split; [intros [H|H]; discriminate H|]. label_facts. }
  apply Qltb_false in Hpos.
  destruct (Qltb s (-5 # 100)) eqn:Hneg.
  { apply Qltb_true in Hneg. split; [reflexivity|].
    split; [intros [H|H]; discriminate H|]. label_facts. }
  apply Qltb_false in Hneg. split; [reflexivity|].
  split; [intros [H|H]; discriminate H|]. label_facts.
Qed.

(** The contract of a softmax over three classes: a row of three
    probabilities that sum to 1.0 within 0.01. *)
Definition softmax_row (row : list Q) : Prop :=
  exists a b c,
    row = [a; b; c] /\ 0 <= a <= 1 /\ 0 <= b <= 1 /\ 0 <= c <= 1
    /\ Qabs (py_sum [a; b; c] - 1) <= 1 # 100.

Lemma fallback_validates :
  ContentSentiment.validate (SentimentEngine.neutral_fallback (R:=Q)) = true.
Proof. reflexivity. Qed.

Lemma content_validate_of_row (a b c : Q) (idx : nat) (label : string) (confidence : Q) :
  0 <= a <= 1 -> 0 <= b <= 1 -> 0 <= c <= 1 ->
  Qabs (py_sum [a; b; c] - 1) <= 1 # 100 ->
  SentimentEngine.finbert_labels !! idx = Some label ->
  [a; b; c] !! idx = Some confidence ->
  ContentSentiment.validate
    (ContentSentiment.mk confidence label (zip SentimentEngine.finbert_labels [a; b; c]))
  = true.
Proof.
  intros Ha Hb Hc Hsum Hlabel Hconf.
  assert (Hrange : 0 <= confidence <= 1).
  { destruct idx as [|[|[|idx]]]; cbn in Hconf; try discriminate Hconf;
      injection Hconf as <-; assumption. }
  assert (Hknown : PyStr.in_list label ["Positive"; "Negative"; "Neutral"] = true).
  { destruct idx as [|[|[|idx]]]; cbn in Hlabel; try discriminate Hlabel;
      injection Hlabel as <-; reflexivity. }
  unfold ContentSentiment.validate.
  cbn [ContentSentiment.confidence ContentSentiment.label ContentSentiment.probabilities].
  q_ops.
  replace (Qltb confidence 0) with false by (symmetry; apply Qltb_false; lra).
  replace (Qltb 1 confidence) with false by (symmetry; apply Qltb_false; lra).
  rewrite Hknown. cbn [orb negb].
  change (PyDict.values (zip SentimentEngine.finbert_labels [a; b; c])) with [a; b; c].
  replace (Qltb (1 # 100) (Qabs (py_sum [a; b; c] - 1))) with false
    by (symmetry; apply Qltb_false; exact Hsum).
  reflexivity.
Qed.

Lemma content_validates_aux (text : string) :
  (forall row,
     finbert_softmax (SentimentEngine._truncate_text max_text_length text) max_text_length
     = Some row -> softmax_row row) ->
  ContentSentiment.validate
    (SentimentEngine.analyze_content finbert_softmax max_text_length text) = true.
Proof.
  intros Hcontract.
  destruct (PyStr.is_blank text) eqn:Hblank.
  { rewrite (proj1 (analyze_content_fallback finbert_softmax max_text_length text
                      (or_introl Hblank))).
    apply fallback_validates. }
  destruct (finbert_softmax (SentimentEngine._truncate_text max_text_length text)
              max_text_length) as [row|] eqn:Hrow.
  2:{ rewrite (proj1 (analyze_content_fallback finbert_softmax max_text_length text
                        (or_intror Hrow))).
      apply fallback_validates. }
  destruct (Hcontract row eq_refl) as (a & b & c & -> & Ha & Hb & Hc & Hsum).
  destruct (row_of_three_is_scored finbert_softmax max_text_length text a b c Hblank Hrow)
    as (idx & label & confidence & _ & Hlabel & Hconf & ->).
  apply (content_validate_of_row a b c idx label confidence); assumption.
Qed.

(** X3: the content score of [analyze_content] passes
    [ContentSentiment.validate] for every text, the fallback included,
    provided the classifier, when it answers, returns three probabilities
    in [0, 1] that sum to 1.0 within 0.01. *)
Theorem analyze_content_validates (text : string) :
  (forall row,
     finbert_softmax (SentimentEngine._truncate_text max_text_length text) max_text_length
     = Some row -> softmax_row row) ->
  ContentSentiment.validate
    (SentimentEngine.analyze_content finbert_softmax max_text_length text) = true.
Proof. apply content_validates_aux. Qed.

(** The loop of [analyze_articles_batch] is a map. *)
Lemma analyze_articles_batch_map (articles : list Article.t) :
  SentimentEngine.analyze_articles_batch vader_compound finbert_softmax max_text_length
    articles
  = map (SentimentEngine.analyze_article vader_compound finbert_softmax max_text_length)
        articles.
Proof.
  unfold SentimentEngine.analyze_articles_batch.
  assert (Hgen : forall acc,
            fold_left
              (fun analyzed_articles article =>
                 analyzed_articles
                 ++ [SentimentEngine.analyze_article vader_compound finbert_softmax
                       max_text_length article]) articles acc
            = acc ++ map (SentimentEngine.analyze_article vader_compound finbert_softmax
                            max_text_length) articles).
  { induction articles as [|a rest IH]; intros acc; cbn [fold_left map].
    - rewrite app_nil_r. reflexivity.
    - rewrite IH, <- app_assoc. reflexivity. }
  apply (Hgen []).
Qed.

(** The contracts of the two classifiers on the texts of a list of
    articles. *)
Definition classifiers_ok (articles : list Article.t) : Prop :=
  Forall
    (fun a =>
       (forall s, vader_compound (Article.title a) = Some s -> -1 <= s <= 1)
       /\ (forall row,
             finbert_softmax
               (SentimentEngine._truncate_text max_text_length (Article.content a))
               max_text_length = Some row -> softmax_row row))
    articles.

Lemma headline_validates_aux (text : string) :
  (forall s, vader_compound text = Some s -> -1 <= s <= 1) ->
  HeadlineSentiment.validate (SentimentEngine.analyze_headline vader_compound text) = true.
Proof.
  intros Hrange. unfold SentimentEngine.analyze_headline.
  destruct (PyStr.is_blank text); [reflexivity|].
  destruct (vader_compound text) as [s|] eqn:Hs; cbn [mbind option_bind]; [|reflexivity].
  destruct (Hrange s eq_refl) as [Hlo Hhi].
  unfold HeadlineSentiment.validate. cbn [HeadlineSentiment.score HeadlineSentiment.label].
  q_ops.
  replace (Qltb s (-1)) with false by (symmetry; apply Qltb_false; exact Hlo).
  replace (Qltb 1 s) with false by (symmetry; apply Qltb_false; exact Hhi).
  cbn [orb]. destruct (Qltb (5 # 100) s); [reflexivity|].
  destruct (Qltb s (-5 # 100)); reflexivity.
Qed.

Lemma batch_validates_aux (articles : list Article.t) :
  Forall (fun a => Article.validate a = true) articles ->
  classifiers_ok articles ->
  Forall (fun a => AnalyzedArticle.validate a = true)
    (SentimentEngine.analyze_articles_batch vader_compound finbert_softmax
       max_text_length articles).
Proof.
  intros Hvalid Hcontracts. rewrite analyze_articles_batch_map.
  induction articles as [|a rest IH]; cbn [map]; [constructor|].
  inversion Hvalid as [|? ? Ha Hrest]; subst.
  inversion Hcontracts as [|? ? [Hv Hf] Hcrest]; subst.
  constructor; [|apply IH; assumption].
  unfold AnalyzedArticle.validate, SentimentEngine.analyze_article.
  cbn [AnalyzedArticle.article AnalyzedArticle.headline_sentiment
       AnalyzedArticle.content_sentiment].
  rewrite Ha, (headline_validates_aux _ Hv), (content_validates_aux _ Hf). reflexivity.
Qed.

(** X4: [analyze_articles_batch] returns one analysed article for every
    article it is given, in the same order and around the same article: no
    article is dropped by a classifier failure; and when the articles
    validate and the classifiers keep their contracts, every analysed
    article validates. *)
Theorem analyze_articles_batch_keeps_articles (articles : list Article.t) :
  map AnalyzedArticle.article
    (SentimentEngine.analyze_articles_batch vader_compound finbert_softmax
       max_text_length articles) = articles
  /\ length (SentimentEngine.analyze_articles_batch vader_compound finbert_softmax
               max_text_length articles) = length articles
  /\ (Forall (fun a => Article.validate a = true) articles ->
      classifiers_ok articles ->
      Forall (fun a => AnalyzedArticle.validate a = true)
        (SentimentEngine.analyze_articles_batch vader_compound finbert_softmax
           max_text_length articles)).
Proof.
  split; [|split; [|apply batch_validates_aux]].
  - rewrite analyze_articles_batch_map, map_map. cbn [AnalyzedArticle.article].
    unfold SentimentEngine.analyze_article. cbn [AnalyzedArticle.article].
    apply map_id.
  - rewrite analyze_articles_batch_map. apply length_map.
Qed.

End ScorerOutputs.

Lemma analyze_headline_validates_witness :
  HeadlineSentiment.validate
    (SentimentEngine.analyze_headline (fun _ => Some (65 # 100)%Q)
       "Gold prices surge to new highs") = true.
Proof.
  assert (Hrange : forall s : Q,
            (fun _ : string => Some (65 # 100)%Q) "Gold prices surge to new highs" = Some s ->
            (-1 <= s <= 1)%Q).
  { intros s Hs. injection Hs as <-. split; discriminate. }
  exact (proj1 (analyze_headline_validates (fun _ => Some (65 # 100)%Q)
                  "Gold prices surge to new highs" Hrange)).
Defined.

Lemma constant_row_is_softmax :
  softmax_row [5 # 100; 10 # 100; 85 # 100]%Q.
Proof.
  exists (5 # 100)%Q, (10 # 100)%Q, (85 # 100)%Q.
  repeat split; try discriminate.
Qed.

Lemma analyze_content_validates_witness :
  ContentSentiment.validate
    (SentimentEngine.analyze_content
       (constant_classifier [5 # 100; 10 # 100; 85 # 100]%Q) 512
       "Gold rallies as the dollar weakens.") = true.
Proof.
  assert (Hcontract : forall row : list Q,
            constant_classifier [5 # 100; 10 # 100; 85 # 100]%Q
              (SentimentEngine._truncate_text 512 "Gold rallies as the dollar weakens.") 512
            = Some row -> softmax_row row).
  { intros row Hrow. injection Hrow as <-. apply constant_row_is_softmax. }
  exact (analyze_content_validates
           (constant_classifier [5 # 100; 10 # 100; 85 # 100]%Q) 512
           "Gold rallies as the dollar weakens." Hcontract).
Defined.

Lemma analyze_articles_batch_keeps_articles_witness :
  Forall (fun a => AnalyzedArticle.validate a = true)
    (SentimentEngine.analyze_articles_batch (fun _ => Some (65 # 100)%Q)
       (constant_classifier [5 # 100; 10 # 100; 85 # 100]%Q) 512 [sample_article]).
Proof.
  assert (Hvalid : Forall (fun a => Article.validate a = true) [sample_article]).
  { repeat constructor. }
  assert (Hcontracts : classifiers_ok (fun _ => Some (65 # 100)%Q)
                         (constant_classifier [5 # 100; 10 # 100; 85 # 100]%Q) 512
                         [sample_article]).
  { constructor; [|constructor]. split.
    - intros s Hs. injection Hs as <-. split; discriminate.
    - intros row Hrow. injection Hrow as <-. apply constant_row_is_softmax. }
  exact (proj2 (proj2 (analyze_articles_batch_keeps_articles (fun _ => Some (65 # 100)%Q)
                         (constant_classifier [5 # 100; 10 # 100; 85 # 100]%Q) 512
                         [sample_article])) Hvalid Hcontracts).
Defined.

(* ================================================================== *)
(** * Further properties: the report *)

(** A label the aggregation counts. *)
Definition known_label (label : string) : bool :=
  PyStr.in_list label ["Positive"; "Negative"; "Neutral"].

(** The number of units that carry a label. *)
Definition count_label {R : Type} (label : string) (articles : list (AnalyzedArticle.t R))
    : Z :=
  Z.of_nat (length (filter (fun a => (unit_score a).1 = label) articles)).

Section ReportCounts.
Context {R : Type} `{!PyFloat R}.

Lemma count_label_cons (label : string) (a : AnalyzedArticle.t R)
    (rest : list (AnalyzedArticle.t R)) :
  count_label label (a :: rest)
  = ((if String.eqb (unit_score a).1 label then 1 else 0) + count_label label rest)%Z.
Proof.
  unfold count_label. rewrite filter_cons.
  destruct (String.eqb_spec (unit_score a).1 label) as [Heq|Hne].
  - rewrite decide_True by exact Heq. cbn [length]. lia.
  - rewrite decide_False by exact Hne. lia.
Qed.

Lemma count_label_perm (label : string) (xs ys : list (AnalyzedArticle.t R)) :
  xs ≡ₚ ys -> count_label label xs = count_label label ys.
Proof.
  intros Hperm. unfold count_label. rewrite Hperm. reflexivity.
Qed.

(** The counting loop adds to each of the three counters the number of
    units with its label. *)
Lemma distribution_fold_counts (articles : list (AnalyzedArticle.t R)) :
  forall p n u : Z,
    fold_left
      (fun distribution analyzed_article =>
         let sentiment_label :=
           ContentSentiment.label (AnalyzedArticle.content_sentiment analyzed_article) in
         if PyDict.mem sentiment_label distribution
         then PyDict.update (fun n => (n + 1)%Z) sentiment_label distribution
         else distribution)
      articles [("Positive", p); ("Negative", n); ("Neutral", u)]
    = [("Positive", (p + count_label "Positive" articles)%Z);
       ("Negative", (n + count_label "Negative" articles)%Z);
       ("Neutral", (u + count_label "Neutral" articles)%Z)].
Proof.
  induction articles as [|a rest IH]; intros p n u.
  - cbn. rewrite !Z.add_0_r. reflexivity.
  - cbn [fold_left]. cbn zeta. rewrite !count_label_cons. cbn [unit_score fst].
    unfold PyDict.mem. cbn [PyDict.get PyDict.update].
    destruct (String.eqb_spec
                (ContentSentiment.label (AnalyzedArticle.content_sentiment a)) "Positive")
      as [->|HP].
    { cbn [String.eqb Ascii.eqb Bool.eqb]. rewrite IH, ?Z.add_0_l, ?Z.add_assoc. reflexivity. }
    destruct (String.eqb_spec
                (ContentSentiment.label (AnalyzedArticle.content_sentiment a)) "Negative")
      as [->|HN].
    { cbn [String.eqb Ascii.eqb Bool.eqb]. rewrite IH, ?Z.add_0_l, ?Z.add_assoc. reflexivity. }
    destruct (String.eqb_spec
                (ContentSentiment.label (AnalyzedArticle.content_sentiment a)) "Neutral")
      as [_|HU].
    { rewrite IH, ?Z.add_0_l, ?Z.add_assoc. reflexivity. }
    rewrite IH, ?Z.add_0_l, ?Z.add_assoc. reflexivity.
Qed.

Lemma known_label_cases (label : string) :
  known_label label
  = String.eqb label "Positive" || String.eqb label "Negative" || String.eqb label "Neutral".
Proof.
  unfold known_label, PyStr.in_list. cbn [existsb].
  rewrite orb_false_r, orb_assoc. reflexivity.
Qed.

Lemma count_known (articles : list (AnalyzedArticle.t R)) :
  (count_label "Positive" articles + count_label "Negative" articles
   + count_label "Neutral" articles)%Z
  = Z.of_nat (length (filter (fun a => known_label (unit_score a).1 = true) articles)).
Proof.
  induction articles as [|a rest IH]; [reflexivity|].
  rewrite !count_label_cons, filter_cons, known_label_cases.
  destruct (String.eqb_spec (unit_score a).1 "Positive") as [->|HP].
  { rewrite decide_True by reflexivity. cbn [length String.eqb Ascii.eqb Bool.eqb]. lia. }
  destruct (String.eqb_spec (unit_score a).1 "Negative") as [->|HN].
  { rewrite decide_True by reflexivity. cbn [length String.eqb Ascii.eqb Bool.eqb]. lia. }
  destruct (String.eqb_spec (unit_score a).1 "Neutral") as [_|HU].
  { rewrite decide_True by reflexivity. cbn [length]. lia. }
  rewrite decide_False by discriminate. lia.
Qed.

Lemma sentiment_distribution_counts_aux (articles : list (AnalyzedArticle.t R)) :
  AnalysisReport._calculate_sentiment_distribution articles
  = [("Positive", count_label "Positive" articles);
     ("Negative", count_label "Negative" articles);
     ("Neutral", count_label "Neutral" articles)]
  /\ distribution_total (AnalysisReport._calculate_sentiment_distribution articles)
     = Z.of_nat (length (filter (fun a => known_label (unit_score a).1 = true) articles)).
Proof.
  unfold AnalysisReport._calculate_sentiment_distribution.
  rewrite distribution_fold_counts. cbn [Z.add]. split; [reflexivity|].
  rewrite <- count_known. unfold distribution_total. cbn. lia.
Qed.

(** X5: the distribution of a unit list holds, under the keys Positive,
    Negative and Neutral in this order, the number of units that carry
    each label; a unit with any other label is counted nowhere, so the
    counts add up to the number of units with one of the three labels. *)
Theorem sentiment_distribution_counts (articles : list (AnalyzedArticle.t R)) :
  AnalysisReport._calculate_sentiment_distribution articles
  = [("Positive", count_label "Positive" articles);
     ("Negative", count_label "Negative" articles);
     ("Neutral", count_label "Neutral" articles)]
  /\ distribution_total (AnalysisReport._calculate_sentiment_distribution articles)
     = Z.of_nat (length (filter (fun a => known_label (unit_score a).1 = true) articles)).
Proof. apply sentiment_distribution_counts_aux. Qed.

End ReportCounts.

Section ReportValidity.
Local Open Scope Q_scope.

Lemma net_score_in_range (articles : list (AnalyzedArticle.t Q)) :
  Forall (fun a => 0 <= unit_confidence a) articles ->
  -1 <= AnalysisReport._calculate_net_sentiment_score articles <= 1.
Proof.
  intros Hnonneg. destruct articles as [|a rest]; [cbn; lra|].
  rewrite net_score_of_fold.
  pose proof (score_fold_invariant (a :: rest) 0 0 Hnonneg) as Hinv.
  cbn zeta in *.
  destruct (fold_left AnalysisReport.score_step (a :: rest) (0, 0)) as [w t].
  cbn [fst snd] in *.
  destruct Hinv as [[Hlo Hhi] _]; [lra|].
  destruct (Qltb 0 t) eqn:Ht; [|lra].
  apply Qltb_true in Ht. split.
  - apply Qle_shift_div_l; [exact Ht | lra].
  - apply Qle_shift_div_r; [exact Ht | lra].
Qed.

Lemma content_validate_confidence (c : ContentSentiment.t Q) :
  ContentSentiment.validate c = true -> 0 <= ContentSentiment.confidence c <= 1.
Proof.
  unfold ContentSentiment.validate. q_ops.
  destruct (Qltb (ContentSentiment.confidence c) 0) eqn:Hlo; [discriminate|].
  destruct (Qltb 1 (ContentSentiment.confidence c)) eqn:Hhi; [discriminate|].
  intros _. apply Qltb_false in Hlo, Hhi. split; assumption.
Qed.

Lemma determine_market_signal_values (score : Q) :
  PyStr.in_list (AnalysisReport._determine_market_signal score)
    ["BULLISH"; "BEARISH"; "NEUTRAL"] = true.
Proof.
  unfold AnalysisReport._determine_market_signal.
  destruct (f_ltb _ _); [reflexivity|]. destruct (f_ltb _ _); reflexivity.
Qed.

Lemma forallb_of_Forall {A : Type} (f : A -> bool) (xs : list A) :
  Forall (fun x => f x = true) xs -> forallb f xs = true.
Proof.
  induction 1 as [|x rest Hx _ IH]; cbn [forallb]; [reflexivity|].
  rewrite Hx, IH. reflexivity.
Qed.

Lemma created_report_validates_aux (now : datetime.t) (query category : string)
    (articles : list (AnalyzedArticle.t Q)) (processing_time : Q) :
  Forall (fun a => AnalyzedArticle.validate a = true) articles ->
  0 <= processing_time ->
  AnalysisReport.validate
    (AnalysisReport.create_from_articles now query category articles processing_time) = true.
Proof.
  intros Hvalid Htime.
  destruct (create_from_articles_fields now query category articles processing_time)
    as (Htotal & Hdist & Hnet & Hsignal & Harts).
  cbv zeta in *. unfold AnalysisReport.validate.
  rewrite Htotal, Hdist, Hnet, Hsignal, Harts.
  change (AnalysisReport.processing_time
            (AnalysisReport.create_from_articles now query category articles processing_time))
    with processing_time.
  assert (Hrange : -1 <= AnalysisReport._calculate_net_sentiment_score articles <= 1).
  { apply net_score_in_range. eapply Forall_impl; [exact Hvalid|].
    intros a Ha. unfold AnalyzedArticle.validate in Ha.
    apply andb_true_iff in Ha. destruct Ha as [_ Ha].
    apply content_validate_confidence in Ha. exact (proj1 Ha). }
  replace (Z.of_nat (length articles) <? 0)%Z with false by (symmetry; apply Z.ltb_ge; lia).
  q_ops.
  replace (Qltb (AnalysisReport._calculate_net_sentiment_score articles) (-1 # 1)) with false
    by (symmetry; apply Qltb_false; lra).
  replace (Qltb (1 # 1) (AnalysisReport._calculate_net_sentiment_score articles)) with false
    by (symmetry; apply Qltb_false; lra).
  rewrite determine_market_signal_values.
  replace (Qltb processing_time (0 # 1)) with false by (symmetry; apply Qltb_false; lra).
  rewrite (proj1 (sentiment_distribution_counts_aux articles)).
  cbn [orb negb].
  rewrite bool_decide_eq_true_2 by (unfold PyDict.key_set; cbn; set_solver).
  rewrite Z.eqb_refl. cbn [negb].
  apply forallb_of_Forall. exact Hvalid.
Qed.

(** X6: a report that [create_from_articles] builds passes
    [AnalysisReport.validate] exactly when every unit passes its own
    validation and the processing time is not negative: the count, the
    keys of the distribution, the range of the net score and the signal
    never make it fail. *)
Theorem created_report_validates (now : datetime.t) (query category : string)
    (articles : list (AnalyzedArticle.t Q)) (processing_time : Q) :
  AnalysisReport.validate
    (AnalysisReport.create_from_articles now query category articles processing_time) = true
  <-> Forall (fun a => AnalyzedArticle.validate a = true) articles /\ 0 <= processing_time.
Proof.
  split.
  - intros Hvalid.
    destruct (validate_sound _ Hvalid) as (_ & _ & _ & _ & Htime & _ & _ & Hall).
    split; [exact Hall|]. q_ops. apply Qltb_false in Htime. exact Htime.
  - intros [Hall Htime]. apply created_report_validates_aux; assumption.
Qed.

End ReportValidity.

Lemma created_report_validates_witness :
  AnalysisReport.validate
    (AnalysisReport.create_from_articles sample_now "Gold" "commodity"
       (scenario_A_units (R:=Q)) (52 # 10)%Q) = true.
Proof.
  assert (Hvalid : Forall (fun a : AnalyzedArticle.t Q => AnalyzedArticle.validate a = true)
                     scenario_A_units).
  { repeat constructor. }
  assert (Htime : (0 <= 52 # 10)%Q) by discriminate.
  exact (proj2 (created_report_validates sample_now "Gold" "commodity"
                  scenario_A_units (52 # 10)%Q) (conj Hvalid Htime)).
Defined.

Section ReportOrder.
Local Open Scope Q_scope.

Lemma determine_market_signal_Qeq (x y : Q) :
  x == y ->
  AnalysisReport._determine_market_signal x = AnalysisReport._determine_market_signal y.
Proof.
  intros Hxy. unfold AnalysisReport._determine_market_signal. q_ops.
  assert (Hgt : Qltb (15 # 100) x = Qltb (15 # 100) y).
  { destruct (Qltb (15 # 100) y) eqn:Hy.
    - apply Qltb_true. apply Qltb_true in Hy. lra.
    - apply Qltb_false. apply Qltb_false in Hy. lra. }
  assert (Hlt : Qltb x (-15 # 100) = Qltb y (-15 # 100)).
  { destruct (Qltb y (-15 # 100)) eqn:Hy.
    - apply Qltb_true. apply Qltb_true in Hy. lra.
    - apply Qltb_false. apply Qltb_false in Hy. lra. }
  rewrite Hgt, Hlt. reflexivity.
Qed.

Lemma net_score_perm (xs ys : list (AnalyzedArticle.t Q)) :
  xs ≡ₚ ys ->
  AnalysisReport._calculate_net_sentiment_score xs
  == AnalysisReport._calculate_net_sentiment_score ys.
Proof.
  intros Hperm.
  assert (Hscores : map unit_score xs ≡ₚ map unit_score ys) by (rewrite Hperm; reflexivity).
  pose proof (weighted_sum_perm _ _ Hscores) as Hw.
  pose proof (weight_sum_perm _ _ Hscores) as Ht.
  destruct (net_score_quotient xs) as [Hxpos Hxzero].
  destruct (net_score_quotient ys) as [Hypos Hyzero].
  cbn zeta in *.
  destruct (Qlt_le_dec 0 (weight_sum (map unit_score xs))) as [Hpos|Hzero].
  - rewrite Hxpos, Hypos; [|lra|lra]. rewrite Hw, Ht. reflexivity.
  - rewrite Hxzero, Hyzero; [reflexivity|lra|lra].
Qed.

(** The distribution and the count read the labels only, whatever the
    arithmetic. *)
Lemma distribution_perm {R : Type} `{!PyFloat R} (xs ys : list (AnalyzedArticle.t R)) :
  xs ≡ₚ ys ->
  AnalysisReport._calculate_sentiment_distribution xs
  = AnalysisReport._calculate_sentiment_distribution ys
  /\ length xs = length ys.
Proof.
  intros Hperm. split; [|rewrite Hperm; reflexivity].
  rewrite (proj1 (sentiment_distribution_counts_aux xs)),
    (proj1 (sentiment_distribution_counts_aux ys)),
    !(count_label_perm _ xs ys Hperm).
  reflexivity.
Qed.

(** Three units in two orders, in binary64. *)
Definition units_one_order : list (AnalyzedArticle.t float) :=
  [sample_unit "Negative" 0.36%float; sample_unit "Positive" 0.85%float;
   sample_unit "Negative" 0.79%float].

Definition units_other_order : list (AnalyzedArticle.t float) :=
  [sample_unit "Negative" 0.36%float; sample_unit "Negative" 0.79%float;
   sample_unit "Positive" 0.85%float].

(** X7: what of the aggregation depends on the order of the units.  The
    distribution and the count never do, in any arithmetic.  The net score
    and the signal do not in exact arithmetic; in binary64 they do: the
    units (Negative 0.36, Positive 0.85, Negative 0.79) give the score
    -0.15000000000000002 and the signal BEARISH, the same units in the order
    (Negative 0.36, Negative 0.79, Positive 0.85) give -0.14999999999999997
    and NEUTRAL. *)
Theorem aggregation_ignores_order (now : datetime.t) (query category : string) :
  (forall (R : Type) (HR : PyFloat R) (xs ys : list (AnalyzedArticle.t R))
          (processing_time : R),
     xs ≡ₚ ys ->
     let rx := AnalysisReport.create_from_articles now query category xs processing_time in
     let ry := AnalysisReport.create_from_articles now query category ys processing_time in
     AnalysisReport.sentiment_distribution rx = AnalysisReport.sentiment_distribution ry
     /\ AnalysisReport.total_articles rx = AnalysisReport.total_articles ry)
  /\ (forall (xs ys : list (AnalyzedArticle.t Q)) (processing_time : Q),
        xs ≡ₚ ys ->
        let rx := AnalysisReport.create_from_articles now query category xs processing_time in
        let ry := AnalysisReport.create_from_articles now query category ys processing_time in
        AnalysisReport.net_sentiment_score rx == AnalysisReport.net_sentiment_score ry
        /\ AnalysisReport.market_signal rx = AnalysisReport.market_signal ry)
  /\ (forall processing_time : float,
        let rx :=
          AnalysisReport.create_from_articles now query category units_one_order
            processing_time in
        let ry :=
          AnalysisReport.create_from_articles now query category units_other_order
            processing_time in
        units_one_order ≡ₚ units_other_order
        /\ AnalysisReport.net_sentiment_score rx = (-0.15000000000000002)%float
        /\ AnalysisReport.market_signal rx = "BEARISH"
        /\ AnalysisReport.net_sentiment_score ry = (-0.14999999999999997)%float
        /\ AnalysisReport.market_signal ry = "NEUTRAL").
Proof.
  split; [|split].
  - intros R HR xs ys processing_time Hperm rx ry.
    destruct (create_from_articles_fields now query category xs processing_time)
      as (Htx & Hdx & _).
    destruct (create_from_articles_fields now query category ys processing_time)
      as (Hty & Hdy & _).
    cbv zeta in *. subst rx ry. rewrite Htx, Hdx, Hty, Hdy.
    destruct (distribution_perm xs ys Hperm) as [Hdist Hlen].
    split; [exact Hdist | rewrite Hlen; reflexivity].
  - intros xs ys processing_time Hperm rx ry.
    destruct (create_from_articles_fields now query category xs processing_time)
      as (_ & _ & Hnx & Hsx & _).
    destruct (create_from_articles_fields now query category ys processing_time)
      as (_ & _ & Hny & Hsy & _).
    cbv zeta in *. subst rx ry. rewrite Hnx, Hsx, Hny, Hsy.
    split; [apply net_score_perm; exact Hperm|].
    apply determine_market_signal_Qeq, net_score_perm. exact Hperm.
  - intros processing_time rx ry.
    destruct (create_from_articles_fields now query category units_one_order
                processing_time) as (_ & _ & Hnx & Hsx & _).
    destruct (create_from_articles_fields now query category units_other_order
                processing_time) as (_ & _ & Hny & Hsy & _).
    cbv zeta in *. subst rx ry. rewrite Hnx, Hsx, Hny, Hsy.
    split; [apply Permutation_skip, perm_swap|].
    vm_compute. repeat split; reflexivity.
Qed.

(** The unit with Positive and Negative exchanged. *)
Definition flip_label (label : string) : string :=
  if String.eqb label "Positive" then "Negative"
  else if String.eqb label "Negative" then "Positive"
  else label.

Definition flip_unit (a : AnalyzedArticle.t Q) : AnalyzedArticle.t Q :=
  AnalyzedArticle.mk (AnalyzedArticle.article a) (AnalyzedArticle.headline_sentiment a)
    (ContentSentiment.mk
       (ContentSentiment.confidence (AnalyzedArticle.content_sentiment a))
       (flip_label (ContentSentiment.label (AnalyzedArticle.content_sentiment a)))
       (ContentSentiment.probabilities (AnalyzedArticle.content_sentiment a))).

Definition flip_signal (signal : string) : string :=
  if String.eqb signal "BULLISH" then "BEARISH"
  else if String.eqb signal "BEARISH" then "BULLISH"
  else signal.

Lemma direction_flip (label : string) :
  AnalysisReport.direction (R:=Q) (flip_label label)
  == - AnalysisReport.direction (R:=Q) label.
Proof.
  unfold AnalysisReport.direction, flip_label.
  destruct (String.eqb_spec label "Positive") as [->|HP]; [reflexivity|].
  destruct (String.eqb_spec label "Negative") as [->|HN]; [reflexivity|].
  destruct (String.eqb_spec label "Positive") as [?|_]; [contradiction|].
  destruct (String.eqb_spec label "Negative") as [?|_]; [contradiction|].
  reflexivity.
Qed.

Lemma sums_flip (articles : list (AnalyzedArticle.t Q)) :
  weighted_sum (map unit_score (map flip_unit articles))
  == - weighted_sum (map unit_score articles)
  /\ weight_sum (map unit_score (map flip_unit articles))
     == weight_sum (map unit_score articles).
Proof.
  induction articles as [|a rest [IHw IHt]]; [split; reflexivity|].
  cbn [map weighted_sum weight_sum foldr].
  fold (weighted_sum (map unit_score (map flip_unit rest))).
  fold (weighted_sum (map unit_score rest)).
  fold (weight_sum (map unit_score (map flip_unit rest))).
  fold (weight_sum (map unit_score rest)).
  cbn [unit_score flip_unit AnalyzedArticle.content_sentiment ContentSentiment.label
       ContentSentiment.confidence fst snd].
  split.
  - rewrite IHw, direction_flip. ring.
  - rewrite IHt. reflexivity.
Qed.

Lemma net_score_flip (articles : list (AnalyzedArticle.t Q)) :
  AnalysisReport._calculate_net_sentiment_score (map flip_unit articles)
  == - AnalysisReport._calculate_net_sentiment_score articles.
Proof.
  destruct (sums_flip articles) as [Hw Ht].
  destruct (net_score_quotient articles) as [Hpos Hzero].
  destruct (net_score_quotient (map flip_unit articles)) as [Hfpos Hfzero].
  cbn zeta in *.
  destruct (Qlt_le_dec 0 (weight_sum (map unit_score articles))) as [Hp|Hz].
  - rewrite Hpos, Hfpos; [|lra|lra]. rewrite Hw, Ht. field. lra.
  - rewrite Hzero, Hfzero; [reflexivity|lra|lra].
Qed.

Lemma determine_market_signal_opp (x y : Q) :
  y == - x ->
  AnalysisReport._determine_market_signal y
  = flip_signal (AnalysisReport._determine_market_signal x).
Proof.
  intros Hy. unfold AnalysisReport._determine_market_signal. q_ops.
  destruct (Qltb (15 # 100) x) eqn:Hbull.
  { apply Qltb_true in Hbull.
    replace (Qltb (15 # 100) y) with false by (symmetry; apply Qltb_false; lra).
    replace (Qltb y (-15 # 100)) with true by (symmetry; apply Qltb_true; lra).
    reflexivity. }
  apply Qltb_false in Hbull.
  destruct (Qltb x (-15 # 100)) eqn:Hbear.
  { apply Qltb_true in Hbear.
    replace (Qltb (15 # 100) y) with true by (symmetry; apply Qltb_true; lra).
    reflexivity. }
  apply Qltb_false in Hbear.
  replace (Qltb (15 # 100) y) with false by (symmetry; apply Qltb_false; lra).
  replace (Qltb y (-15 # 100)) with false by (symmetry; apply Qltb_false; lra).
  reflexivity.
Qed.

(** X8: the aggregation is symmetric in the two directions: exchanging the
    labels Positive and Negative on every unit negates the net score and
    exchanges the signals BULLISH and BEARISH (NEUTRAL stays), in exact
    arithmetic. *)
Theorem aggregation_is_symmetric (articles : list (AnalyzedArticle.t Q)) :
  AnalysisReport._calculate_net_sentiment_score (map flip_unit articles)
  == - AnalysisReport._calculate_net_sentiment_score articles
  /\ AnalysisReport._determine_market_signal
       (AnalysisReport._calculate_net_sentiment_score (map flip_unit articles))
     = flip_signal
         (AnalysisReport._determine_market_signal
            (AnalysisReport._calculate_net_sentiment_score articles)).
Proof.
  split; [apply net_score_flip|].
  apply determine_market_signal_opp, net_score_flip.
Qed.

End ReportOrder.

Lemma aggregation_ignores_order_witness :
  AnalysisReport.sentiment_distribution
    (AnalysisReport.create_from_articles sample_now "Gold" "commodity" units_one_order
       1%float)
  = AnalysisReport.sentiment_distribution
      (AnalysisReport.create_from_articles sample_now "Gold" "commodity" units_other_order
         1%float)
  /\ AnalysisReport.market_signal
       (AnalysisReport.create_from_articles sample_now "Gold" "commodity"
          [sample_unit "Negative" (1 # 2)%Q; sample_unit "Positive" (9 # 10)%Q] 1%Q)
     = AnalysisReport.market_signal
         (AnalysisReport.create_from_articles sample_now "Gold" "commodity"
            [sample_unit "Positive" (9 # 10)%Q; sample_unit "Negative" (1 # 2)%Q] 1%Q).
Proof.
  assert (Hfloat : units_one_order ≡ₚ units_other_order).
  { apply Permutation_skip, perm_swap. }
  assert (Hperm : [sample_unit "Negative" (1 # 2)%Q; sample_unit "Positive" (9 # 10)%Q]
                  ≡ₚ [sample_unit "Positive" (9 # 10)%Q; sample_unit "Negative" (1 # 2)%Q]).
  { apply perm_swap. }
  split.
  - exact (proj1 (proj1 (aggregation_ignores_order sample_now "Gold" "commodity")
                    float _ units_one_order units_other_order 1%float Hfloat)).
  - exact (proj2 (proj1 (proj2 (aggregation_ignores_order sample_now "Gold" "commodity"))
                    _ _ 1%Q Hperm)).
Defined.

(* ------------------------------------------------------------------ *)
(** ** The two aggregations: the report and the engine *)

Section EngineSignal.
Context {R : Type} `{!PyFloat R}.

(** The counting loop of the report, from any starting dictionary. *)
Local Abbreviation count_fold articles d :=
  (fold_left
     (fun distribution analyzed_article =>
        let sentiment_label :=
          ContentSentiment.label (AnalyzedArticle.content_sentiment analyzed_article) in
        if PyDict.mem sentiment_label distribution
        then PyDict.update (fun n => (n + 1)%Z) sentiment_label distribution
        else distribution)
     articles d).

Lemma signal_fold_raised (articles : list (AnalyzedArticle.t R)) :
  fold_left SentimentEngine.signal_step articles None = None.
Proof. induction articles as [|a rest IH]; [reflexivity | exact IH]. Qed.

(** With known labels only, the loop of the engine is the two loops of
    the report run side by side. *)
Lemma signal_fold_known (articles : list (AnalyzedArticle.t R)) :
  forall (d : list (string * Z)) (w t : R),
    PyDict.keys d = ["Positive"; "Negative"; "Neutral"] ->
    Forall (fun a => known_label (unit_score a).1 = true) articles ->
    fold_left SentimentEngine.signal_step articles (Some (d, w, t))
    = Some (count_fold articles d,
            (fold_left AnalysisReport.score_step articles (w, t)).1,
            (fold_left AnalysisReport.score_step articles (w, t)).2).
Proof.
  induction articles as [|a rest IH]; intros d w t Hkeys Hknown; [reflexivity|].
  inversion Hknown as [|? ? Ha Hrest]; subst. cbn [unit_score fst] in Ha.
  assert (Hmem : PyDict.mem
                   (ContentSentiment.label (AnalyzedArticle.content_sentiment a)) d = true)
    by (rewrite mem_keys, Hkeys; exact Ha).
  cbn [fold_left]. unfold SentimentEngine.signal_step at 2.
  cbn [mbind option_bind]. cbn zeta. rewrite Hmem.
  rewrite IH; [reflexivity | rewrite update_keys; exact Hkeys | exact Hrest].
Qed.

(** A label that is no key makes the loop of the engine raise. *)
Lemma signal_fold_unknown (articles : list (AnalyzedArticle.t R)) :
  forall (d : list (string * Z)) (w t : R),
    PyDict.keys d = ["Positive"; "Negative"; "Neutral"] ->
    Exists (fun a => known_label (unit_score a).1 = false) articles ->
    fold_left SentimentEngine.signal_step articles (Some (d, w, t)) = None.
Proof.
  induction articles as [|a rest IH]; intros d w t Hkeys Hunknown;
    [inversion Hunknown|].
  cbn [fold_left]. unfold SentimentEngine.signal_step at 2.
  cbn [mbind option_bind]. cbn zeta.
  rewrite mem_keys, Hkeys.
  change (PyStr.in_list (ContentSentiment.label (AnalyzedArticle.content_sentiment a))
            ["Positive"; "Negative"; "Neutral"])
    with (known_label (unit_score a).1).
  destruct (known_label (unit_score a).1) eqn:Ha.
  - apply IH; [rewrite update_keys; exact Hkeys|].
    inversion Hunknown as [? ? Hhead|? ? Htail]; subst; [congruence | exact Htail].
  - apply signal_fold_raised.
Qed.

(** X9: [SentimentEngine.calculate_market_signal] and the report compute
    the same aggregation: on a non-empty unit list whose labels are all
    among Positive, Negative and Neutral it returns the net score, the
    signal and the distribution that [AnalysisReport] computes, and the
    unit count; but where the report skips a unit with any other label,
    the engine raises. *)
Theorem calculate_market_signal_agrees (a : AnalyzedArticle.t R)
    (rest : list (AnalyzedArticle.t R)) :
  let articles := a :: rest in
  (Forall (fun a => known_label (unit_score a).1 = true) articles ->
   SentimentEngine.calculate_market_signal articles
   = Some (SentimentEngine.mk_stats R
             (AnalysisReport._determine_market_signal
                (AnalysisReport._calculate_net_sentiment_score articles))
             (AnalysisReport._calculate_net_sentiment_score articles)
             (AnalysisReport._calculate_sentiment_distribution articles)
             (fold_left AnalysisReport.score_step articles (f_lit 0 1, f_lit 0 1)).1
             (Some (Z.of_nat (length articles)))))
  /\ (Exists (fun a => known_label (unit_score a).1 = false) articles ->
      SentimentEngine.calculate_market_signal articles = None).
Proof.
  cbv zeta. split.
  - intros Hknown. unfold SentimentEngine.calculate_market_signal.
    rewrite (signal_fold_known (a :: rest)
               [("Positive", 0%Z); ("Negative", 0%Z); ("Neutral", 0%Z)] _ _ eq_refl Hknown).
    cbn [mbind option_bind].
    unfold AnalysisReport._calculate_net_sentiment_score,
      AnalysisReport._determine_market_signal,
      AnalysisReport._calculate_sentiment_distribution.
    destruct (fold_left AnalysisReport.score_step (a :: rest) (f_lit 0 1, f_lit 0 1))
      as [w t].
    reflexivity.
  - intros Hunknown. unfold SentimentEngine.calculate_market_signal.
    rewrite (signal_fold_unknown (a :: rest)
               [("Positive", 0%Z); ("Negative", 0%Z); ("Neutral", 0%Z)] _ _ eq_refl Hunknown).
    reflexivity.
Qed.

End EngineSignal.

Lemma calculate_market_signal_agrees_witness :
  SentimentEngine.net_sentiment_score
    <$> SentimentEngine.calculate_market_signal
          [sample_unit "Positive" (9 # 10)%Q; sample_unit "Negative" (1 # 2)%Q]
  = Some (AnalysisReport._calculate_net_sentiment_score
            [sample_unit "Positive" (9 # 10)%Q; sample_unit "Negative" (1 # 2)%Q])
  /\ SentimentEngine.calculate_market_signal
       [sample_unit "Positive" (9 # 10)%Q; sample_unit "Mixed" (1 # 2)%Q] = None.
Proof.
  assert (Hknown : Forall (fun a : AnalyzedArticle.t Q => known_label (unit_score a).1 = true)
                     [sample_unit "Positive" (9 # 10)%Q; sample_unit "Negative" (1 # 2)%Q]).
  { repeat constructor. }
  assert (Hunknown : Exists
                       (fun a : AnalyzedArticle.t Q => known_label (unit_score a).1 = false)
                       [sample_unit "Positive" (9 # 10)%Q; sample_unit "Mixed" (1 # 2)%Q]).
  { right. left. reflexivity. }
  split.
  - rewrite (proj1 (calculate_market_signal_agrees
                      (sample_unit "Positive" (9 # 10)%Q)
                      [sample_unit "Negative" (1 # 2)%Q]) Hknown).
    reflexivity.
  - exact (proj2 (calculate_market_signal_agrees
                    (sample_unit "Positive" (9 # 10)%Q)
                    [sample_unit "Mixed" (1 # 2)%Q]) Hunknown).
Defined.

(* ------------------------------------------------------------------ *)
(** ** The percentages of a report *)

Section Percentages.
Local Open Scope Q_scope.

Lemma count_label_bounds (label : string) (articles : list (AnalyzedArticle.t Q)) :
  (0 <= count_label label articles <= Z.of_nat (length articles))%Z.
Proof.
  unfold count_label. split; [lia|].
  apply inj_le. apply length_filter.
Qed.

Lemma filter_all_known (articles : list (AnalyzedArticle.t Q)) :
  Forall (fun a => known_label (unit_score a).1 = true) articles ->
  filter (fun a => known_label (unit_score a).1 = true) articles = articles.
Proof.
  induction 1 as [|a rest Ha _ IH]; [reflexivity|].
  rewrite filter_cons, decide_True by exact Ha. rewrite IH. reflexivity.
Qed.

Lemma percentage_bounds (c n : Z) :
  (0 <= c <= n)%Z -> (0 < n)%Z -> 0 <= (c # 1) / (n # 1) * (100 # 1) <= 100.
Proof.
  intros [Hc Hcn] Hn.
  assert (Hc' : 0 <= c # 1) by (unfold Qle; cbn; lia).
  assert (Hn' : 0 < n # 1) by (unfold Qlt; cbn; lia).
  assert (Hcn' : c # 1 <= n # 1) by (unfold Qle; cbn; lia).
  assert (Hq : 0 <= (c # 1) / (n # 1) <= 1).
  { split.
    - apply Qle_shift_div_l; [exact Hn' | lra].
    - apply Qle_shift_div_r; [exact Hn' | lra]. }
  split; lra.
Qed.

Lemma percentage_sum (p n u total : Z) :
  (p + n + u = total)%Z -> (0 < total)%Z ->
  0 + (p # 1) / (total # 1) * (100 # 1) + (n # 1) / (total # 1) * (100 # 1)
    + (u # 1) / (total # 1) * (100 # 1) == 100.
Proof.
  intros Hsum Hpos.
  assert (Hpos' : 0 < total # 1) by (unfold Qlt; cbn; lia).
  assert (Hsum' : (p # 1) + (n # 1) + (u # 1) == total # 1).
  { subst total. unfold Qeq, Qplus. cbn. lia. }
  transitivity (((p # 1) + (n # 1) + (u # 1)) / (total # 1) * 100); [field; lra|].
  rewrite Hsum'. field. lra.
Qed.

(** One unit of each label, in binary64. *)
Definition one_unit_each : list (AnalyzedArticle.t float) :=
  [sample_unit "Positive" 0.9%float; sample_unit "Negative" 0.5%float;
   sample_unit "Neutral" 0.5%float].

(** The percentages of a created report, in any arithmetic. *)
Lemma percentages_of_created_shape {R : Type} `{!PyFloat R}
    (now : datetime.t) (query category : string)
    (articles : list (AnalyzedArticle.t R)) (processing_time : R) :
  let pct :=
    AnalysisReport.get_sentiment_percentages
      (AnalysisReport.create_from_articles now query category articles processing_time) in
  PyDict.keys pct = ["Positive"; "Negative"; "Neutral"]
  /\ (articles = [] ->
      pct = [("Positive", f_lit 0 1); ("Negative", f_lit 0 1); ("Neutral", f_lit 0 1)])
  /\ ((0 < length articles)%nat ->
      pct = map (fun label =>
                   (label,
                    f_mul (f_div (f_lit (count_label label articles) 1)
                             (f_lit (Z.of_nat (length articles)) 1))
                      (f_lit 100 1)))
                ["Positive"; "Negative"; "Neutral"]).
Proof.
  destruct (create_from_articles_fields now query category articles processing_time)
    as (Htotal & Hdist & _).
  cbv zeta in *. unfold AnalysisReport.get_sentiment_percentages.
  rewrite Htotal, Hdist, (proj1 (sentiment_distribution_counts_aux articles)).
  destruct articles as [|a rest].
  { cbn. repeat split; try reflexivity. intros Hlen. lia. }
  replace (Z.of_nat (length (a :: rest)) =? 0)%Z with false
    by (symmetry; apply Z.eqb_neq; cbn [length]; lia).
  cbn [map fst snd PyDict.keys].
  split; [reflexivity|]. split; [discriminate | reflexivity].
Qed.

(** X10: the percentages of a report built by [create_from_articles].  In
    any arithmetic the keys are the three labels, all three percentages are
    0.0 for the empty unit list, and otherwise each is the count of its
    label divided by the number of units, times 100.  In exact arithmetic
    every percentage lies between 0 and 100 and, when all labels are known,
    they add up to 100; in binary64 they need not: for one unit of each
    label the three percentages are 33.333333333333329 and add up to
    99.999999999999986. *)
Theorem sentiment_percentages_of_created (now : datetime.t) (query category : string) :
  (forall (R : Type) (HR : PyFloat R) (articles : list (AnalyzedArticle.t R))
          (processing_time : R),
     let pct :=
       AnalysisReport.get_sentiment_percentages
         (AnalysisReport.create_from_articles now query category articles
            processing_time) in
     PyDict.keys pct = ["Positive"; "Negative"; "Neutral"]
     /\ (articles = [] ->
         pct = [("Positive", f_lit 0 1); ("Negative", f_lit 0 1); ("Neutral", f_lit 0 1)])
     /\ ((0 < length articles)%nat ->
         pct = map (fun label =>
                      (label,
                       f_mul (f_div (f_lit (count_label label articles) 1)
                                (f_lit (Z.of_nat (length articles)) 1))
                         (f_lit 100 1)))
                   ["Positive"; "Negative"; "Neutral"]))
  /\ (forall (articles : list (AnalyzedArticle.t Q)) (processing_time : Q),
        let pct :=
          AnalysisReport.get_sentiment_percentages
            (AnalysisReport.create_from_articles now query category articles
               processing_time) in
        Forall (fun p => 0 <= p <= 100) (PyDict.values pct)
        /\ ((0 < length articles)%nat ->
            Forall (fun a => known_label (unit_score a).1 = true) articles ->
            py_sum (PyDict.values pct) == 100))
  /\ (forall processing_time : float,
        let pct :=
          AnalysisReport.get_sentiment_percentages
            (AnalysisReport.create_from_articles now query category one_unit_each
               processing_time) in
        pct = [("Positive", 33.333333333333329%float);
               ("Negative", 33.333333333333329%float);
               ("Neutral", 33.333333333333329%float)]
        /\ py_sum (PyDict.values pct) = 99.999999999999986%float
        /\ PrimFloat.ltb (py_sum (PyDict.values pct)) 100%float = true).
Proof.
  split; [|split].
  - intros R HR articles processing_time.
    apply percentages_of_created_shape.
  - intros articles processing_time. cbv zeta.
    destruct (percentages_of_created_shape now query category articles processing_time)
      as (_ & Hempty & Hshape).
    cbv zeta in Hempty, Hshape.
    destruct articles as [|a rest].
    { rewrite (Hempty eq_refl). split; [|cbn; intros Hlen; lia].
      repeat constructor; discriminate. }
    rewrite (Hshape ltac:(cbn; lia)).
    set (articles := a :: rest).
    assert (Hpos : (0 < Z.of_nat (length articles))%Z) by (cbn [articles length]; lia).
    cbn [map snd PyDict.values]. q_ops. split.
    + repeat constructor;
        apply percentage_bounds; try exact Hpos; apply count_label_bounds.
    + intros _ Hknown. unfold py_sum. cbn [fold_left]. q_ops.
      apply percentage_sum; [|exact Hpos].
      rewrite count_known, (filter_all_known articles Hknown). reflexivity.
  - intros processing_time. cbv zeta.
    destruct (percentages_of_created_shape now query category one_unit_each
                processing_time) as (_ & _ & Hshape).
    cbv zeta in Hshape. rewrite (Hshape ltac:(cbn; lia)).
    vm_compute. repeat split; reflexivity.
Qed.

End Percentages.

Lemma sentiment_percentages_of_created_witness :
  (py_sum (PyDict.values
             (AnalysisReport.get_sentiment_percentages
                (AnalysisReport.create_from_articles sample_now "Gold" "commodity"
                   (scenario_A_units (R:=Q)) 1%Q))) == 100)%Q
  /\ AnalysisReport.get_sentiment_percentages
       (AnalysisReport.create_from_articles sample_now "Gold" "commodity"
          (@nil (AnalyzedArticle.t float)) 1%float)
     = [("Positive", 0%float); ("Negative", 0%float); ("Neutral", 0%float)]
  /\ AnalysisReport.get_sentiment_percentages
       (AnalysisReport.create_from_articles sample_now "Gold" "commodity"
          one_unit_each 1%float)
     = [("Positive", 33.333333333333329%float); ("Negative", 33.333333333333329%float);
        ("Neutral", 33.333333333333329%float)].
Proof.
  assert (Hlen : (0 < length (scenario_A_units (R:=Q)))%nat) by (cbn; lia).
  assert (Hknown : Forall (fun a : AnalyzedArticle.t Q => known_label (unit_score a).1 = true)
                     scenario_A_units).
  { repeat constructor. }
  assert (Hthree : (0 < length one_unit_each)%nat) by (cbn; lia).
  pose proof (sentiment_percentages_of_created sample_now "Gold" "commodity")
    as (Hany & Hexact & _).
  split; [exact (proj2 (Hexact scenario_A_units 1%Q) Hlen Hknown)|].
  split.
  - exact (proj1 (proj2 (Hany float _ [] 1%float)) eq_refl).
  - rewrite (proj2 (proj2 (Hany float _ one_unit_each 1%float)) Hthree).
    vm_compute. reflexivity.
Defined.

(* ================================================================== *)
(** * Further properties: the news aggregator *)

Section DeduplicationCoverage.

Local Abbreviation normalized_title a := (PyStr.strip (PyStr.lower (Article.title a))).

(** The loop only appends: what it has accepted stays, what it adds is, in
    order, part of what it reads; and every article it reads is
    represented among the accepted ones, by its URL or by its normalised
    title. *)
Lemma dedup_fold_covers (articles : list Article.t) :
  forall st, dedup_state_ok st ->
    let st' := fold_left NewsAggregator.dedup_step articles st in
    (exists kept, st'.2 = st.2 ++ kept /\ sublist kept articles)
    /\ Forall (fun a => Article.url a ∈ urls_of st'.2
                        \/ normalized_title a ∈ normalized_titles_of st'.2) articles.
Proof.
  induction articles as [|a rest IH]; intros st Hst; cbn [fold_left]; cbn zeta.
  - split; [exists []; rewrite app_nil_r; split; [reflexivity | constructor] | constructor].
  - pose proof (dedup_step_ok st a Hst) as Hstep.
    destruct (IH _ Hstep) as [(kept & Hkept & Hsub) Hcov]. cbn zeta in *.
    set (st' := fold_left NewsAggregator.dedup_step rest (NewsAggregator.dedup_step st a)) in *.
    destruct st as [[seen_urls seen_titles] unique].
    destruct Hst as (Hu & Ht & _ & _). cbn [fst snd] in *.
    unfold NewsAggregator.dedup_step in Hkept, Hstep |- *.
    case_bool_decide as Hurl.
    { cbn [snd] in Hkept. split.
      - exists kept. split; [exact Hkept | apply sublist_cons; exact Hsub].
      - constructor; [|exact Hcov]. left.
        rewrite Hkept. unfold urls_of. rewrite map_app. apply elem_of_app. left.
        rewrite Hu in Hurl. apply elem_of_list_to_set in Hurl. exact Hurl. }
    case_bool_decide as Htitle.
    { cbn [snd] in Hkept. split.
      - exists kept. split; [exact Hkept | apply sublist_cons; exact Hsub].
      - constructor; [|exact Hcov]. right.
        rewrite Hkept. unfold normalized_titles_of. rewrite map_app. apply elem_of_app. left.
        rewrite Ht in Htitle. apply elem_of_list_to_set in Htitle. exact Htitle. }
    cbn [snd] in Hkept. split.
    + exists (a :: kept). split.
      * rewrite Hkept, <- app_assoc. reflexivity.
      * apply sublist_skip. exact Hsub.
    + constructor; [|exact Hcov]. left.
      rewrite Hkept. unfold urls_of. rewrite !map_app. cbn [map].
      apply elem_of_app. left. apply elem_of_app. right. apply list_elem_of_here.
Qed.

Lemma deduplicate_articles_covers (articles : list Article.t) :
  sublist (NewsAggregator.deduplicate_articles articles) articles
  /\ Forall (fun a =>
               Article.url a ∈ urls_of (NewsAggregator.deduplicate_articles articles)
               \/ normalized_title a
                  ∈ normalized_titles_of (NewsAggregator.deduplicate_articles articles))
       articles
  /\ head (NewsAggregator.deduplicate_articles articles) = head articles.
Proof.
  unfold NewsAggregator.deduplicate_articles.
  assert (Hempty : dedup_state_ok (∅, ∅, [])) by (repeat split; constructor).
  destruct (dedup_fold_covers articles _ Hempty) as [(kept & Hkept & Hsub) Hcov].
  cbn zeta in *. cbn [snd app] in Hkept.
  split; [rewrite Hkept; exact Hsub|]. split; [exact Hcov|].
  destruct articles as [|a rest]; [reflexivity|].
  cbn [fold_left head].
  assert (Hfirst : NewsAggregator.dedup_step (∅, ∅, []) a
                   = ({[Article.url a]} ∪ ∅, {[normalized_title a]} ∪ ∅, [a])).
  { unfold NewsAggregator.dedup_step.
    rewrite bool_decide_eq_false_2 by set_solver.
    rewrite bool_decide_eq_false_2 by set_solver. reflexivity. }
  rewrite Hfirst.
  assert (Hone : dedup_state_ok ({[Article.url a]} ∪ ∅, {[normalized_title a]} ∪ ∅, [a])).
  { rewrite <- Hfirst. apply dedup_step_ok. exact Hempty. }
  destruct (dedup_fold_covers rest _ Hone) as [(kept' & Hkept' & _) _].
  cbn zeta in Hkept'. cbn [snd] in Hkept'. rewrite Hkept'. reflexivity.
Qed.

(** X11: [deduplicate_articles] only drops articles: its output is, in
    order, a sublist of its input; every input article is represented in
    the output by an article with the same URL or the same normalised
    title; and the first input article is always kept. *)
Theorem deduplicate_articles_keeps_representatives (articles : list Article.t) :
  sublist (NewsAggregator.deduplicate_articles articles) articles
  /\ Forall (fun a =>
               Article.url a ∈ urls_of (NewsAggregator.deduplicate_articles articles)
               \/ normalized_title a
                  ∈ normalized_titles_of (NewsAggregator.deduplicate_articles articles))
       articles
  /\ head (NewsAggregator.deduplicate_articles articles) = head articles.
Proof. apply deduplicate_articles_covers. Qed.

End DeduplicationCoverage.

(* ------------------------------------------------------------------ *)
(** ** Resolution, the task of a worker and the result of the pool *)

Section Workers.
Variable articles_per_query : nat.
Variable max_workers : nat.
Variable min_content_length : nat.
Variable quote : string -> string.
Variable feedparser_parse : string -> option (list NewsAggregator.rss_entry).
Variable urlparse : string -> option (string * string).
Variable parse_qs_url : string -> option string.
Variable session_head : string -> option string.
Variable trafilatura_fetch_url : string -> option (option string).
Variable trafilatura_extract : string -> option (option string).
Variable paragraph_text : string -> option string.

Local Abbreviation resolve_single :=
  (NewsAggregator._resolve_single_url urlparse parse_qs_url session_head).
Local Abbreviation resolve_urls :=
  (NewsAggregator.resolve_google_urls urlparse parse_qs_url session_head).
Local Abbreviation extract :=
  (NewsAggregator.extract_content trafilatura_fetch_url trafilatura_extract paragraph_text).
Local Abbreviation process :=
  (NewsAggregator._process_rss_entry min_content_length urlparse parse_qs_url session_head
     trafilatura_fetch_url trafilatura_extract paragraph_text).
Local Abbreviation gather := (NewsAggregator.gather articles_per_query quote feedparser_parse).
Local Abbreviation pool_step :=
  (NewsAggregator.pool_step max_workers min_content_length urlparse parse_qs_url
     session_head trafilatura_fetch_url trafilatura_extract paragraph_text).
Local Abbreviation fetch_articles :=
  (NewsAggregator.fetch_articles articles_per_query max_workers min_content_length quote
     feedparser_parse urlparse parse_qs_url session_head trafilatura_fetch_url
     trafilatura_extract paragraph_text).

Lemma resolve_google_urls_map (urls : list string) :
  resolve_urls urls = map resolve_single urls.
Proof.
  unfold NewsAggregator.resolve_google_urls.
  assert (Hgen : forall acc,
            fold_left (fun resolved_urls url => resolved_urls ++ [resolve_single url]) urls acc
            = acc ++ map resolve_single urls).
  { induction urls as [|url rest IH]; intros acc; cbn [fold_left map].
    - rewrite app_nil_r. reflexivity.
    - rewrite IH, <- app_assoc. reflexivity. }
  apply (Hgen []).
Qed.

(** A URL that cannot be resolved: parsing raises, or it is no Google News
    link with a [url] parameter and the HEAD request raises. *)
Definition unresolvable (url : string) : Prop :=
  urlparse url = None
  \/ exists netloc query,
       urlparse url = Some (netloc, query)
       /\ (PyStr.contains "news.google.com" netloc = false \/ parse_qs_url query = None)
       /\ session_head url = None.

Lemma resolve_single_unresolvable (url : string) :
  unresolvable url -> resolve_single url = url.
Proof.
  unfold NewsAggregator._resolve_single_url.
  intros [Hparse | (netloc & query & Hparse & Hquery & Hhead)]; rewrite Hparse;
    cbn [mbind option_bind]; [reflexivity|].
  destruct Hquery as [Hgoogle | Hquery].
  - rewrite Hgoogle, Hhead. reflexivity.
  - rewrite Hquery, Hhead. destruct (PyStr.contains _ _); reflexivity.
Qed.

(** X12: [resolve_google_urls] resolves URL by URL: it returns one URL for
    each URL it is given, in order; a Google News link whose [url]
    parameter is not empty resolves to that parameter whatever the HEAD
    request would answer; and a URL that cannot be resolved comes back
    unchanged. *)
Theorem resolve_google_urls_pointwise (urls : list string) :
  resolve_urls urls = map resolve_single urls
  /\ length (resolve_urls urls) = length urls
  /\ (forall url netloc query target,
        urlparse url = Some (netloc, query) ->
        PyStr.contains "news.google.com" netloc = true ->
        parse_qs_url query = Some target ->
        PyStr.is_empty target = false ->
        resolve_single url = target)
  /\ (Forall unresolvable urls -> resolve_urls urls = urls).
Proof.
  split; [apply resolve_google_urls_map|].
  split; [rewrite resolve_google_urls_map; apply length_map|].
  split.
  - intros url netloc query target Hparse Hgoogle Hquery Hnonempty.
    unfold NewsAggregator._resolve_single_url.
    rewrite Hparse. cbn [mbind option_bind]. rewrite Hgoogle, Hquery, Hnonempty.
    reflexivity.
  - intros Hall. rewrite resolve_google_urls_map.
    induction Hall as [|url rest Hurl _ IH]; [reflexivity|].
    cbn [map]. rewrite IH, (resolve_single_unresolvable url Hurl). reflexivity.
Qed.

(** What [_process_rss_entry] returns when it returns an article. *)
Definition processed_from (entry : NewsAggregator.rss_entry) (article : Article.t) : Prop :=
  Article.validate article = true
  /\ NewsAggregator.entry_title entry = Some (Article.title article)
  /\ (resolve_single <$> NewsAggregator.entry_link entry) = Some (Article.url article)
  /\ Article.published article = default "" (NewsAggregator.entry_published entry)
  /\ ((Article.source_type article = "Full Article"
       /\ Article.content article = extract (Article.url article)
       /\ min_content_length <= String.length (Article.content article))
      \/ (Article.source_type article = "Headline Only"
          /\ Article.content article = Article.title article
          /\ (extract (Article.url article) = ""
              \/ String.length (extract (Article.url article)) < min_content_length))).

Lemma process_rss_entry_some (entry : NewsAggregator.rss_entry) (article : Article.t) :
  process entry = Some article -> processed_from entry article.
Proof.
  unfold NewsAggregator._process_rss_entry.
  destruct (NewsAggregator.entry_link entry) as [link|] eqn:Hlink;
    cbn [mbind option_bind]; [|discriminate].
  rewrite resolve_google_urls_map. cbn [map lookup list_lookup mbind option_bind].
  set (real_url := resolve_single link).
  destruct (NewsAggregator.entry_title entry) as [title|] eqn:Htitle.
  2:{ destruct (negb _ && _); cbn [mbind option_bind]; discriminate. }
  destruct (negb (PyStr.is_empty (extract real_url))
            && (min_content_length <=? String.length (extract real_url))) eqn:Hfull;
    cbn [mbind option_bind].
  - destruct (Article.validate _) eqn:Hvalid; [|discriminate].
    intros Heq. injection Heq as <-. unfold processed_from.
    cbn [Article.title Article.url Article.published Article.content Article.source_type].
    apply andb_true_iff in Hfull. destruct Hfull as [_ Hlen]. apply Nat.leb_le in Hlen.
    rewrite Hlink, Htitle.
    split; [exact Hvalid|]. split; [reflexivity|]. split; [reflexivity|].
    split; [reflexivity|].
    left. split; [reflexivity|]. split; [reflexivity | exact Hlen].
  - destruct (Article.validate _) eqn:Hvalid; [|discriminate].
    intros Heq. injection Heq as <-. unfold processed_from.
    cbn [Article.title Article.url Article.published Article.content Article.source_type].
    rewrite Hlink, Htitle.
    split; [exact Hvalid|]. split; [reflexivity|]. split; [reflexivity|].
    split; [reflexivity|].
    right. split; [reflexivity|]. split; [reflexivity|].
    apply andb_false_iff in Hfull. destruct Hfull as [Hempty | Hshort].
    + left. apply negb_false_iff in Hempty.
      destruct (extract real_url); [reflexivity | discriminate].
    + right. apply Nat.leb_gt in Hshort. exact Hshort.
Qed.

Lemma process_rss_entry_incomplete (entry : NewsAggregator.rss_entry) :
  NewsAggregator.entry_link entry = None \/ NewsAggregator.entry_title entry = None ->
  process entry = None.
Proof.
  unfold NewsAggregator._process_rss_entry.
  intros [Hlink | Htitle].
  - rewrite Hlink. reflexivity.
  - rewrite Htitle. destruct (NewsAggregator.entry_link entry); cbn [mbind option_bind];
      [|reflexivity].
    rewrite resolve_google_urls_map. cbn [map lookup list_lookup mbind option_bind].
    destruct (negb _ && _); reflexivity.
Qed.

(** X13: an article that [_process_rss_entry] returns passes
    [Article.validate], carries the title and the publication date of the
    entry and the resolved link, and is either a Full Article whose content
    is the extracted text, of at least [min_content_length] characters, or
    Headline Only with the title as its content, the extracted text being
    empty or too short; an entry without link or without title gives no
    article. *)
Theorem process_rss_entry_result (entry : NewsAggregator.rss_entry) :
  (forall article, process entry = Some article -> processed_from entry article)
  /\ (NewsAggregator.entry_link entry = None \/ NewsAggregator.entry_title entry = None ->
      process entry = None).
Proof.
  split; [apply process_rss_entry_some | apply process_rss_entry_incomplete].
Qed.

(* The pool *)

Lemma omap_process_validates (entries : list NewsAggregator.rss_entry) :
  Forall (fun a => Article.validate a = true) (omap process entries).
Proof.
  apply Forall_forall. intros a Ha.
  apply list_elem_of_omap in Ha as (entry & _ & Hentry).
  exact (proj1 (process_rss_entry_some entry a Hentry)).
Qed.

Lemma length_omap_le {A B : Type} (f : A -> option B) (xs : list A) :
  length (omap f xs) <= length xs.
Proof.
  induction xs as [|x rest IH]; cbn [omap list_omap length]; [lia|].
  destruct (f x); cbn [length]; lia.
Qed.

(** The completed entries, in the order of completion, account for the
    collected articles, and no entry is lost or processed twice. *)
Definition pool_accounts (raw : list NewsAggregator.rss_entry) (s : NewsAggregator.pool)
    : Prop :=
  exists done,
    NewsAggregator.articles s = omap process done
    /\ NewsAggregator.queue s ++ NewsAggregator.running s ++ done ≡ₚ raw.

Lemma pool_step_accounts (raw : list NewsAggregator.rss_entry) (s s' : NewsAggregator.pool) :
  pool_step s s' -> pool_accounts raw s -> pool_accounts raw s'.
Proof.
  intros Hstep (done & Harts & Hperm).
  destruct Hstep as [entry queue running articles Hfree | queue before entry after articles];
    cbn [NewsAggregator.queue NewsAggregator.running NewsAggregator.articles] in *.
  - exists done.
    cbn [NewsAggregator.queue NewsAggregator.running NewsAggregator.articles].
    split; [exact Harts|].
    rewrite <- Hperm. cbn [app].
    rewrite <- (app_assoc running [entry] done). cbn [app].
    rewrite <- Permutation_middle, <- Permutation_middle. reflexivity.
  - exists (done ++ [entry]).
    cbn [NewsAggregator.queue NewsAggregator.running NewsAggregator.articles].
    split.
    + rewrite omap_app. cbn [omap list_omap]. rewrite Harts.
      destruct (process entry); [reflexivity | rewrite app_nil_r; reflexivity].
    + rewrite <- Hperm. apply Permutation_app_head.
      rewrite <- !app_assoc. apply Permutation_app_head. cbn [app].
      rewrite app_assoc, (Permutation_app_comm (after ++ done) [entry]). reflexivity.
Qed.

Lemma fetch_articles_accounts (queries : list string) (result : list Article.t) :
  fetch_articles queries result -> result ≡ₚ omap process (gather queries).2.
Proof.
  unfold NewsAggregator.fetch_articles. intros [_ Hreach].
  assert (Hinv : pool_accounts (gather queries).2 (NewsAggregator.mk_pool [] [] result)).
  { revert Hreach. generalize (NewsAggregator.mk_pool [] [] result). intros s Hreach.
    revert s Hreach. apply (rtc_ind_r (pool_accounts (gather queries).2)).
    - exists []. unfold NewsAggregator.pool_init.
      cbn [NewsAggregator.queue NewsAggregator.running NewsAggregator.articles].
      rewrite !app_nil_r. split; reflexivity.
    - intros y z _ Hstep Hy. eapply pool_step_accounts; eassumption. }
  destruct Hinv as (done & Harts & Hperm).
  cbn [NewsAggregator.queue NewsAggregator.running NewsAggregator.articles app] in *.
  rewrite Harts, Hperm. reflexivity.
Qed.

Lemma gather_entries_length (entries : list NewsAggregator.rss_entry) :
  forall st, length (NewsAggregator.gather_entries st entries).2
             <= length st.2 + length entries.
Proof.
  induction entries as [|entry rest IH]; intros st; cbn [NewsAggregator.gather_entries length];
    [lia|].
  destruct (NewsAggregator.entry_link entry); [|lia].
  case_bool_decide.
  - specialize (IH st). lia.
  - specialize (IH ({[s]} ∪ st.1, st.2 ++ [entry])). cbn [snd] in IH.
    rewrite length_app in IH. cbn [length] in IH. lia.
Qed.

Lemma gather_length (queries : list string) :
  length (gather queries).2 <= length queries * articles_per_query.
Proof.
  unfold NewsAggregator.gather.
  assert (Hgen : forall st,
            length (fold_left
                      (NewsAggregator.gather_query articles_per_query quote feedparser_parse)
                      queries st).2
            <= length st.2 + length queries * articles_per_query).
  { induction queries as [|q rest IH]; intros st; cbn [fold_left length]; [lia|].
    etransitivity; [apply IH|].
    unfold NewsAggregator.gather_query.
    destruct (feedparser_parse _) as [entries|]; [|lia].
    pose proof (gather_entries_length (take articles_per_query entries) st) as Hlen.
    pose proof (firstn_le_length articles_per_query entries) as Htake. lia. }
  specialize (Hgen (∅, [])). cbn [snd length] in Hgen. lia.
Qed.

(** X14: whatever the order in which the workers complete, the list
    [fetch_articles] returns is a permutation of the articles that
    [_process_rss_entry] gives for the gathered entries: the schedule
    decides the order only.  So every returned article validates, and at
    most [articles_per_query] articles are returned per query. *)
Theorem fetch_articles_up_to_order (queries : list string) (result : list Article.t) :
  fetch_articles queries result ->
  result ≡ₚ omap process (gather queries).2
  /\ Forall (fun a => Article.validate a = true) result
  /\ length result <= length queries * articles_per_query.
Proof.
  intros Hfetch. pose proof (fetch_articles_accounts queries result Hfetch) as Hperm.
  split; [exact Hperm|]. split.
  - rewrite Hperm. apply omap_process_validates.
  - rewrite Hperm. etransitivity; [apply length_omap_le | apply gather_length].
Qed.

Lemma gather_nothing (queries : list string) :
  Forall (fun query =>
            feedparser_parse ("https://news.google.com/rss/search?q=" +:+ quote query) = None
            \/ feedparser_parse ("https://news.google.com/rss/search?q=" +:+ quote query)
               = Some [])
         queries ->
  gather queries = (∅, []).
Proof.
  intros Hfeeds. unfold NewsAggregator.gather.
  assert (Hgen : forall st,
            fold_left (NewsAggregator.gather_query articles_per_query quote feedparser_parse)
              queries st = st).
  { induction Hfeeds as [|query rest Hquery _ IH]; intros st; [reflexivity|].
    cbn [fold_left].
    assert (Hstep : NewsAggregator.gather_query articles_per_query quote feedparser_parse
                      st query = st).
    { unfold NewsAggregator.gather_query.
      destruct Hquery as [-> | ->]; [reflexivity|].
      rewrite take_nil. reflexivity. }
    rewrite Hstep. apply IH. }
  apply Hgen.
Qed.

(** X15: when the feed of every query raises or is empty, [fetch_articles]
    with at least one worker does not raise: it returns, and the empty list
    is all it can return.  With no worker it raises (the ValueError of the
    executor) and returns nothing, whatever the feeds gave. *)
Theorem fetch_articles_without_feeds (queries : list string) :
  Forall (fun query =>
            feedparser_parse ("https://news.google.com/rss/search?q=" +:+ quote query) = None
            \/ feedparser_parse ("https://news.google.com/rss/search?q=" +:+ quote query)
               = Some [])
         queries ->
  (0 < max_workers ->
   ~ NewsAggregator.fetch_articles_raises max_workers
   /\ fetch_articles queries []
   /\ (forall result, fetch_articles queries result -> result = []))
  /\ (max_workers = 0 ->
      NewsAggregator.fetch_articles_raises max_workers
      /\ (forall result, ~ fetch_articles queries result)).
Proof.
  intros Hfeeds. pose proof (gather_nothing queries Hfeeds) as Hgather. split.
  - intros Hworkers. split; [|split].
    + unfold NewsAggregator.fetch_articles_raises. lia.
    + unfold NewsAggregator.fetch_articles, NewsAggregator.pool_init.
      rewrite Hgather. split; [exact Hworkers | apply rtc_refl].
    + intros result Hfetch. apply fetch_articles_accounts in Hfetch.
      rewrite Hgather in Hfetch. cbn [snd omap list_omap] in Hfetch.
      apply Permutation_nil_r in Hfetch. exact Hfetch.
  - intros Hnone. split; [exact Hnone|].
    intros result [Hworkers _]. lia.
Qed.

End Workers.

Lemma resolve_google_urls_pointwise_witness :
  NewsAggregator._resolve_single_url
    (fun _ => Some ("news.google.com", "url=https://example.com/gold"))
    (fun _ => Some "https://example.com/gold") (fun _ => None)
    "https://news.google.com/rss/articles?url=https://example.com/gold"
  = "https://example.com/gold"
  /\ NewsAggregator.resolve_google_urls (fun _ => None) (fun _ => None) (fun _ => None)
       ["https://news.google.com/a"; "https://news.google.com/b"]
     = ["https://news.google.com/a"; "https://news.google.com/b"].
Proof.
  split.
  - exact (proj1 (proj2 (proj2 (resolve_google_urls_pointwise
                                  (fun _ => Some ("news.google.com",
                                                  "url=https://example.com/gold"))
                                  (fun _ => Some "https://example.com/gold")
                                  (fun _ => None) [])))
             "https://news.google.com/rss/articles?url=https://example.com/gold"
             "news.google.com" "url=https://example.com/gold" "https://example.com/gold"
             eq_refl eq_refl eq_refl eq_refl).
  - assert (Hall : Forall (unresolvable (fun _ => None) (fun _ => None) (fun _ => None))
                     ["https://news.google.com/a"; "https://news.google.com/b"]).
    { repeat constructor. }
    exact (proj2 (proj2 (proj2 (resolve_google_urls_pointwise
                                  (fun _ => None) (fun _ => None) (fun _ => None)
                                  ["https://news.google.com/a"; "https://news.google.com/b"])))
             Hall).
Defined.

(** The article a worker makes of a sample entry when no page can be
    fetched. *)
Definition sample_headline_only (title link : string) : Article.t :=
  Article.mk title link "Mon, 01 Jan 2024 12:00:00 GMT" title "Headline Only".

Lemma process_rss_entry_result_witness :
  processed_from 100 (fun _ => None) (fun _ => None) (fun _ => None) (fun _ => None)
    (fun _ => None) (fun _ => None)
    (sample_entry "Gold hits record" "https://news.google.com/a")
    (sample_headline_only "Gold hits record" "https://news.google.com/a")
  /\ NewsAggregator._process_rss_entry 100 (fun _ => None) (fun _ => None) (fun _ => None)
       (fun _ => None) (fun _ => None) (fun _ => None)
       (NewsAggregator.mk_entry (Some "Gold hits record") None None) = None.
Proof.
  split.
  - assert (Hsome : NewsAggregator._process_rss_entry 100 (fun _ => None) (fun _ => None)
                      (fun _ => None) (fun _ => None) (fun _ => None) (fun _ => None)
                      (sample_entry "Gold hits record" "https://news.google.com/a")
                    = Some (sample_headline_only "Gold hits record"
                              "https://news.google.com/a")).
    { vm_compute. reflexivity. }
    exact (proj1 (process_rss_entry_result 100 (fun _ => None) (fun _ => None)
                    (fun _ => None) (fun _ => None) (fun _ => None) (fun _ => None)
                    (sample_entry "Gold hits record" "https://news.google.com/a"))
             _ Hsome).
  - exact (proj2 (process_rss_entry_result 100 (fun _ => None) (fun _ => None)
                    (fun _ => None) (fun _ => None) (fun _ => None) (fun _ => None)
                    (NewsAggregator.mk_entry (Some "Gold hits record") None None))
             (or_introl eq_refl)).
Defined.

Lemma fetch_articles_up_to_order_witness :
  Forall (fun a => Article.validate a = true)
    [sample_headline_only "Gold hits record" "https://news.google.com/a"].
Proof.
  assert (Hfetch :
    NewsAggregator.fetch_articles 5 5 100 (fun q => q)
      (fun _ => Some [sample_entry "Gold hits record" "https://news.google.com/a"])
      (fun _ => None) (fun _ => None) (fun _ => None) (fun _ => None) (fun _ => None)
      (fun _ => None) ["gold"]
      [sample_headline_only "Gold hits record" "https://news.google.com/a"]).
  { unfold NewsAggregator.fetch_articles. split; [lia|].
    eapply rtc_l.
    { exact (NewsAggregator.pool_start 5 100 _ _ _ _ _ _
               (sample_entry "Gold hits record" "https://news.google.com/a") [] [] []
               ltac:(cbn; lia)). }
    eapply rtc_l; [|apply rtc_refl].
    exact (NewsAggregator.pool_complete 5 100 _ _ _ _ _ _ [] []
             (sample_entry "Gold hits record" "https://news.google.com/a") [] []). }
  exact (proj1 (proj2 (fetch_articles_up_to_order 5 5 100 (fun q => q)
                         (fun _ => Some [sample_entry "Gold hits record"
                                           "https://news.google.com/a"])
                         (fun _ => None) (fun _ => None) (fun _ => None) (fun _ => None)
                         (fun _ => None) (fun _ => None) _ _ Hfetch))).
Defined.

Lemma fetch_articles_without_feeds_witness :
  NewsAggregator.fetch_articles 5 5 100 (fun q => q) (fun _ => None)
    (fun _ => None) (fun _ => None) (fun _ => None) (fun _ => None) (fun _ => None)
    (fun _ => None) ["gold"; "gold price"] []
  /\ NewsAggregator.fetch_articles_raises 0.
Proof.
  assert (Hfeeds :
    Forall (fun query : string =>
              (fun _ : string => @None (list NewsAggregator.rss_entry))
                ("https://news.google.com/rss/search?q=" +:+ (fun q : string => q) query)
              = None
              \/ (fun _ : string => @None (list NewsAggregator.rss_entry))
                   ("https://news.google.com/rss/search?q=" +:+ (fun q : string => q) query)
                 = Some [])
           ["gold"; "gold price"]).
  { repeat constructor. }
  assert (Hworkers : 0 < 5) by lia.
  split.
  - exact (proj1 (proj2 (proj1 (fetch_articles_without_feeds 5 5 100 (fun q => q)
                                  (fun _ => None) (fun _ => None) (fun _ => None)
                                  (fun _ => None) (fun _ => None) (fun _ => None)
                                  (fun _ => None) ["gold"; "gold price"] Hfeeds)
                           Hworkers))).
  - exact (proj1 (proj2 (fetch_articles_without_feeds 5 0 100 (fun q => q)
                           (fun _ => None) (fun _ => None) (fun _ => None)
                           (fun _ => None) (fun _ => None) (fun _ => None)
                           (fun _ => None) ["gold"; "gold price"] Hfeeds)
                    eq_refl)).
Defined.

(* ------------------------------------------------------------------ *)
(** ** The queries of a category *)

Section Queries.

Lemma prefix_append (q suffix : string) : String.prefix q (q +:+ suffix) = true.
Proof.
  induction q as [|c q IH].
  - rewrite append_empty_l. destruct suffix; reflexivity.
  - rewrite append_cons. cbn [String.prefix].
    destruct (ascii_dec c c) as [_|Hne]; [exact IH | contradiction].
Qed.

Lemma prefix_refl (q : string) : String.prefix q q = true.
Proof.
  induction q as [|c q IH]; cbn [String.prefix]; [reflexivity|].
  destruct (ascii_dec c c) as [_|Hne]; [exact IH | contradiction].
Qed.

(** The categories with queries of their own. *)
Definition specific_category (category : string) : bool :=
  PyStr.in_list category ["stock"; "crypto"; "commodity"; "real_estate"; "exchange"].

Lemma custom_queries_shape (category q : string) :
  PyStr.is_empty q = false ->
  let qs := NewsAggregator.get_queries_for_category category (Some q) in
  head qs = Some q
  /\ Forall (fun query => PyStr.startswith query q = true) qs
  /\ length qs = (if specific_category category then 3 else 1).
Proof.
  intros Hq. unfold NewsAggregator.get_queries_for_category, specific_category, PyStr.in_list.
  rewrite Hq. cbn [negb default existsb]. unfold PyStr.startswith.
  destruct (String.eqb category "stock");
    [cbn; repeat split; repeat constructor;
     first [apply prefix_refl | apply prefix_append]|].
  destruct (String.eqb category "crypto");
    [cbn; repeat split; repeat constructor;
     first [apply prefix_refl | apply prefix_append]|].
  destruct (String.eqb category "commodity");
    [cbn; repeat split; repeat constructor;
     first [apply prefix_refl | apply prefix_append]|].
  destruct (String.eqb category "real_estate");
    [cbn; repeat split; repeat constructor;
     first [apply prefix_refl | apply prefix_append]|].
  destruct (String.eqb category "exchange");
    cbn; repeat split; repeat constructor;
    first [apply prefix_refl | apply prefix_append].
Qed.

Lemma default_queries_shape (category : string) (custom_query : option string) :
  custom_query = None \/ custom_query = Some "" ->
  let qs := NewsAggregator.get_queries_for_category category custom_query in
  qs = default ["financial news"; "market news"; "economic news"]
         (PyDict.get category NewsAggregator.category_queries)
  /\ length qs = 3.
Proof.
  intros Hcustom. unfold NewsAggregator.get_queries_for_category.
  assert (Huse : match custom_query with
                 | Some q => negb (PyStr.is_empty q)
                 | None => false
                 end = false) by (destruct Hcustom as [-> | ->]; reflexivity).
  rewrite Huse. cbn zeta. split; [reflexivity|].
  unfold NewsAggregator.category_queries. cbn [PyDict.get].
  repeat (destruct (String.eqb category _); [reflexivity|]). reflexivity.
Qed.

(** X16: [get_queries_for_category] returns one to three queries.  With a
    custom query that is not empty, the first is the custom query, every
    query starts with it, and there are three for the categories stock,
    crypto, commodity, real_estate and exchange and one for any other;
    without one (left out or empty), the three default queries of the
    category are returned, those of "all" for a category that has none. *)
Theorem get_queries_for_category_shape (category : string) (custom_query : option string) :
  let qs := NewsAggregator.get_queries_for_category category custom_query in
  1 <= length qs <= 3
  /\ (forall q, custom_query = Some q -> PyStr.is_empty q = false ->
        head qs = Some q
        /\ Forall (fun query => PyStr.startswith query q = true) qs
        /\ length qs = (if specific_category category then 3 else 1))
  /\ (custom_query = None \/ custom_query = Some "" ->
      qs = default ["financial news"; "market news"; "economic news"]
             (PyDict.get category NewsAggregator.category_queries)
      /\ length qs = 3).
Proof.
  cbv zeta. split; [|split].
  - destruct custom_query as [[|c q]|].
    + rewrite (proj2 (default_queries_shape category (Some "") (or_intror eq_refl))). lia.
    + destruct (custom_queries_shape category (String c q) eq_refl) as (_ & _ & Hlen).
      cbv zeta in Hlen. rewrite Hlen. destruct (specific_category category); lia.
    + rewrite (proj2 (default_queries_shape category None (or_introl eq_refl))). lia.
  - intros q -> Hq. apply custom_queries_shape. exact Hq.
  - apply default_queries_shape.
Qed.

Lemma lower_char_idempotent (c : ascii) :
  PyStr.lower_char (PyStr.lower_char c) = PyStr.lower_char c.
Proof. destruct c as [[] [] [] [] [] [] [] []]; vm_compute; reflexivity. Qed.

Lemma lower_idempotent (s : string) : PyStr.lower (PyStr.lower s) = PyStr.lower s.
Proof.
  induction s as [|c s IH]; cbn [PyStr.lower]; [reflexivity|].
  rewrite lower_char_idempotent, IH. reflexivity.
Qed.

(** X17: [categorize_financial_instrument] always answers one of the six
    categories that [get_queries_for_category] has default queries for, so
    the queries of the category it answers are three with or without the
    query itself, except that a query of category "all" is searched alone;
    and it does not depend on the case of the query. *)
Theorem categorize_financial_instrument_total (query : string) :
  let category := App.categorize_financial_instrument query in
  is_Some (PyDict.get category NewsAggregator.category_queries)
  /\ length (NewsAggregator.get_queries_for_category category None) = 3
  /\ (PyStr.is_empty query = false ->
      length (NewsAggregator.get_queries_for_category category (Some query))
      = (if String.eqb category "all" then 1 else 3))
  /\ App.categorize_financial_instrument (PyStr.lower query) = category.
Proof.
  cbv zeta. split; [|split; [|split]].
  - unfold App.categorize_financial_instrument.
    repeat (destruct (App.any_keyword_in _ _); [eexists; reflexivity|]).
    eexists; reflexivity.
  - apply (default_queries_shape _ None). left. reflexivity.
  - intros Hq. destruct (custom_queries_shape
                           (App.categorize_financial_instrument query) query Hq)
      as (_ & _ & Hlen).
    cbv zeta in Hlen. rewrite Hlen.
    unfold App.categorize_financial_instrument.
    repeat (destruct (App.any_keyword_in _ _); [reflexivity|]). reflexivity.
  - unfold App.categorize_financial_instrument. rewrite lower_idempotent. reflexivity.
Qed.

End Queries.

Lemma get_queries_for_category_shape_witness :
  head (NewsAggregator.get_queries_for_category "commodity" (Some "gold")) = Some "gold"
  /\ length (NewsAggregator.get_queries_for_category "bonds" (Some "")) = 3.
Proof.
  split.
  - exact (proj1 (proj1 (proj2 (get_queries_for_category_shape "commodity" (Some "gold")))
                    "gold" eq_refl eq_refl)).
  - exact (proj2 (proj2 (proj2 (get_queries_for_category_shape "bonds" (Some "")))
                    (or_intror eq_refl))).
Defined.

Lemma categorize_financial_instrument_total_witness :
  length (NewsAggregator.get_queries_for_category
            (App.categorize_financial_instrument "Gold futures") (Some "Gold futures"))
  = (if String.eqb (App.categorize_financial_instrument "Gold futures") "all"
     then 1 else 3).
Proof.
  exact (proj1 (proj2 (proj2 (categorize_financial_instrument_total "Gold futures")))
           eq_refl).
Defined.

(* ================================================================== *)
(** * Further properties: the analysis request *)

Section AnalysisRequest.
Local Open Scope Q_scope.

Variable articles_per_query : nat.
Variable max_workers : nat.
Variable min_content_length : nat.
Variable max_text_length : nat.
Variable quote : string -> string.
Variable feedparser_parse : string -> option (list NewsAggregator.rss_entry).
Variable urlparse : string -> option (string * string).
Variable parse_qs_url : string -> option string.
Variable session_head : string -> option string.
Variable trafilatura_fetch_url : string -> option (option string).
Variable trafilatura_extract : string -> option (option string).
Variable paragraph_text : string -> option string.
Variable vader_compound : string -> option Q.
Variable finbert_softmax : string -> nat -> option (list Q).

Local Abbreviation fetch_articles :=
  (NewsAggregator.fetch_articles articles_per_query max_workers min_content_length quote
     feedparser_parse urlparse parse_qs_url session_head trafilatura_fetch_url
     trafilatura_extract paragraph_text).
Local Abbreviation start_analysis :=
  (App.start_analysis (R:=Q) articles_per_query max_workers min_content_length
     max_text_length quote feedparser_parse urlparse parse_qs_url session_head
     trafilatura_fetch_url trafilatura_extract paragraph_text vader_compound
     finbert_softmax).

(** The contracts of the two classifiers, on every text. *)
Definition classifiers_in_contract : Prop :=
  (forall text s, vader_compound text = Some s -> -1 <= s <= 1)
  /\ (forall text n row, finbert_softmax text n = Some row -> softmax_row row).

Lemma queries_at_most_three (category : string) (custom_query : option string) :
  (length (NewsAggregator.get_queries_for_category category custom_query) <= 3)%nat.
Proof.
  destruct custom_query as [[|c q]|].
  - rewrite (proj2 (default_queries_shape category (Some "") (or_intror eq_refl))). lia.
  - destruct (custom_queries_shape category (String c q) eq_refl) as (_ & _ & Hlen).
    cbv zeta in Hlen. rewrite Hlen. destruct (specific_category category); lia.
  - rewrite (proj2 (default_queries_shape category None (or_introl eq_refl))). lia.
Qed.

(** What the handler makes of a non-empty list of fetched articles. *)
Lemma finish_analysis_completes (search_query category : string)
    (start_time end_time : Q) (now : datetime.t) (articles : list Article.t) :
  classifiers_in_contract ->
  start_time <= end_time ->
  Forall (fun a => Article.validate a = true) articles ->
  (0 < length articles)%nat ->
  exists report,
    App.finish_analysis max_text_length vader_compound finbert_softmax search_query category
      start_time end_time now articles = App.Completed report
    /\ AnalysisReport.validate report = true
    /\ AnalysisReport.query report = search_query
    /\ AnalysisReport.category report = category
    /\ (1 <= AnalysisReport.total_articles report <= Z.of_nat (length articles))%Z
    /\ map AnalyzedArticle.article (AnalysisReport.articles report)
       = NewsAggregator.deduplicate_articles articles.
Proof.
  intros [Hvader Hfinbert] Htime Hvalid Hlen.
  destruct articles as [|a rest]; [cbn in Hlen; lia|].
  unfold App.finish_analysis. cbv zeta.
  set (unique := NewsAggregator.deduplicate_articles (a :: rest)).
  destruct (deduplicate_articles_covers (a :: rest)) as (Hsub & _ & Hhead).
  fold unique in Hsub, Hhead.
  assert (Hunique : Forall (fun a => Article.validate a = true) unique).
  { apply Forall_forall. intros x Hx.
    rewrite Forall_forall in Hvalid. apply Hvalid.
    eapply elem_of_sublist; eassumption. }
  assert (Hcontracts : classifiers_ok vader_compound finbert_softmax max_text_length unique).
  { apply Forall_forall. intros x _. split; [apply Hvader | apply Hfinbert]. }
  pose proof (batch_validates_aux vader_compound finbert_softmax max_text_length unique
                Hunique Hcontracts) as Hanalyzed.
  set (analyzed := SentimentEngine.analyze_articles_batch vader_compound finbert_softmax
                     max_text_length unique) in *.
  assert (Hduration : 0 <= f_sub end_time start_time) by (q_ops; lra).
  rewrite (created_report_validates_aux now search_query category analyzed _
             Hanalyzed Hduration).
  cbn [negb]. eexists. split; [reflexivity|]. split.
  { apply created_report_validates_aux; assumption. }
  split; [reflexivity|]. split; [reflexivity|].
  assert (Hcount : length analyzed = length unique).
  { subst analyzed. rewrite analyze_articles_batch_map. apply length_map. }
  split.
  - change (AnalysisReport.total_articles
              (AnalysisReport.create_from_articles now search_query category analyzed
                 (f_sub end_time start_time)))
      with (Z.of_nat (length analyzed)).
    rewrite Hcount. pose proof (sublist_length _ _ Hsub) as Hle.
    destruct unique as [|u us]; [discriminate Hhead|]. cbn [length] in *. lia.
  - change (AnalysisReport.articles
              (AnalysisReport.create_from_articles now search_query category analyzed
                 (f_sub end_time start_time)))
      with analyzed.
    subst analyzed. rewrite analyze_articles_batch_map, map_map.
    unfold SentimentEngine.analyze_article. cbn [AnalyzedArticle.article]. apply map_id.
Qed.

(** X18: the analysis request, end to end, for a body whose fields, if it
    is an object, are strings.  The handler answers "analysis failed", and
    nothing else, when the body cannot be read, when it is a truthy value
    that is not an object, or when the pool has no worker.  Otherwise (the
    body is falsy or an object; the defaults "gold" and "commodity" stand
    for a field that is not there), when the classifiers keep their
    contracts and the second reading of the clock is not before the first,
    the handler answers, and whatever the order in which the workers
    complete it answers either that no article was found, or with a report
    that passes its validation, is built on the deduplicated articles, and
    counts at least one and at most three times [articles_per_query]
    articles: neither "validation failed" nor "analysis failed" is given. *)
Theorem start_analysis_completes (data : App.request_body)
    (start_time end_time : Q) (now : datetime.t) :
  classifiers_in_contract ->
  start_time <= end_time ->
  (forall key fallback,
     App.request_field data key fallback = None
     <-> data = App.Unreadable \/ data = App.NotAnObject true)
  /\ (forall key fallback,
        data = App.NotAnObject false \/ data = App.Object [] ->
        App.request_field data key fallback = Some fallback)
  /\ (data = App.Unreadable \/ data = App.NotAnObject true \/ max_workers = 0%nat ->
      forall answer,
        start_analysis data start_time end_time now answer <-> answer = App.AnalysisFailed)
  /\ (forall search_query category,
        App.request_field data "query" "gold" = Some search_query ->
        App.request_field data "category" "commodity" = Some category ->
        (0 < max_workers)%nat ->
        (exists answer, start_analysis data start_time end_time now answer)
        /\ forall answer,
             start_analysis data start_time end_time now answer ->
             answer = App.NoArticles search_query category
             \/ exists report,
                  answer = App.Completed report
                  /\ AnalysisReport.validate report = true
                  /\ AnalysisReport.query report = search_query
                  /\ AnalysisReport.category report = category
                  /\ (1 <= AnalysisReport.total_articles report
                      <= 3 * Z.of_nat articles_per_query)%Z
                  /\ NoDup (urls_of (map AnalyzedArticle.article
                                       (AnalysisReport.articles report)))).
Proof.
  intros Hcontract Htime.
  assert (Hnone : forall key fallback,
            App.request_field data key fallback = None
            <-> data = App.Unreadable \/ data = App.NotAnObject true).
  { intros key fallback. destruct data as [|[|]|[|field fields]]; cbn; split;
      try discriminate; try (intros [H|H]; discriminate); auto. }
  split; [exact Hnone|]. split; [|split].
  - intros key fallback [-> | ->]; reflexivity.
  - intros Hrefused answer. unfold App.start_analysis.
    destruct Hrefused as [-> | [-> | Hworkers]]; [reflexivity | reflexivity |].
    destruct data as [|truthy|fields]; [reflexivity| |].
    + destruct truthy; cbn [App.request_field]; [reflexivity|].
      unfold NewsAggregator.fetch_articles_raises, NewsAggregator.fetch_articles. split.
      * intros [[_ ->] | (articles & [Hpos _] & _)]; [reflexivity | lia].
      * intros ->. left. split; [exact Hworkers | reflexivity].
    + destruct (App.request_field (App.Object fields) "query" "gold") as [search_query|];
        [|reflexivity].
      destruct (App.request_field (App.Object fields) "category" "commodity") as [category|];
        [|reflexivity].
      unfold NewsAggregator.fetch_articles_raises, NewsAggregator.fetch_articles. split.
      * intros [[_ ->] | (articles & [Hpos _] & _)]; [reflexivity | lia].
      * intros ->. left. split; [exact Hworkers | reflexivity].
  - intros search_query category Hquery Hcategory Hworkers.
    set (queries := NewsAggregator.get_queries_for_category category (Some search_query)).
    assert (Hrun : forall answer,
              start_analysis data start_time end_time now answer
              <-> exists articles,
                    fetch_articles queries articles
                    /\ answer
                       = App.finish_analysis max_text_length vader_compound finbert_softmax
                           search_query category start_time end_time now articles).
    { intros answer. unfold App.start_analysis.
      destruct data as [|truthy|fields]; [discriminate Hquery| |];
        rewrite Hquery, Hcategory; fold queries;
        unfold NewsAggregator.fetch_articles_raises; split;
        try (intros [[Hzero _] | Hrest]; [lia | exact Hrest]);
        intros Hrest; right; exact Hrest. }
    split.
    + destruct (fetch_articles_returns articles_per_query max_workers min_content_length quote
                  feedparser_parse urlparse parse_qs_url session_head trafilatura_fetch_url
                  trafilatura_extract paragraph_text queries Hworkers) as [articles Hfetch].
      eexists. apply Hrun. exists articles. split; [exact Hfetch | reflexivity].
    + intros answer Hanswer. apply Hrun in Hanswer.
      destruct Hanswer as (articles & Hfetch & ->).
      destruct articles as [|a rest]; [left; reflexivity|]. right.
      pose proof (fetch_articles_accounts _ _ _ _ _ _ _ _ _ _ _ _ _ Hfetch) as Hperm.
      assert (Hvalid : Forall (fun a => Article.validate a = true) (a :: rest)).
      { rewrite Hperm. apply omap_process_validates. }
      assert (Hbound : (length (a :: rest) <= 3 * articles_per_query)%nat).
      { rewrite Hperm. etransitivity; [apply length_omap_le|].
        etransitivity; [apply gather_length|].
        pose proof (queries_at_most_three category (Some search_query)) as Hq.
        fold queries in Hq. nia. }
      destruct (finish_analysis_completes search_query category start_time end_time now
                  (a :: rest) Hcontract Htime Hvalid ltac:(cbn; lia))
        as (report & Hanswer & Hreport & Hq & Hc & Hcount & Hunits).
      exists report. split; [exact Hanswer|]. split; [exact Hreport|].
      split; [exact Hq|]. split; [exact Hc|]. split; [lia|].
      rewrite Hunits. apply deduplicate_articles_distinct.
Qed.

End AnalysisRequest.

Lemma start_analysis_completes_witness :
  (exists answer,
     App.start_analysis (R:=Q) 5 5 100 512 (fun q => q) sample_feed
       (fun _ => None) (fun _ => None) (fun _ => None) (fun _ => None) (fun _ => None)
       (fun _ => None) (fun _ => Some (65 # 100)%Q)
       (constant_classifier [5 # 100; 10 # 100; 85 # 100]%Q)
       (App.Object [("query", "gold")]) 10%Q (15 # 1)%Q sample_now answer)
  /\ App.start_analysis (R:=Q) 5 5 100 512 (fun q => q) sample_feed
       (fun _ => None) (fun _ => None) (fun _ => None) (fun _ => None) (fun _ => None)
       (fun _ => None) (fun _ => Some (65 # 100)%Q)
       (constant_classifier [5 # 100; 10 # 100; 85 # 100]%Q)
       (App.NotAnObject true) 10%Q (15 # 1)%Q sample_now App.AnalysisFailed
  /\ App.start_analysis (R:=Q) 5 0 100 512 (fun q => q) sample_feed
       (fun _ => None) (fun _ => None) (fun _ => None) (fun _ => None) (fun _ => None)
       (fun _ => None) (fun _ => Some (65 # 100)%Q)
       (constant_classifier [5 # 100; 10 # 100; 85 # 100]%Q)
       (App.Object [("query", "gold")]) 10%Q (15 # 1)%Q sample_now App.AnalysisFailed
  /\ App.request_field (App.NotAnObject false) "query" "gold" = Some "gold".
Proof.
  assert (Hcontract : classifiers_in_contract (fun _ => Some (65 # 100)%Q)
                        (constant_classifier [5 # 100; 10 # 100; 85 # 100]%Q)).
  { split.
    - intros text s Hs. injection Hs as <-. split; discriminate.
    - intros text n row Hrow. injection Hrow as <-. apply constant_row_is_softmax. }
  assert (Htime : (10 <= 15 # 1)%Q) by discriminate.
  assert (Hworkers : 0 < 5) by lia.
  split; [|split; [|split]].
  - exact (proj1 (proj2 (proj2 (proj2
             (start_analysis_completes 5 5 100 512 (fun q => q) sample_feed
                (fun _ => None) (fun _ => None) (fun _ => None) (fun _ => None)
                (fun _ => None) (fun _ => None) (fun _ => Some (65 # 100)%Q)
                (constant_classifier [5 # 100; 10 # 100; 85 # 100]%Q)
                (App.Object [("query", "gold")]) 10%Q (15 # 1)%Q
                sample_now Hcontract Htime)))
             "gold" "commodity" eq_refl eq_refl Hworkers)).
  - exact (proj2 (proj1 (proj2 (proj2
             (start_analysis_completes 5 5 100 512 (fun q => q) sample_feed
                (fun _ => None) (fun _ => None) (fun _ => None) (fun _ => None)
                (fun _ => None) (fun _ => None) (fun _ => Some (65 # 100)%Q)
                (constant_classifier [5 # 100; 10 # 100; 85 # 100]%Q)
                (App.NotAnObject true) 10%Q (15 # 1)%Q
                sample_now Hcontract Htime)))
             (or_intror (or_introl eq_refl)) App.AnalysisFailed) eq_refl).
  - exact (proj2 (proj1 (proj2 (proj2
             (start_analysis_completes 5 0 100 512 (fun q => q) sample_feed
                (fun _ => None) (fun _ => None) (fun _ => None) (fun _ => None)
                (fun _ => None) (fun _ => None) (fun _ => Some (65 # 100)%Q)
                (constant_classifier [5 # 100; 10 # 100; 85 # 100]%Q)
                (App.Object [("query", "gold")]) 10%Q (15 # 1)%Q
                sample_now Hcontract Htime)))
             (or_intror (or_intror eq_refl)) App.AnalysisFailed) eq_refl).
  - exact (proj1 (proj2
             (start_analysis_completes 5 5 100 512 (fun q => q) sample_feed
                (fun _ => None) (fun _ => None) (fun _ => None) (fun _ => None)
                (fun _ => None) (fun _ => None) (fun _ => Some (65 # 100)%Q)
                (constant_classifier [5 # 100; 10 # 100; 85 # 100]%Q)
                (App.NotAnObject false) 10%Q (15 # 1)%Q
                sample_now Hcontract Htime))
             "query" "gold" (or_introl eq_refl)).
Defined.

(* ================================================================== *)
(** * Further properties: the derived metrics *)

Section DerivedMetricsProperties.
Import FinancialDataService.
Local Open Scope Q_scope.

Lemma round_half_even_cases (x : Q) :
  round_half_even x = Qfloor x \/ round_half_even x = (Qfloor x + 1)%Z.
Proof.
  unfold round_half_even. cbv zeta.
  destruct (Qltb _ _); [left; reflexivity|].
  destruct (Qltb _ _); [right; reflexivity|].
  destruct (Z.even _); [left | right]; reflexivity.
Qed.

Lemma round_half_even_monotone (x y : Q) :
  x <= y -> (round_half_even x <= round_half_even y)%Z.
Proof.
  intros Hxy. pose proof (Qfloor_resp_le _ _ Hxy) as Hfloor.
  destruct (Z.eq_dec (Qfloor x) (Qfloor y)) as [Heq | Hne].
  - unfold round_half_even. cbv zeta. rewrite Heq.
    assert (Hrest : x - inject_Z (Qfloor y) <= y - inject_Z (Qfloor y)) by lra.
    destruct (Qltb (x - inject_Z (Qfloor y)) (1 # 2)) eqn:Hx1.
    { destruct (Qltb (y - inject_Z (Qfloor y)) (1 # 2)); [lia|].
      destruct (Qltb (1 # 2) (y - inject_Z (Qfloor y))); [lia|].
      destruct (Z.even (Qfloor y)); lia. }
    apply Qltb_false in Hx1.
    replace (Qltb (y - inject_Z (Qfloor y)) (1 # 2)) with false
      by (symmetry; apply Qltb_false; lra).
    destruct (Qltb (1 # 2) (x - inject_Z (Qfloor y))) eqn:Hx2.
    { apply Qltb_true in Hx2.
      replace (Qltb (1 # 2) (y - inject_Z (Qfloor y))) with true
        by (symmetry; apply Qltb_true; lra).
      lia. }
    destruct (Qltb (1 # 2) (y - inject_Z (Qfloor y))); [destruct (Z.even _); lia|].
    lia.
  - destruct (round_half_even_cases x) as [-> | ->];
      destruct (round_half_even_cases y) as [-> | ->]; lia.
Qed.

Lemma round3_monotone (x y : Q) : x <= y -> round3 x <= round3 y.
Proof.
  intros Hxy. unfold round3, Qle. cbn [Qnum Qden].
  assert (Hscaled : x * 1000 <= y * 1000) by lra.
  pose proof (round_half_even_monotone _ _ Hscaled). lia.
Qed.

(** The three factors before rounding, as the branches of
    [calculate_derived_metrics] give them. *)
Definition growth_of (pe_ratio : option Q) : Q :=
  growth_score (calculate_derived_metrics
                  (mk_ticker_info "" 0 None pe_ratio None None None None None) 0).

Definition safety_of (market_cap : option Z) : Q :=
  safety_score (calculate_derived_metrics
                  (mk_ticker_info "" 0 market_cap None None None None None None) 0).

Definition hype_of (volume : option Z) (news_count : Z) : Q :=
  hype_score (calculate_derived_metrics
                (mk_ticker_info "" 0 None None None None None None volume) news_count).

(** The scores read one field each. *)
Lemma derived_metrics_fields (ticker_info : TickerInfo) (news_count : Z) :
  let m := calculate_derived_metrics ticker_info news_count in
  growth_score m = growth_of (pe_ratio ticker_info)
  /\ safety_score m = safety_of (market_cap ticker_info)
  /\ hype_score m = hype_of (volume ticker_info) news_count.
Proof. repeat split; reflexivity. Qed.

Ltac closed_q := apply Qle_bool_iff; vm_compute; reflexivity.

Lemma growth_of_range (ratio : option Q) : 2 # 10 <= growth_of ratio <= 95 # 100.
Proof.
  unfold growth_of, calculate_derived_metrics. cbv zeta. cbn [growth_score pe_ratio].
  destruct ratio as [pe|]; [|split; closed_q].
  destruct (negb (Qeq_bool pe 0) && Qltb 0 pe); [|split; closed_q].
  repeat (destruct (Qltb pe _); [split; closed_q|]). split; closed_q.
Qed.

Lemma safety_of_range (capitalisation : option Z) :
  1 # 10 <= safety_of capitalisation <= 1.
Proof.
  unfold safety_of, calculate_derived_metrics. cbv zeta. cbn [safety_score market_cap].
  destruct capitalisation as [cap|]; [|split; closed_q].
  destruct (negb (cap =? 0)%Z && (0 <? cap)%Z); [|split; closed_q].
  repeat (destruct (Qltb _ (inject_Z cap / 1000000000)); [split; closed_q|]).
  split; closed_q.
Qed.

(** [volume_factor] *)
Definition volume_factor_of (volume : option Z) : Q :=
  match volume with
  | Some v =>
      if negb (v =? 0)%Z && (0 <? v)%Z then
        if (100000000 <? v)%Z then 7 # 10
        else if (50000000 <? v)%Z then 6 # 10
        else if (10000000 <? v)%Z then 5 # 10
        else if (1000000 <? v)%Z then 4 # 10
        else if (100000 <? v)%Z then 3 # 10
        else 2 # 10
      else 3 # 10
  | None => 3 # 10
  end.

Lemma hype_of_factors (volume : option Z) (news_count : Z) :
  hype_of volume news_count
  = round3 (py_min (volume_factor_of volume + py_min (inject_Z news_count / 20) (3 # 10)) 1).
Proof. reflexivity. Qed.

Lemma volume_factor_range (volume : option Z) : 2 # 10 <= volume_factor_of volume <= 7 # 10.
Proof.
  unfold volume_factor_of. destruct volume as [v|]; [|split; closed_q].
  destruct (negb (v =? 0)%Z && (0 <? v)%Z); [|split; closed_q].
  repeat (destruct (_ <? v)%Z; [split; closed_q|]). split; closed_q.
Qed.

Lemma py_min_spec (a b : Q) : py_min a b <= a /\ py_min a b <= b
                              /\ (py_min a b = a \/ py_min a b = b).
Proof.
  unfold py_min. destruct (Qltb b a) eqn:Hba.
  - apply Qltb_true in Hba. repeat split; [lra | lra | right; reflexivity].
  - apply Qltb_false in Hba. repeat split; [lra | lra | left; reflexivity].
Qed.

Lemma py_min_monotone (a a' b : Q) : a <= a' -> py_min a b <= py_min a' b.
Proof.
  intros Ha. unfold py_min.
  destruct (Qltb b a) eqn:H1; destruct (Qltb b a') eqn:H2;
    try apply Qltb_true in H1; try apply Qltb_false in H1;
    try apply Qltb_true in H2; try apply Qltb_false in H2; lra.
Qed.

Lemma news_factor_nonneg (news_count : Z) :
  (0 <= news_count)%Z -> 0 <= py_min (inject_Z news_count / 20) (3 # 10).
Proof.
  intros Hn.
  assert (Hq : 0 <= inject_Z news_count / 20).
  { apply Qle_shift_div_l; [reflexivity|]. unfold Qle, inject_Z. cbn. lia. }
  destruct (py_min_spec (inject_Z news_count / 20) (3 # 10)) as (_ & _ & [-> | ->]);
    [exact Hq | discriminate].
Qed.

(** X19: the derived metrics are scores.  For every ticker the growth
    score lies in [0.2, 0.95], the safety score in [0.1, 1] and the
    sentiment score is 0.5; the hype score never exceeds 1, and lies in
    [0.2, 1] when the news count is not negative (exact arithmetic). *)
Theorem derived_metrics_in_range (ticker_info : TickerInfo) (news_count : Z) :
  let m := calculate_derived_metrics ticker_info news_count in
  2 # 10 <= growth_score m <= 95 # 100
  /\ 1 # 10 <= safety_score m <= 1
  /\ sentiment_score m == 5 # 10
  /\ hype_score m <= 1
  /\ ((0 <= news_count)%Z -> 2 # 10 <= hype_score m).
Proof.
  destruct (derived_metrics_fields ticker_info news_count) as (Hg & Hs & Hh).
  cbv zeta in *. rewrite Hg, Hs, Hh.
  split; [apply growth_of_range|]. split; [apply safety_of_range|].
  split; [reflexivity|].
  rewrite hype_of_factors.
  set (v := volume_factor_of (volume ticker_info)).
  set (nf := py_min (inject_Z news_count / 20) (3 # 10)).
  pose proof (volume_factor_range (volume ticker_info)) as Hv. fold v in Hv.
  destruct (py_min_spec (inject_Z news_count / 20) (3 # 10)) as (_ & Hnf & _). fold nf in Hnf.
  destruct (py_min_spec (v + nf) 1) as (Hm1 & Hm2 & Hm).
  split.
  - assert (Hup : round3 (py_min (v + nf) 1) <= round3 1) by (apply round3_monotone; lra).
    apply (Qle_trans _ _ _ Hup). closed_q.
  - intros Hn. pose proof (news_factor_nonneg news_count Hn) as Hnn. fold nf in Hnn.
    assert (Hlow : round3 (2 # 10) <= round3 (py_min (v + nf) 1)).
    { apply round3_monotone. destruct Hm as [-> | ->]; [lra | discriminate]. }
    apply (Qle_trans _ (round3 (2 # 10))); [closed_q | exact Hlow].
Qed.

Lemma growth_of_antitone (pe pe' : Q) :
  0 < pe -> pe <= pe' -> growth_of (Some pe') <= growth_of (Some pe).
Proof.
  intros Hpos Hle.
  unfold growth_of, calculate_derived_metrics. cbv zeta. cbn [growth_score pe_ratio].
  assert (Hpe : negb (Qeq_bool pe 0) && Qltb 0 pe = true).
  { apply andb_true_iff. split; [|apply Qltb_true; exact Hpos].
    apply negb_true_iff. destruct (Qeq_bool pe 0) eqn:E; [|reflexivity].
    apply Qeq_bool_iff in E. lra. }
  assert (Hpe' : negb (Qeq_bool pe' 0) && Qltb 0 pe' = true).
  { apply andb_true_iff. split; [|apply Qltb_true; lra].
    apply negb_true_iff. destruct (Qeq_bool pe' 0) eqn:E; [|reflexivity].
    apply Qeq_bool_iff in E. lra. }
  rewrite Hpe, Hpe'.
  destruct (Qltb pe 10) eqn:H10; destruct (Qltb pe 15) eqn:H15;
    destruct (Qltb pe 20) eqn:H20; destruct (Qltb pe 25) eqn:H25;
    destruct (Qltb pe 35) eqn:H35;
    destruct (Qltb pe' 10) eqn:H10'; destruct (Qltb pe' 15) eqn:H15';
    destruct (Qltb pe' 20) eqn:H20'; destruct (Qltb pe' 25) eqn:H25';
    destruct (Qltb pe' 35) eqn:H35';
    try closed_q;
    exfalso;
    repeat match goal with
           | H : Qltb _ _ = true |- _ => apply Qltb_true in H
           | H : Qltb _ _ = false |- _ => apply Qltb_false in H
           end; lra.
Qed.

Lemma safety_of_monotone (cap cap' : Z) :
  (0 < cap)%Z -> (cap <= cap')%Z -> safety_of (Some cap) <= safety_of (Some cap').
Proof.
  intros Hpos Hle.
  unfold safety_of, calculate_derived_metrics. cbv zeta. cbn [safety_score market_cap].
  replace (negb (cap =? 0)%Z && (0 <? cap)%Z) with true
    by (symmetry; apply andb_true_iff; split;
        [apply negb_true_iff, Z.eqb_neq; lia | apply Z.ltb_lt; lia]).
  replace (negb (cap' =? 0)%Z && (0 <? cap')%Z) with true
    by (symmetry; apply andb_true_iff; split;
        [apply negb_true_iff, Z.eqb_neq; lia | apply Z.ltb_lt; lia]).
  assert (Hq : inject_Z cap / 1000000000 <= inject_Z cap' / 1000000000).
  { apply Qmult_le_compat_r; [|discriminate]. rewrite <- Zle_Qle. exact Hle. }
  set (b := inject_Z cap / 1000000000) in *.
  set (b' := inject_Z cap' / 1000000000) in *.
  destruct (Qltb 500 b) eqn:H1; destruct (Qltb 200 b) eqn:H2;
    destruct (Qltb 50 b) eqn:H3; destruct (Qltb 10 b) eqn:H4;
    destruct (Qltb 2 b) eqn:H5; destruct (Qltb (3 # 10) b) eqn:H6;
    destruct (Qltb 500 b') eqn:H1'; destruct (Qltb 200 b') eqn:H2';
    destruct (Qltb 50 b') eqn:H3'; destruct (Qltb 10 b') eqn:H4';
    destruct (Qltb 2 b') eqn:H5'; destruct (Qltb (3 # 10) b') eqn:H6';
    try closed_q;
    exfalso;
    repeat match goal with
           | H : Qltb _ _ = true |- _ => apply Qltb_true in H
           | H : Qltb _ _ = false |- _ => apply Qltb_false in H
           end; lra.
Qed.

Lemma volume_factor_monotone (v v' : Z) :
  (0 < v)%Z -> (v <= v')%Z -> volume_factor_of (Some v) <= volume_factor_of (Some v').
Proof.
  intros Hpos Hle. unfold volume_factor_of.
  replace (negb (v =? 0)%Z && (0 <? v)%Z) with true
    by (symmetry; apply andb_true_iff; split;
        [apply negb_true_iff, Z.eqb_neq; lia | apply Z.ltb_lt; lia]).
  replace (negb (v' =? 0)%Z && (0 <? v')%Z) with true
    by (symmetry; apply andb_true_iff; split;
        [apply negb_true_iff, Z.eqb_neq; lia | apply Z.ltb_lt; lia]).
  repeat match goal with
         | |- context [(?k <? v)%Z] => destruct (Z.ltb_spec k v)
         | |- context [(?k <? v')%Z] => destruct (Z.ltb_spec k v')
         end;
    try closed_q; exfalso; lia.
Qed.

(** X20: each score follows its own input in the direction the comments of
    the code state, whatever the other fields of the two tickers are: of
    two tickers with positive P/E ratios the one with the higher ratio never
    has the higher growth score; of two with positive market
    capitalisations the larger never has the lower safety score; of two
    with the same volume (or none) the one with more news never has the
    lower hype score; and of two with positive volumes the one with the
    larger volume and no less news never has the lower hype score (exact
    arithmetic). *)
Theorem derived_metrics_monotone (t t' : TickerInfo) (news news' : Z) :
  let m := calculate_derived_metrics t news in
  let m' := calculate_derived_metrics t' news' in
  (forall pe pe',
     pe_ratio t = Some pe -> pe_ratio t' = Some pe' -> 0 < pe -> pe <= pe' ->
     growth_score m' <= growth_score m)
  /\ (forall cap cap',
        market_cap t = Some cap -> market_cap t' = Some cap' -> (0 < cap <= cap')%Z ->
        safety_score m <= safety_score m')
  /\ (volume t = volume t' -> (news <= news')%Z -> hype_score m <= hype_score m')
  /\ (forall vol vol',
        volume t = Some vol -> volume t' = Some vol' -> (0 < vol <= vol')%Z ->
        (news <= news')%Z ->
        hype_score m <= hype_score m').
Proof.
  destruct (derived_metrics_fields t news) as (Hg & Hs & Hh).
  destruct (derived_metrics_fields t' news') as (Hg' & Hs' & Hh').
  cbv zeta in *. rewrite Hg, Hs, Hh, Hg', Hs', Hh'.
  assert (Hnews : (news <= news')%Z ->
            py_min (inject_Z news / 20) (3 # 10) <= py_min (inject_Z news' / 20) (3 # 10)).
  { intros Hle. apply py_min_monotone. apply Qmult_le_compat_r; [|discriminate].
    rewrite <- Zle_Qle. exact Hle. }
  split; [|split; [|split]].
  - intros pe pe' Ht Ht' Hpos Hle. rewrite Ht, Ht'.
    apply growth_of_antitone; assumption.
  - intros cap cap' Hc Hc' [Hpos Hle]. rewrite Hc, Hc'.
    apply safety_of_monotone; assumption.
  - intros Hsame Hle. rewrite Hsame, !hype_of_factors.
    apply round3_monotone, py_min_monotone.
    specialize (Hnews Hle). lra.
  - intros vol vol' Hv Hv' [Hpos Hvol] Hle. rewrite Hv, Hv', !hype_of_factors.
    apply round3_monotone, py_min_monotone.
    pose proof (volume_factor_monotone vol vol' Hpos Hvol) as Hfactor.
    specialize (Hnews Hle). lra.
Qed.

End DerivedMetricsProperties.

Lemma derived_metrics_in_range_witness :
  (2 # 10 <= FinancialDataService.hype_score
               (FinancialDataService.calculate_derived_metrics
                  (FinancialDataService.mk_ticker_info "AAPL" 190 (Some 2900000000000%Z)
                     (Some (29 # 1)) None None None None (Some 60000000%Z)) 12))%Q.
Proof.
  assert (Hnews : (0 <= 12)%Z) by lia.
  exact (proj2 (proj2 (proj2 (proj2
           (derived_metrics_in_range
              (FinancialDataService.mk_ticker_info "AAPL" 190 (Some 2900000000000%Z)
                 (Some (29 # 1)) None None None None (Some 60000000%Z)) 12)))) Hnews).
Defined.

Definition sample_ticker (pe : Q) (cap vol : Z) : FinancialDataService.TickerInfo :=
  FinancialDataService.mk_ticker_info "AAPL" 190 (Some cap) (Some pe) None None None None
    (Some vol).

(** Two tickers none of which has the higher value in every field, and
    one whose provider gave no volume. *)
Definition cheap_giant : FinancialDataService.TickerInfo :=
  sample_ticker (12 # 1) 300000000000 2000000.

Definition dear_dwarf : FinancialDataService.TickerInfo :=
  sample_ticker (30 # 1) 5000000000 70000000.

Definition no_volume : FinancialDataService.TickerInfo :=
  FinancialDataService.mk_ticker_info "GLD" 180 None None None None None None None.

Lemma derived_metrics_monotone_witness :
  (FinancialDataService.growth_score
     (FinancialDataService.calculate_derived_metrics dear_dwarf 1)
   <= FinancialDataService.growth_score
        (FinancialDataService.calculate_derived_metrics cheap_giant 4)
   /\ FinancialDataService.safety_score
        (FinancialDataService.calculate_derived_metrics dear_dwarf 1)
      <= FinancialDataService.safety_score
           (FinancialDataService.calculate_derived_metrics cheap_giant 4)
   /\ FinancialDataService.hype_score
        (FinancialDataService.calculate_derived_metrics cheap_giant 1)
      <= FinancialDataService.hype_score
           (FinancialDataService.calculate_derived_metrics dear_dwarf 1)
   /\ FinancialDataService.hype_score
        (FinancialDataService.calculate_derived_metrics no_volume 1)
      <= FinancialDataService.hype_score
           (FinancialDataService.calculate_derived_metrics no_volume 4))%Q.
Proof.
  assert (Hpe : (0 < 12 # 1)%Q) by reflexivity.
  assert (Hpe' : (12 # 1 <= 30 # 1)%Q) by discriminate.
  assert (Hcap : (0 < 5000000000 <= 300000000000)%Z) by lia.
  assert (Hvol : (0 < 2000000 <= 70000000)%Z) by lia.
  assert (Hsame : (1 <= 1)%Z) by lia.
  assert (Hnews : (1 <= 4)%Z) by lia.
  split; [|split; [|split]].
  - exact (proj1 (derived_metrics_monotone cheap_giant dear_dwarf 4 1)
             (12 # 1) (30 # 1) eq_refl eq_refl Hpe Hpe').
  - exact (proj1 (proj2 (derived_metrics_monotone dear_dwarf cheap_giant 1 4))
             5000000000%Z 300000000000%Z eq_refl eq_refl Hcap).
  - exact (proj2 (proj2 (proj2 (derived_metrics_monotone cheap_giant dear_dwarf 1 1)))
             2000000%Z 70000000%Z eq_refl eq_refl Hvol Hsame).
  - exact (proj1 (proj2 (proj2 (derived_metrics_monotone no_volume no_volume 1 4)))
             eq_refl Hnews).
Defined.

(* ================================================================== *)
(** * Further properties: the script gold.py *)

Section GoldScript.
Variable quote : string -> string.
Variable feedparser_parse : string -> option (list NewsAggregator.rss_entry).
Variable urlparse : string -> option (string * string).
Variable parse_qs_url : string -> option string.
Variable paragraph_text : string -> option string.

Local Abbreviation fetch_entries :=
  (Gold.fetch_entries urlparse parse_qs_url paragraph_text).
Local Abbreviation fetch_query :=
  (Gold.fetch_query quote feedparser_parse urlparse parse_qs_url paragraph_text).
Local Abbreviation fetch_news :=
  (Gold.fetch_news quote feedparser_parse urlparse parse_qs_url paragraph_text).

(** The content of a collected article: the text scraped from its URL when
    that has [MIN_CONTENT_LENGTH] characters, the title otherwise. *)
Definition gold_content_ok (a : Gold.article) : Prop :=
  let text := Gold.fetch_article_content paragraph_text (Gold.url a) in
  Gold.content a
  = (if String.length text <? Gold.MIN_CONTENT_LENGTH then Gold.title a else text).

(** Where a collected article comes from: an entry of the feed of one of
    the queries, among the first [ARTICLES_PER_QUERY], whose link resolves
    to its URL and whose title and date it has. *)
Definition gold_from_feed (queries : list string) (a : Gold.article) : Prop :=
  exists query entries entry link,
    query ∈ queries
    /\ feedparser_parse ("https://news.google.com/rss/search?q=" +:+ quote query)
       = Some entries
    /\ entry ∈ take Gold.ARTICLES_PER_QUERY entries
    /\ NewsAggregator.entry_link entry = Some link
    /\ Gold.url a = Gold.resolve_google_news_url urlparse parse_qs_url link
    /\ NewsAggregator.entry_title entry = Some (Gold.title a)
    /\ Gold.published a = default "" (NewsAggregator.entry_published entry).

(** The state of the loops of [fetch_news]: the set holds the URLs of the
    collected articles, which do not repeat. *)
Definition gold_state_ok (bound : nat) (st : gset string * list Gold.article) : Prop :=
  st.1 = list_to_set (map Gold.url st.2)
  /\ NoDup (map Gold.url st.2)
  /\ Forall gold_content_ok st.2
  /\ length st.2 <= bound.

Lemma gold_fetch_entries_ok (entries : list NewsAggregator.rss_entry) :
  forall bound st st',
    gold_state_ok bound st ->
    fetch_entries st entries = Some st' ->
    gold_state_ok (bound + length entries) st'.
Proof.
  induction entries as [|entry rest IH]; intros bound st st' Hst Hrun;
    cbn [Gold.fetch_entries length] in *.
  - injection Hrun as <-. rewrite Nat.add_0_r. exact Hst.
  - destruct (NewsAggregator.entry_link entry) as [link|]; cbn [mbind option_bind] in Hrun;
      [|discriminate].
    set (url := Gold.resolve_google_news_url urlparse parse_qs_url link) in *.
    replace (bound + S (length rest)) with (S bound + length rest) by lia.
    destruct Hst as (Hset & Hnodup & Hcontent & Hlen).
    case_bool_decide as Hseen.
    { apply (IH (S bound) st st'); [|exact Hrun].
      repeat split; try assumption. lia. }
    set (text := Gold.fetch_article_content paragraph_text url) in *.
    destruct (NewsAggregator.entry_title entry) as [title|] eqn:Htitle.
    2:{ destruct (String.length text <? Gold.MIN_CONTENT_LENGTH);
          cbn [mbind option_bind] in Hrun; discriminate. }
    assert (Hchoice :
      exists content,
        (if String.length text <? Gold.MIN_CONTENT_LENGTH then Some title else Some text)
        = Some content
        /\ content
           = (if String.length text <? Gold.MIN_CONTENT_LENGTH then title else text)).
    { destruct (String.length text <? Gold.MIN_CONTENT_LENGTH) eqn:Hshort.
      - exists title. split; reflexivity.
      - exists text. split; reflexivity. }
    destruct Hchoice as (content & Hchoice & Hcontent_ok).
    rewrite Hchoice in Hrun. cbn [mbind option_bind] in Hrun.
    refine (IH (S bound) _ st' _ Hrun).
    destruct st as [seen articles]. cbn [fst snd] in *.
    unfold gold_state_ok. cbn [fst snd].
    rewrite map_app, list_to_set_app_L, length_app. cbn [map list_to_set Gold.url length].
    subst seen. repeat split.
    + set_solver.
    + apply NoDup_app. repeat split; [exact Hnodup | | apply NoDup_singleton].
      intros x Hx Hx'. apply list_elem_of_singleton in Hx'. subst x.
      apply Hseen. apply elem_of_list_to_set. exact Hx.
    + apply Forall_app. split; [exact Hcontent|]. constructor; [|constructor].
      exact Hcontent_ok.
    + lia.
Qed.

Lemma gold_fetch_query_ok (query : string) (bound : nat)
    (st st' : gset string * list Gold.article) :
  gold_state_ok bound st ->
  fetch_query (Some st) query = Some st' ->
  gold_state_ok (bound + Gold.ARTICLES_PER_QUERY) st'.
Proof.
  intros Hst Hrun. unfold Gold.fetch_query in Hrun. cbn [mbind option_bind] in Hrun.
  destruct (feedparser_parse _) as [entries|]; cbn [mbind option_bind] in Hrun;
    [|discriminate].
  pose proof (gold_fetch_entries_ok _ bound st st' Hst Hrun) as (H1 & H2 & H3 & H4).
  pose proof (firstn_le_length Gold.ARTICLES_PER_QUERY entries) as Htake.
  repeat split; try assumption. lia.
Qed.

Lemma gold_fold_raised (queries : list string) :
  fold_left fetch_query queries None = None.
Proof. induction queries as [|q rest IH]; [reflexivity | exact IH]. Qed.

Lemma gold_fold_ok (queries : list string) :
  forall bound st st',
    gold_state_ok bound st ->
    fold_left fetch_query queries (Some st) = Some st' ->
    gold_state_ok (bound + length queries * Gold.ARTICLES_PER_QUERY) st'.
Proof.
  induction queries as [|q rest IH]; intros bound st st' Hst Hrun; cbn [fold_left length] in *.
  - injection Hrun as <-. cbn. rewrite Nat.add_0_r. exact Hst.
  - destruct (fetch_query (Some st) q) as [st1|] eqn:Hq.
    2:{ rewrite gold_fold_raised in Hrun. discriminate. }
    pose proof (gold_fetch_query_ok q bound st st1 Hst Hq) as Hst1.
    pose proof (IH _ st1 st' Hst1 Hrun) as (H1 & H2 & H3 & H4).
    repeat split; try assumption. lia.
Qed.

Lemma gold_fold_feed_raises (queries : list string) :
  Exists (fun query =>
            feedparser_parse ("https://news.google.com/rss/search?q=" +:+ quote query) = None)
         queries ->
  forall st, fold_left fetch_query queries st = None.
Proof.
  induction 1 as [query rest Hfeed | query rest _ IH]; intros st; cbn [fold_left].
  - replace (fetch_query st query) with (@None (gset string * list Gold.article));
      [apply gold_fold_raised|].
    unfold Gold.fetch_query. destruct st; cbn [mbind option_bind]; [|reflexivity].
    rewrite Hfeed. reflexivity.
  - apply IH.
Qed.

(** The entries an article can come from. *)
Definition gold_from_entries (entries : list NewsAggregator.rss_entry)
    (a : Gold.article) : Prop :=
  exists entry link,
    entry ∈ entries
    /\ NewsAggregator.entry_link entry = Some link
    /\ Gold.url a = Gold.resolve_google_news_url urlparse parse_qs_url link
    /\ NewsAggregator.entry_title entry = Some (Gold.title a)
    /\ Gold.published a = default "" (NewsAggregator.entry_published entry).

Lemma gold_fetch_entries_from (P : Gold.article -> Prop)
    (entries : list NewsAggregator.rss_entry) :
  forall st st',
    (forall a, gold_from_entries entries a -> P a) ->
    Forall P st.2 ->
    fetch_entries st entries = Some st' ->
    Forall P st'.2.
Proof.
  induction entries as [|entry rest IH]; intros st st' Hfrom Hst Hrun;
    cbn [Gold.fetch_entries] in Hrun.
  - injection Hrun as <-. exact Hst.
  - assert (Hrest : forall a, gold_from_entries rest a -> P a).
    { intros a (e & link & He & Hl & Hu & Ht & Hp). apply Hfrom.
      exists e, link. repeat split; try assumption. apply list_elem_of_further. exact He. }
    destruct (NewsAggregator.entry_link entry) as [link|] eqn:Hlink;
      cbn [mbind option_bind] in Hrun; [|discriminate].
    case_bool_decide as Hseen; [exact (IH st st' Hrest Hst Hrun)|].
    destruct (NewsAggregator.entry_title entry) as [title|] eqn:Htitle.
    2:{ destruct (String.length _ <? Gold.MIN_CONTENT_LENGTH);
          cbn [mbind option_bind] in Hrun; discriminate. }
    match type of Hrun with
    | context [if ?c then Some title else Some ?text] =>
        destruct (if c then Some title else Some text) as [content|] eqn:Hchoice;
          [|destruct c; discriminate Hchoice]
    end.
    cbn [mbind option_bind] in Hrun.
    refine (IH _ st' Hrest _ Hrun). cbn [snd].
    apply Forall_app. split; [exact Hst|]. constructor; [|constructor].
    apply Hfrom. exists entry, link. cbn [Gold.url Gold.title Gold.published].
    repeat split; try assumption; try reflexivity. apply list_elem_of_here.
Qed.

Lemma gold_fold_from (queries : list string) (qs : list string) :
  forall st st',
    qs ⊆ queries ->
    Forall (gold_from_feed queries) st.2 ->
    fold_left fetch_query qs (Some st) = Some st' ->
    Forall (gold_from_feed queries) st'.2.
Proof.
  induction qs as [|q rest IH]; intros st st' Hsub Hst Hrun; cbn [fold_left] in Hrun.
  - injection Hrun as <-. exact Hst.
  - destruct (fetch_query (Some st) q) as [st1|] eqn:Hq.
    2:{ rewrite gold_fold_raised in Hrun. discriminate. }
    refine (IH st1 st' _ _ Hrun).
    { intros x Hx. apply Hsub. apply list_elem_of_further. exact Hx. }
    unfold Gold.fetch_query in Hq. cbn [mbind option_bind] in Hq.
    destruct (feedparser_parse _) as [entries|] eqn:Hfeed; cbn [mbind option_bind] in Hq;
      [|discriminate].
    refine (gold_fetch_entries_from _ _ st st1 _ Hst Hq).
    intros a (entry & link & He & Hl & Hu & Ht & Hp).
    exists q, entries, entry, link. repeat split; try assumption.
    apply Hsub. apply list_elem_of_here.
Qed.

(** X21: the first script of gold.py.  When [fetch_news] returns, the
    articles have pairwise distinct URLs and there are at most 48 of them
    (six queries of eight entries); each has the title and the date of one
    of the first eight entries of the feed of one of the six queries, and
    as its URL what the link of that entry resolves to; and its content is
    the text scraped from that URL when the text has [MIN_CONTENT_LENGTH]
    characters, and the title otherwise.  But the function has no handler
    of its own: when the feed of one of the six queries raises,
    [fetch_news] raises. *)
Theorem gold_fetch_news_distinct :
  (forall articles,
     fetch_news = Some articles ->
     NoDup (map Gold.url articles)
     /\ Forall (gold_from_feed Gold.QUERIES) articles
     /\ Forall gold_content_ok articles
     /\ length articles <= 48)
  /\ (Exists (fun query =>
                feedparser_parse ("https://news.google.com/rss/search?q=" +:+ quote query)
                = None)
             Gold.QUERIES ->
      fetch_news = None).
Proof.
  split.
  - intros articles Hrun. unfold Gold.fetch_news in Hrun.
    destruct (fold_left fetch_query Gold.QUERIES (Some (∅, []))) as [st|] eqn:Hfold;
      cbn [mbind option_bind] in Hrun; [|discriminate].
    injection Hrun as <-.
    assert (Hinit : gold_state_ok 0 (∅, [])).
    { repeat split; [constructor | constructor | cbn; lia]. }
    destruct (gold_fold_ok Gold.QUERIES 0 _ st Hinit Hfold) as (_ & Hnodup & Hcontent & Hlen).
    pose proof (gold_fold_from Gold.QUERIES Gold.QUERIES (∅, []) st
                  ltac:(intros x Hx; exact Hx) ltac:(constructor) Hfold) as Hfrom.
    repeat split; assumption.
  - intros Hfeed. unfold Gold.fetch_news.
    rewrite (gold_fold_feed_raises Gold.QUERIES Hfeed). reflexivity.
Qed.

End GoldScript.

(** A feed of two entries, the same for every query, and a page with text
    for the first of them only. *)
Definition gold_sample_feed (rss_url : string) : option (list NewsAggregator.rss_entry) :=
  Some [sample_entry "Gold hits record" "https://example.com/a";
        sample_entry "Gold slips" "https://example.com/b"].

Definition gold_sample_text : string :=
  "Gold rose to a record on Monday as investors looked for safety, and analysts said that the rally may go on for some months yet.".

Definition gold_sample_page (url : string) : option string :=
  if String.eqb url "https://example.com/a" then Some ("  " +:+ gold_sample_text)
  else None.

Definition gold_sample_articles : list Gold.article :=
  [Gold.mk_article "Gold hits record" "https://example.com/a"
     "Mon, 01 Jan 2024 12:00:00 GMT" gold_sample_text;
   Gold.mk_article "Gold slips" "https://example.com/b"
     "Mon, 01 Jan 2024 12:00:00 GMT" "Gold slips"].

Lemma gold_fetch_news_distinct_witness :
  (Gold.fetch_news (fun q => q) gold_sample_feed (fun _ => None) (fun _ => None)
     gold_sample_page = Some gold_sample_articles
   /\ NoDup (map Gold.url gold_sample_articles)
   /\ Forall (gold_content_ok gold_sample_page) gold_sample_articles)
  /\ Gold.fetch_news (fun q => q) (fun _ => None) (fun _ => None) (fun _ => None)
       (fun _ => None) = None.
Proof.
  assert (Hrun : Gold.fetch_news (fun q => q) gold_sample_feed (fun _ => None)
                   (fun _ => None) gold_sample_page = Some gold_sample_articles).
  { vm_compute. reflexivity. }
  assert (Hfeed :
    Exists (fun query : string =>
              (fun _ : string => @None (list NewsAggregator.rss_entry))
                ("https://news.google.com/rss/search?q=" +:+ (fun q : string => q) query)
              = None)
           Gold.QUERIES).
  { left. reflexivity. }
  split; [split; [exact Hrun|]|].
  - pose proof (proj1 (gold_fetch_news_distinct (fun q => q) gold_sample_feed
                         (fun _ => None) (fun _ => None) gold_sample_page)
                  gold_sample_articles Hrun) as (Hnodup & _ & Hcontent & _).
    split; [exact Hnodup | exact Hcontent].
  - exact (proj2 (gold_fetch_news_distinct (fun q => q) (fun _ => None) (fun _ => None)
                    (fun _ => None) (fun _ => None)) Hfeed).
Defined.

(* ================================================================== *)
(** * Further properties: unanimous units and the dictionaries of a unit *)

Section Unanimous.
Local Open Scope Q_scope.

Lemma sums_unanimous (label : string) (articles : list (AnalyzedArticle.t Q)) :
  Forall (fun a => (unit_score a).1 = label) articles ->
  weighted_sum (map unit_score articles)
  == AnalysisReport.direction label * weight_sum (map unit_score articles).
Proof.
  induction 1 as [|a rest Ha _ IH]; cbn [map weighted_sum weight_sum foldr]; [ring|].
  fold (weighted_sum (map unit_score rest)). fold (weight_sum (map unit_score rest)).
  rewrite IH, Ha. ring.
Qed.

Lemma net_score_unanimous (label : string) (articles : list (AnalyzedArticle.t Q)) :
  Forall (fun a => (unit_score a).1 = label) articles ->
  0 < weight_sum (map unit_score articles) ->
  AnalysisReport._calculate_net_sentiment_score articles
  == AnalysisReport.direction label.
Proof.
  intros Hall Hweight.
  destruct (net_score_quotient articles) as [Hpos _]. cbn zeta in Hpos.
  rewrite (Hpos Hweight), (sums_unanimous label articles Hall). field. lra.
Qed.

(** X22: unanimous units give the extreme answers.  When the confidences
    add up to a positive weight and every unit has the label Positive, the
    net score is 1 and the signal BULLISH; with the label Negative it is -1
    and BEARISH; with the label Neutral it is 0 and NEUTRAL (exact
    arithmetic). *)
Theorem unanimous_units_are_extreme (articles : list (AnalyzedArticle.t Q)) :
  0 < weight_sum (map unit_score articles) ->
  let net := AnalysisReport._calculate_net_sentiment_score articles in
  let signal := AnalysisReport._determine_market_signal net in
  (Forall (fun a => (unit_score a).1 = "Positive") articles ->
   net == 1 /\ signal = "BULLISH")
  /\ (Forall (fun a => (unit_score a).1 = "Negative") articles ->
      net == -1 /\ signal = "BEARISH")
  /\ (Forall (fun a => (unit_score a).1 = "Neutral") articles ->
      net == 0 /\ signal = "NEUTRAL").
Proof.
  intros Hweight. cbv zeta.
  split; [|split]; intros Hall;
    pose proof (net_score_unanimous _ articles Hall Hweight) as Hnet;
    (split; [exact Hnet|]);
    rewrite (determine_market_signal_Qeq _ _ Hnet); reflexivity.
Qed.

End Unanimous.

Lemma unanimous_units_are_extreme_witness :
  AnalysisReport._determine_market_signal
    (AnalysisReport._calculate_net_sentiment_score
       [sample_unit "Negative" (6 # 10)%Q; sample_unit "Negative" (9 # 10)%Q])
  = "BEARISH".
Proof.
  assert (Hweight : (0 < weight_sum
                         (map unit_score
                            [sample_unit "Negative" (6 # 10)%Q;
                             sample_unit "Negative" (9 # 10)%Q]))%Q) by reflexivity.
  assert (Hall : Forall (fun a : AnalyzedArticle.t Q => (unit_score a).1 = "Negative")
                   [sample_unit "Negative" (6 # 10)%Q; sample_unit "Negative" (9 # 10)%Q]).
  { repeat constructor. }
  exact (proj2 (proj1 (proj2 (unanimous_units_are_extreme _ Hweight)) Hall)).
Defined.

Section UnitDictionaries.
Context {R : Type} `{!PyFloat R}.

Lemma get_app_l {V : Type} (key : string) (d extra : list (string * V)) :
  is_Some (PyDict.get key d) -> PyDict.get key (d ++ extra) = PyDict.get key d.
Proof.
  induction d as [|[k w] d IH]; cbn [PyDict.get app]; [intros [v Hv]; discriminate|].
  destruct (String.eqb key k); [reflexivity | exact IH].
Qed.

Lemma only_fields_refuses (fields : list string) (data : list (string * pyval R))
    (key : string) :
  key ∈ PyDict.keys data ->
  PyStr.in_list key fields = false ->
  PyVal.only_fields fields data = false.
Proof.
  intros Hkey Hfield. unfold PyVal.only_fields.
  destruct (forallb _ _) eqn:Hall; [|reflexivity].
  rewrite forallb_forall in Hall.
  rewrite (Hall key) in Hfield; [discriminate|].
  apply list_elem_of_In. exact Hkey.
Qed.

(** A constructor whose keyword argument [field] is missing raises. *)
Ltac missing_field Hget :=
  repeat match goal with
         | |- None = None => reflexivity
         | |- (if ?c then _ else None) = None => destruct c; [|reflexivity]
         | |- mbind _ ?x = None =>
             first
               [ replace x with (@None (pyval R)) by (rewrite Hget; reflexivity);
                 reflexivity
               | replace x with (@None string)
                   by (unfold PyVal.field_str; rewrite Hget; reflexivity);
                 reflexivity
               | replace x with (@None R)
                   by (unfold PyVal.field_float; rewrite Hget; reflexivity);
                 reflexivity
               | replace x with (@None (list (string * R)))
                   by (unfold PyVal.field_dict; rewrite Hget; reflexivity);
                 reflexivity
               | replace x with (@None Article.t)
                   by (unfold PyVal.field_dict; rewrite Hget; reflexivity);
                 reflexivity
               | replace x with (@None (HeadlineSentiment.t R))
                   by (unfold PyVal.field_dict; rewrite Hget; reflexivity);
                 reflexivity
               | replace x with (@None (ContentSentiment.t R))
                   by (unfold PyVal.field_dict; rewrite Hget; reflexivity);
                 reflexivity
               | destruct x; cbn [mbind option_bind] ]
         end.

Lemma article_needs_fields (data : list (string * pyval R)) (field : string) :
  field ∈ ["title"; "url"; "published"; "content"; "source_type"] ->
  PyDict.get field data = None ->
  Article.from_dict data = None.
Proof.
  intros Hfield Hget. unfold Article.from_dict.
  apply list_elem_of_In in Hfield. cbn [In] in Hfield.
  repeat (destruct Hfield as [<- | Hfield]); try contradiction; missing_field Hget.
Qed.

Lemma headline_needs_fields (data : list (string * pyval R)) (field : string) :
  field ∈ ["score"; "label"] ->
  PyDict.get field data = None ->
  HeadlineSentiment.from_dict data = None.
Proof.
  intros Hfield Hget. unfold HeadlineSentiment.from_dict.
  apply list_elem_of_In in Hfield. cbn [In] in Hfield.
  repeat (destruct Hfield as [<- | Hfield]); try contradiction; missing_field Hget.
Qed.

Lemma content_needs_fields (data : list (string * pyval R)) (field : string) :
  field ∈ ["confidence"; "label"; "probabilities"] ->
  PyDict.get field data = None ->
  ContentSentiment.from_dict data = None.
Proof.
  intros Hfield Hget. unfold ContentSentiment.from_dict.
  apply list_elem_of_In in Hfield. cbn [In] in Hfield.
  repeat (destruct Hfield as [<- | Hfield]); try contradiction; missing_field Hget.
Qed.

Lemma analyzed_needs_fields (data : list (string * pyval R)) (field : string) :
  field ∈ ["article"; "headline_sentiment"; "content_sentiment"] ->
  PyDict.get field data = None ->
  AnalyzedArticle.from_dict data = None.
Proof.
  intros Hfield Hget. unfold AnalyzedArticle.from_dict.
  apply list_elem_of_In in Hfield. cbn [In] in Hfield.
  repeat (destruct Hfield as [<- | Hfield]); try contradiction; missing_field Hget.
Qed.

(** X23: the dictionaries of a unit.  [from_dict] applied to [to_dict]
    gives back every article, headline score, content score and analysed
    article, valid or not.  Each of the three dataclasses built from
    keyword arguments refuses (raises on) every dictionary that has a key
    that is no field of the class, and every dictionary that lacks one of
    its fields, whichever; [AnalyzedArticle.from_dict] raises on every
    dictionary that lacks one of its three keys, reads those three and
    ignores whatever else the dictionary holds. *)
Theorem unit_dictionaries_round_trip (a : AnalyzedArticle.t R)
    (data extra : list (string * pyval R)) :
  (Article.from_dict (R:=R) (Article.to_dict (AnalyzedArticle.article a))
   = Some (AnalyzedArticle.article a)
   /\ HeadlineSentiment.from_dict
        (HeadlineSentiment.to_dict (AnalyzedArticle.headline_sentiment a))
      = Some (AnalyzedArticle.headline_sentiment a)
   /\ ContentSentiment.from_dict
        (ContentSentiment.to_dict (AnalyzedArticle.content_sentiment a))
      = Some (AnalyzedArticle.content_sentiment a)
   /\ AnalyzedArticle.from_dict (AnalyzedArticle.to_dict a) = Some a)
  /\ (forall key,
        (key ∈ PyDict.keys data
         /\ PyStr.in_list key ["title"; "url"; "published"; "content"; "source_type"] = false)
        \/ (key ∈ ["title"; "url"; "published"; "content"; "source_type"]
            /\ PyDict.get key data = None) ->
        Article.from_dict data = None)
  /\ (forall key,
        (key ∈ PyDict.keys data /\ PyStr.in_list key ["score"; "label"] = false)
        \/ (key ∈ ["score"; "label"] /\ PyDict.get key data = None) ->
        HeadlineSentiment.from_dict data = None)
  /\ (forall key,
        (key ∈ PyDict.keys data
         /\ PyStr.in_list key ["confidence"; "label"; "probabilities"] = false)
        \/ (key ∈ ["confidence"; "label"; "probabilities"] /\ PyDict.get key data = None) ->
        ContentSentiment.from_dict data = None)
  /\ (forall key,
        key ∈ ["article"; "headline_sentiment"; "content_sentiment"] ->
        PyDict.get key data = None ->
        AnalyzedArticle.from_dict data = None)
  /\ AnalyzedArticle.from_dict (AnalyzedArticle.to_dict a ++ extra) = Some a.
Proof.
  split; [|split; [|split; [|split; [|split]]]].
  - split; [apply article_round_trip|]. split; [apply headline_round_trip|].
    split; [apply content_round_trip | apply analyzed_article_round_trip].
  - intros key [[Hkey Hfield] | [Hfield Hget]].
    + unfold Article.from_dict.
      rewrite (only_fields_refuses _ _ key Hkey Hfield). reflexivity.
    + exact (article_needs_fields data key Hfield Hget).
  - intros key [[Hkey Hfield] | [Hfield Hget]].
    + unfold HeadlineSentiment.from_dict.
      rewrite (only_fields_refuses _ _ key Hkey Hfield). reflexivity.
    + exact (headline_needs_fields data key Hfield Hget).
  - intros key [[Hkey Hfield] | [Hfield Hget]].
    + unfold ContentSentiment.from_dict.
      rewrite (only_fields_refuses _ _ key Hkey Hfield). reflexivity.
    + exact (content_needs_fields data key Hfield Hget).
  - intros key Hfield Hget. exact (analyzed_needs_fields data key Hfield Hget).
  - pose proof (analyzed_article_round_trip a) as Hround.
    unfold AnalyzedArticle.from_dict, PyVal.field_dict in *.
    rewrite (get_app_l "article" (AnalyzedArticle.to_dict a) extra),
      (get_app_l "headline_sentiment" (AnalyzedArticle.to_dict a) extra),
      (get_app_l "content_sentiment" (AnalyzedArticle.to_dict a) extra);
      try (eexists; reflexivity).
    exact Hround.
Qed.

End UnitDictionaries.

(** The dictionary of the sample article without its URL, and with the
    name of its author. *)
Definition article_without_url : list (string * pyval Q) :=
  [("title", PStr "Gold hits record"); ("published", PStr "Mon, 01 Jan 2024 12:00:00 GMT");
   ("content", PStr "Gold hits record"); ("source_type", PStr "Headline Only")].

Definition article_with_author : list (string * pyval Q) :=
  Article.to_dict sample_article ++ [("author", PStr "Reuters")].

Lemma unit_dictionaries_round_trip_witness :
  Article.from_dict article_without_url = None
  /\ Article.from_dict article_with_author = None
  /\ HeadlineSentiment.from_dict (R:=Q) [("label", PStr "Positive")] = None
  /\ ContentSentiment.from_dict (R:=Q)
       [("confidence", PFloat (9 # 10)%Q); ("label", PStr "Positive")] = None
  /\ AnalyzedArticle.from_dict (R:=Q)
       [("article", PDict (Article.to_dict sample_article))] = None.
Proof.
  assert (Hurl : "url" ∈ ["title"; "url"; "published"; "content"; "source_type"]).
  { apply list_elem_of_further, list_elem_of_here. }
  assert (Hauthor : "author" ∈ PyDict.keys article_with_author).
  { do 5 apply list_elem_of_further. apply list_elem_of_here. }
  assert (Hscore : "score" ∈ ["score"; "label"]) by apply list_elem_of_here.
  assert (Hprob : "probabilities" ∈ ["confidence"; "label"; "probabilities"]).
  { do 2 apply list_elem_of_further. apply list_elem_of_here. }
  assert (Hcontent : "content_sentiment"
                     ∈ ["article"; "headline_sentiment"; "content_sentiment"]).
  { do 2 apply list_elem_of_further. apply list_elem_of_here. }
  split; [|split; [|split; [|split]]].
  - exact (proj1 (proj2 (unit_dictionaries_round_trip (sample_unit "Positive" (9 # 10)%Q)
                           article_without_url []))
             "url" (or_intror (conj Hurl eq_refl))).
  - exact (proj1 (proj2 (unit_dictionaries_round_trip (sample_unit "Positive" (9 # 10)%Q)
                           article_with_author []))
             "author" (or_introl (conj Hauthor eq_refl))).
  - exact (proj1 (proj2 (proj2 (unit_dictionaries_round_trip
                                  (sample_unit "Positive" (9 # 10)%Q)
                                  [("label", PStr "Positive")] [])))
             "score" (or_intror (conj Hscore eq_refl))).
  - exact (proj1 (proj2 (proj2 (proj2 (unit_dictionaries_round_trip
                                         (sample_unit "Positive" (9 # 10)%Q)
                                         [("confidence", PFloat (9 # 10)%Q);
                                          ("label", PStr "Positive")] []))))
             "probabilities" (or_intror (conj Hprob eq_refl))).
  - exact (proj1 (proj2 (proj2 (proj2 (proj2 (unit_dictionaries_round_trip
                                                (sample_unit "Positive" (9 # 10)%Q)
                                                [("article",
                                                  PDict (Article.to_dict sample_article))]
                                                [])))))
             "content_sentiment" Hcontent eq_refl).
Defined.
